(** * OpenInsider scraper: the fetch / cache / filter / aggregate pipeline

    A shallow embedding of [openinsiderData/openinsider_scraper.py], and of
    the scripts that consume its CSV: [extractor.py],
    [insider-bot-integration.py] and the log of [app.py].

    - Python [str] values are byte strings ([string]); the operations the
      scraper applies to them ([lower], [replace], [strip], [float]) are
      modelled on their ASCII behaviour: letters, blanks and digits outside
      ASCII are left alone, and [float] refuses them. The one exception is
      [remove_blanks], which reads the bytes as UTF-8 and drops the blanks
      beyond ASCII as [str.split] does.
    - Python [float] values are IEEE binary64 numbers, modelled by
      [spec_float] at precision 53 and maximal exponent 1024, in canonical
      form (as [of_Z], [of_decimal] and [sub] below produce them).
    - Python [set]s of tuples are [gset (list string)].
    - Files, the network, the clock and the log are explicit: a [world]
      carries the file system and the trace of effects, an [oracle] answers
      for the outside (clock readings, HTTP outcomes, disk failures).
    - A pandas row is a list of cells by column name, a cell a string, an
      integer or a float. What the consumers get from outside (the CSV
      found, the quotes of the price services, whether the scraper ran) is
      an argument of their model; [repr], [round], [hash] and string
      formatting of floats are taken as they are, as section variables. *)

From Stdlib Require Import ZArith List Ascii String Bool DecimalString DecimalZ.
From Stdlib Require Import Floats.SpecFloat.
From stdpp Require Import base option list gmap strings sets sorting.

Local Open Scope string_scope.
Local Open Scope list_scope.
Local Open Scope Z_scope.

(** ** Python strings *)

Module PyStr.

Definition code (c : ascii) : N := N_of_ascii c.

Definition is_digit (c : ascii) : bool :=
  ((48 <=? code c) && (code c <=? 57))%N.

Definition is_upper (c : ascii) : bool :=
  ((65 <=? code c) && (code c <=? 90))%N.

(** [Py_ISSPACE]: the blanks [float] skips around a number. *)
Definition is_c_space (c : ascii) : bool :=
  ((code c =? 32) || ((9 <=? code c) && (code c <=? 13)))%N.

(** [str.isspace] on ASCII: the blanks [str.strip] removes. *)
Definition is_py_space (c : ascii) : bool :=
  (is_c_space c || ((28 <=? code c) && (code c <=? 31)))%N.

Definition lower_char (c : ascii) : ascii :=
  if is_upper c then ascii_of_N (code c + 32) else c.

(** [s.lower()] *)
Fixpoint lower (s : string) : string :=
  match s with
  | EmptyString => EmptyString
  | String c r => String (lower_char c) (lower r)
  end.

(** [s.replace(c, '')] for a one-character [c] *)
Fixpoint remove (c : ascii) (s : string) : string :=
  match s with
  | EmptyString => EmptyString
  | String d r => if Ascii.eqb c d then remove c r else String d (remove c r)
  end.

Fixpoint drop_while (p : ascii -> bool) (s : string) : string :=
  match s with
  | EmptyString => EmptyString
  | String c r => if p c then drop_while p r else s
  end.

Fixpoint rev_onto (s acc : string) : string :=
  match s with
  | EmptyString => acc
  | String c r => rev_onto r (String c acc)
  end.

Definition rev (s : string) : string := rev_onto s EmptyString.

Definition strip_with (p : ascii -> bool) (s : string) : string :=
  rev (drop_while p (rev (drop_while p s))).

(** [s.strip()] *)
Definition strip (s : string) : string := strip_with is_py_space s.

(** [x in xs] for a list of strings *)
Definition mem (x : string) (xs : list string) : bool :=
  existsb (String.eqb x) xs.

(** The longest prefix of decimal digits, and what follows it. *)
Fixpoint span_digits (s : string) : string * string :=
  match s with
  | String c r =>
      if is_digit c
      then let '(d, t) := span_digits r in (String c d, t)
      else (EmptyString, s)
  | EmptyString => (EmptyString, EmptyString)
  end.

Definition digit_val (c : ascii) : N := (code c - 48)%N.

Fixpoint digits_value_from (acc : N) (s : string) : N :=
  match s with
  | EmptyString => acc
  | String c r => digits_value_from (10 * acc + digit_val c)%N r
  end.

Definition digits_value (s : string) : N := digits_value_from 0%N s.

(** An optional leading sign; [true] stands for minus. *)
Definition take_sign (s : string) : bool * string :=
  match s with
  | String "-" r => (true, r)
  | String "+" r => (false, r)
  | _ => (false, s)
  end.

End PyStr.

(** ** Python floats: IEEE binary64 *)

Module PyFloat.

Abbreviation float := spec_float.

Definition prec : Z := 53.
Definition emax : Z := 1024.

Definition zero : float := S754_zero false.

(** [float(z)] for an integer [z], rounded to nearest even. *)
Definition of_Z (z : Z) : float := binary_normalize prec emax z 0 false.

(** [x - y], [x < y] and [abs(x)] on floats. *)
Definition sub (x y : float) : float := SFsub prec emax x y.
Definition ltb (x y : float) : bool := SFltb x y.
Definition abs (x : float) : float := SFabs x.

(** [x < z] for a float [x] and an [int] [z]: Python compares the two
    exactly, without converting [z] to a float first. *)
Definition lt_int (x : float) (z : Z) : bool :=
  match x with
  | S754_nan => false
  | S754_infinity s => s
  | S754_zero _ => 0 <? z
  | S754_finite s m e =>
      let v := cond_Zopp s (Zpos m) in
      if 0 <=? e then v * 2 ^ e <? z else v <? z * 2 ^ (- e)
  end.

(** A number read from the YAML configuration: an [int] or a [float]. *)
Inductive number :=
| Int (z : Z)
| Float (y : float).

(** [x < y] for a float [x] and a configured number [y]. *)
Definition lt_number (x : float) (y : number) : bool :=
  match y with
  | Int z => lt_int x z
  | Float y => ltb x y
  end.

(** The exact value of [x] is the fraction [num / den] ([den] positive). *)
Definition is_ratio (x : float) (num den : Z) : bool :=
  match x with
  | S754_zero _ => num =? 0
  | S754_finite s m e =>
      let v := cond_Zopp s (Zpos m) in
      if 0 <=? e then v * 2 ^ e * den =? num else v * den =? num * 2 ^ (- e)
  | _ => false
  end.

(** The binary64 number nearest to [(-1)^neg * m * 10^e10] (ties to even):
    what the C routine behind [float] returns for a decimal numeral. *)
Definition of_decimal (neg : bool) (m : N) (e10 : Z) : float :=
  match m with
  | N0 => S754_zero neg
  | Npos p =>
      if 0 <=? e10
      then binary_round prec emax neg (Z.to_pos (Zpos p * 10 ^ e10)) 0
      else SFdiv prec emax (S754_finite neg p 0)
                           (S754_finite false (Z.to_pos (10 ^ (- e10))) 0)
  end.

(** Underscores may only sit between two digits; they are dropped. *)
Fixpoint drop_underscores (prev : ascii) (s : string) : option string :=
  match s with
  | EmptyString => if Ascii.eqb prev "_" then None else Some EmptyString
  | String c r =>
      if Ascii.eqb c "_"
      then if PyStr.is_digit prev then drop_underscores c r else None
      else if Ascii.eqb prev "_" && negb (PyStr.is_digit c) then None
      else String c <$> drop_underscores c r
  end.

(** digits [. digits] [e [sign] digits], at least one mantissa digit, the
    whole string consumed. *)
Definition parse_decimal (neg : bool) (s : string) : option float :=
  let '(ip, s1) := PyStr.span_digits s in
  let '(fp, s2) :=
    match s1 with
    | String "." r => PyStr.span_digits r
    | _ => (EmptyString, s1)
    end in
  if (String.length ip + String.length fp =? 0)%nat then None else
  let mant := PyStr.digits_value (ip ++ fp)%string in
  let shift := Z.of_nat (String.length fp) in
  match s2 with
  | EmptyString => Some (of_decimal neg mant (- shift))
  | String c r =>
      if Ascii.eqb c "e" || Ascii.eqb c "E" then
        let '(eneg, r1) := PyStr.take_sign r in
        let '(ed, r2) := PyStr.span_digits r1 in
        match ed, r2 with
        | String _ _, EmptyString =>
            let x := Z.of_N (PyStr.digits_value ed) in
            Some (of_decimal neg mant ((if eneg then - x else x) - shift))
        | _, _ => None
        end
      else None
  end.

(** [float(s)] for a string [s]; [None] stands for [ValueError]. *)
Definition from_string (s : string) : option float :=
  s1 ← drop_underscores "000" s;
  let s2 := PyStr.strip_with PyStr.is_c_space s1 in
  match s2 with
  | EmptyString => None
  | _ =>
      let '(neg, body) := PyStr.take_sign s2 in
      let low := PyStr.lower body in
      if String.eqb low "inf" || String.eqb low "infinity"
      then Some (S754_infinity neg)
      else if String.eqb low "nan" then Some S754_nan
      else parse_decimal neg body
  end.

End PyFloat.

(** ** Configuration and data *)

(** [ScraperConfig], field for field. The dataclass does not enforce its
    annotations: [min_transaction_value], annotated [float], holds whatever
    number the YAML file gives, [25000] being an [int]. *)
Record ScraperConfig := {
  output_dir : string;
  output_file : string;
  output_format : string;
  start_year : Z;
  start_month : Z;
  max_workers : Z;
  retry_attempts : Z;
  timeout : Z;
  min_transaction_value : PyFloat.number;
  transaction_types : list string;
  exclude_companies : list string;
  include_companies : list string;
  min_shares_traded : Z;
  log_level : string;
  log_file : string;
  rotate_logs : bool;
  max_log_size : Z;
  cache_enabled : bool;
  cache_dir : string;
  cache_max_age : Z
}.

(** A Python [dict] from strings to strings, in insertion order. *)
Abbreviation dict := (list (string * string)).

Fixpoint dict_get (k : string) (d : dict) : option string :=
  match d with
  | [] => None
  | (k', v) :: d' => if String.eqb k k' then Some v else dict_get k d'
  end.

(** [d.values()] *)
Definition dict_values (d : dict) : list string := d.*2.

(** A Python tuple of strings; a Record is such a tuple of 12 fields. *)
Abbreviation tuple := (list string).

(** The exceptions the scraper can meet, all subclasses of [Exception]. *)
Inductive exn :=
| KeyError (key : string)
| ValueError (msg : string)
| AttributeError (msg : string)
| OSError (msg : string)
| RequestException (msg : string)
| JSONDecodeError (msg : string)
| OverflowError (msg : string).

Inductive result (A : Type) :=
| Ok (a : A)
| Raise (e : exn).
Arguments Ok {A} a.
Arguments Raise {A} e.

(** The cache file of a work unit:
    [Path(cache_dir) / f"data_{year}_{month}.json"]. *)
Record path := CachePath { p_dir : string; p_year : Z; p_month : Z }.

#[global] Instance path_eq_dec : EqDecision path.
Proof. solve_decision. Defined.

#[global] Instance path_countable : Countable path.
Proof.
  refine (inj_countable' (fun p => (p_dir p, p_year p, p_month p))
                         (fun t => CachePath t.1.1 t.1.2 t.2) _).
  by intros [].
Defined.

(** A file on disk: its modification time and what [json.load] makes of it,
    [None] when reading or decoding it raises. *)
Record file := File { mtime : PyFloat.float; content : option (list tuple) }.

(** What [BeautifulSoup] finds in a response body: no [tinytable], a table
    without [tbody], or the [td] texts of each [tr]. *)
Inductive page :=
| NoTable
| NoTbody
| Table (rows : list (list string)).

Inductive level := INFO | WARNING | ERROR.

Inductive message :=
| NoTableFound (month year : Z)
| FailedToFetch (month year : Z) (e : exn)
| FilterError (e : exn)
| ErrorInFuture (e : exn)
| Starting
| Completed (found : nat).

Inductive event :=
| EvRequest (year month : Z) (attempt : nat)
| EvSleep (seconds : Z)
| EvWrite (p : path) (rows : list tuple)
| EvLog (lvl : level) (msg : message).

(** The state a run acts on: the cache directory and, in order of
    occurrence, the effects performed so far. *)
Record world := World { fs : gmap path file; trace : list event }.

(** The outside, as one run observes it. *)
Record oracle := {
  (** [datetime.now().timestamp()] when the cache file is checked *)
  now : path -> PyFloat.float;
  (** outcome of the n-th [requests.get], with the given timeout, for the
      URL of the unit (year, month) *)
  net : Z -> Z -> Z -> nat -> result page;
  (** whether the cache file can be opened for writing *)
  disk_ok : path -> bool;
  (** the modification time a written cache file receives *)
  write_time : path -> PyFloat.float;
  (** the order in which the scheduler would have the submitted units
      finish; [completion_order] makes a permutation of it *)
  completion : list (Z * Z) -> list (Z * Z)
}.

(** ** Computations with effects and exceptions *)

Definition M (A : Type) : Type := world -> result A * world.

Definition ret {A} (a : A) : M A := fun w => (Ok a, w).

Definition raise {A} (e : exn) : M A := fun w => (Raise e, w).

Definition bind {A B} (m : M A) (k : A -> M B) : M B :=
  fun w => match m w with
           | (Ok a, w') => k a w'
           | (Raise e, w') => (Raise e, w')
           end.

(** [try: m  except Exception as e: h e] *)
Definition try_except {A} (m : M A) (h : exn -> M A) : M A :=
  fun w => match m w with
           | (Ok a, w') => (Ok a, w')
           | (Raise e, w') => h e w'
           end.

Definition emit (ev : event) : M unit :=
  fun w => (Ok tt, World (fs w) (trace w ++ [ev])).

Definition log (lvl : level) (msg : message) : M unit := emit (EvLog lvl msg).

(** Lift a dictionary lookup: a missing key raises [KeyError]. *)
Definition subscript (d : dict) (k : string) : M string :=
  match dict_get k d with
  | Some v => ret v
  | None => raise (KeyError k)
  end.

#[global] Instance M_ret : MRet M := @ret.
#[global] Instance M_bind : MBind M := fun A B k m => bind m k.

(** [for x in xs: s = body x s] *)
Fixpoint for_each {A S} (body : A -> S -> M S) (xs : list A) (s : S) : M S :=
  match xs with
  | [] => ret s
  | x :: xs' => s' ← body x s; for_each body xs' s'
  end.

(** ** The filter engine *)

Section Filters.

Variable config : ScraperConfig.

Definition _clean_numeric (value : string) : PyFloat.float :=
  if String.eqb value "" || PyStr.mem (PyStr.lower value) ["n/a"; "new"]
  then PyFloat.zero
  else
    let value :=
      PyStr.remove "%" (PyStr.remove "+" (PyStr.remove "," (PyStr.remove "$" value))) in
    match PyFloat.from_string value with
    | Some x => x
    | None => PyFloat.zero
    end.

(** The body of the [try] in [_apply_filters]. In [xs and d[k] not in xs]
    the subscript is only evaluated when [xs] is not empty. *)
Definition _apply_filters_body (data : dict) : M bool :=
  wrong_type ←
    (if negb (bool_decide (transaction_types config = []))
     then trade_type ← subscript data "trade_type";
          ret (negb (PyStr.mem trade_type (transaction_types config)))
     else ret false);
  if (wrong_type : bool) then ret false else
  ticker ← subscript data "ticker";
  if PyStr.mem ticker (exclude_companies config) then ret false else
  not_included ←
    (if negb (bool_decide (include_companies config = []))
     then ticker ← subscript data "ticker";
          ret (negb (PyStr.mem ticker (include_companies config)))
     else ret false);
  if (not_included : bool) then ret false else
  value ← subscript data "value";
  if PyFloat.lt_number (_clean_numeric value) (min_transaction_value config)
  then ret false else
  qty ← subscript data "qty";
  if PyFloat.lt_int (PyFloat.abs (_clean_numeric qty)) (min_shares_traded config)
  then ret false else
  ret true.

Definition _apply_filters (data : dict) : M bool :=
  try_except (_apply_filters_body data)
             (fun e => log WARNING (FilterError e);; ret false).

(** The five grounds of rejection, on the four fields the filter reads:
    what the body computes when no key is missing (see
    [apply_filters_verdict]). *)
Definition rejected (trade_type ticker value qty : string) : bool :=
  (negb (bool_decide (transaction_types config = []))
     && negb (PyStr.mem trade_type (transaction_types config)))
  || PyStr.mem ticker (exclude_companies config)
  || (negb (bool_decide (include_companies config = []))
        && negb (PyStr.mem ticker (include_companies config)))
  || PyFloat.lt_number (_clean_numeric value) (min_transaction_value config)
  || PyFloat.lt_int (PyFloat.abs (_clean_numeric qty)) (min_shares_traded config).

End Filters.

(** ** The work unit processor *)

(** [@retry(tries, delay, backoff)] of the [retry] package: call [f] until it
    returns, at most [tries] times, sleeping [delay] seconds after a failure
    and multiplying the delay by [backoff]; the last failure is re-raised.
    With no try left the loop body never runs and the call returns [None]. *)
Fixpoint retry {A} (tries : nat) (delay backoff : Z) (f : M A) : M (option A) :=
  match tries with
  | O => ret None
  | S tries' =>
      try_except (a ← f; ret (Some a))
        (fun e =>
           match tries' with
           | O => raise e
           | S _ => emit (EvSleep delay);; retry tries' (delay * backoff) backoff f
           end)
  end.

Definition is_request (year month : Z) (ev : event) : bool :=
  match ev with
  | EvRequest y m _ => (y =? year) && (m =? month)
  | _ => false
  end.

(** How many requests for the unit's URL the trace already holds. *)
Definition attempts (year month : Z) (tr : list event) : nat :=
  length (List.filter (is_request year month) tr).

Definition column_keys : list string :=
  ["x"; "filing_date"; "trade_date"; "ticker"; "company_name";
   "owner_name"; "title"; "trade_type"; "price"; "qty";
   "owned"; "change_pct"; "value"; "1d"; "1w"; "1m"; "6m"].

(** [datetime(year, month, 1)] and the end-of-month arithmetic on it: the two
    can raise, their value only enters the URL, which the unit determines. *)
Definition month_window (year month : Z) : M unit :=
  if negb ((1 <=? year) && (year <=? 9999)) then
    raise (ValueError "year is out of range")
  else if negb ((1 <=? month) && (month <=? 12)) then
    raise (ValueError "month must be in 1..12")
  else if (year =? 9999) && (month =? 12) then
    raise (OverflowError "date value out of range")
  else ret tt.

Section Processor.

Variable config : ScraperConfig.
Variable o : oracle.

(** [requests.get(url, timeout=...)] for the URL of unit (year, month). *)
Definition requests_get (year month : Z) : M page :=
  fun w =>
    let n := attempts year month (trace w) in
    (net o (timeout config) year month n,
     World (fs w) (trace w ++ [EvRequest year month n])).

Definition _fetch_data (year month : Z) : M (option page) :=
  retry 3 2 2 (requests_get year month).

Definition _get_cache_path (year month : Z) : path :=
  CachePath (cache_dir config) year month.

Definition _is_cache_valid (cache_path : path) : M bool :=
  fun w =>
    match fs w !! cache_path with
    | None => (Ok false, w)
    | Some f =>
        let age := PyFloat.sub (now o cache_path) (mtime f) in
        (Ok (PyFloat.lt_int age (cache_max_age config * 3600)), w)
    end.

(** [with open(cache_path, 'r') as f: json.load(f)] *)
Definition json_load (cache_path : path) : M (list tuple) :=
  fun w =>
    match fs w !! cache_path with
    | None => (Raise (OSError "No such file or directory"), w)
    | Some f =>
        match content f with
        | Some rows => (Ok rows, w)
        | None => (Raise (JSONDecodeError "Expecting value"), w)
        end
    end.

(** [with open(cache_path, 'w') as f: json.dump(rows, f)] *)
Definition json_dump (rows : list tuple) (cache_path : path) : M unit :=
  fun w =>
    if disk_ok o cache_path
    then (Ok tt,
          World (<[cache_path := File (write_time o cache_path) (Some rows)]> (fs w))
                (trace w ++ [EvWrite cache_path rows]))
    else (Raise (OSError "Permission denied"), w).

(** The body of the loop over the table rows. *)
Definition process_row (row : list string) (data : gset tuple) : M (gset tuple) :=
  let cols := row in
  if negb (length cols =? length column_keys)%nat then ret data else
  let parsed := zip column_keys (PyStr.strip <$> cols) in
  filing_date ← subscript parsed "filing_date";
  trade_date ← subscript parsed "trade_date";
  ticker ← subscript parsed "ticker";
  company_name ← subscript parsed "company_name";
  owner_name ← subscript parsed "owner_name";
  title ← subscript parsed "title";
  trade_type ← subscript parsed "trade_type";
  price ← subscript parsed "price";
  qty ← subscript parsed "qty";
  owned ← subscript parsed "owned";
  change_pct ← subscript parsed "change_pct";
  value ← subscript parsed "value";
  let insider_data : dict :=
    [("filing_date", filing_date); ("trade_date", trade_date);
     ("ticker", ticker); ("company_name", company_name);
     ("owner_name", owner_name); ("title", title);
     ("trade_type", trade_type); ("price", price); ("qty", qty);
     ("owned", owned); ("change_pct", change_pct); ("value", value)] in
  ok ← _apply_filters config insider_data;
  if (ok : bool) then ret ({[dict_values insider_data]} ∪ data) else ret data.

(** The [try] block of [_get_data_for_month]. *)
Definition fetch_parse_filter (year month : Z) (cache_path : path) : M (gset tuple) :=
  response ← _fetch_data year month;
  match response with
  | None => raise (AttributeError "'NoneType' object has no attribute 'text'")
  | Some NoTable =>
      log WARNING (NoTableFound month year);;
      ret (∅ : gset tuple)
  | Some NoTbody =>
      raise (AttributeError "'NoneType' object has no attribute 'find_all'")
  | Some (Table rows) =>
      data ← for_each process_row rows (∅ : gset tuple);
      (if cache_enabled config
       then json_dump (elements data) cache_path
       else ret tt);;
      ret data
  end.

Definition _get_data_for_month (year month : Z) : M (gset tuple) :=
  let cache_path := _get_cache_path year month in
  valid ← (if cache_enabled config then _is_cache_valid cache_path else ret false);
  if (valid : bool) then
    rows ← json_load cache_path;
    ret (list_to_set rows)
  else
    month_window year month;;
    try_except (fetch_parse_filter year month cache_path)
      (fun e => log ERROR (FailedToFetch month year e);; ret (∅ : gset tuple)).

End Processor.

(** ** The orchestrator *)

(** [range(a, b)] *)
Definition range (a b : Z) : list Z :=
  (fun i => a + Z.of_nat i) <$> seq 0 (Z.to_nat (b - a)).

(** A finished future: the value its task returned or the exception it
    raised. *)
Abbreviation future := (result (gset tuple)).

(** [future.result()] *)
Definition future_result (f : future) : M (gset tuple) :=
  match f with
  | Ok s => ret s
  | Raise e => raise e
  end.

(** One turn of the loop over [as_completed(futures)]. *)
Definition collect (f : future) (all_data : list tuple) : M (list tuple) :=
  try_except (s ← future_result f; ret (all_data ++ elements s))
    (fun e => log ERROR (ErrorInFuture e);; ret all_data).

(** [l] without the first occurrence of [u], if there is one. *)
Fixpoint take_out (u : Z * Z) (l : list (Z * Z)) : option (list (Z * Z)) :=
  match l with
  | [] => None
  | v :: l' => if decide (u = v) then Some l' else (v ::.) <$> take_out u l'
  end.

(** The futures of a pool complete in some order of the submitted tasks,
    each task once. [arrange wish pending] is such an order whatever [wish]
    is: the units of [wish] as far as they are pending, each as often as it
    is pending, then the units [wish] does not name, in the order of
    submission. *)
Fixpoint arrange (wish pending : list (Z * Z)) : list (Z * Z) :=
  match wish with
  | [] => pending
  | u :: wish' =>
      match take_out u pending with
      | Some rest => u :: arrange wish' rest
      | None => arrange wish' pending
      end
  end.

Section Orchestrator.

Variable config : ScraperConfig.
Variable o : oracle.

(** [ThreadPoolExecutor(max_workers=...)]: the constructor refuses a
    number of workers that is not positive. *)
Definition thread_pool : M unit :=
  if max_workers config <=? 0
  then raise (ValueError "max_workers must be greater than 0")
  else ret tt.

(** The order in which [as_completed] hands out the futures of [units]. *)
Definition completion_order (units : list (Z * Z)) : list (Z * Z) :=
  arrange (completion o units) units.

(** The (year, month) pairs submitted to the pool, in order of submission. *)
Definition work_units (current_year current_month : Z) : list (Z * Z) :=
  year ← range (start_year config) (current_year + 1);
  month ← range (if year =? start_year config then start_month config else 1)
                (if year =? current_year then current_month + 1 else 13);
  [(year, month)].

(** The pool runs every submitted task to its end and keeps what it
    returned or raised in its future. Units own distinct cache files and
    URLs; the model runs them one after the other, in order of completion. *)
Fixpoint run_tasks (units : list (Z * Z)) (w : world) : list future * world :=
  match units with
  | [] => ([], w)
  | (year, month) :: rest =>
      let '(r, w1) := _get_data_for_month config o year month w in
      let '(futures, w2) := run_tasks rest w1 in
      (r :: futures, w2)
  end.

(** [scrape], up to the call of [_save_data]: the result is the list
    handed to the sink. *)
Definition scrape (current_year current_month : Z) : M (list tuple) :=
  log INFO Starting;;
  thread_pool;;
  ((fun w0 =>
      let units := work_units current_year current_month in
      let '(futures, w1) := run_tasks (completion_order units) w0 in
      (all_data ← for_each collect futures [];
       log INFO (Completed (length all_data));;
       ret all_data) w1) : M (list tuple)).

End Orchestrator.

(** The world after [units] ran one after the other, from [w] on. *)
Fixpoint after_units (config : ScraperConfig) (o : oracle)
    (units : list (Z * Z)) (w : world) : world :=
  match units with
  | [] => w
  | (year, month) :: rest =>
      after_units config o rest (_get_data_for_month config o year month w).2
  end.

(** ** Vocabulary of the statements *)

(** The 12 retained fields of a 17-column row, stripped: the Record. *)
Definition retained (cols : list string) : tuple :=
  PyStr.strip <$> take 12 (drop 1 cols).

Definition record_keys : list string := take 12 (drop 1 column_keys).

(** The dictionary [_apply_filters] receives for a Record. *)
Definition insider_data (t : tuple) : dict := zip record_keys t.

(** The verdict of [_apply_filters] on a Record; it does not depend on the
    world the filter runs in (see [apply_filters_record]). *)
Definition passes (config : ScraperConfig) (t : tuple) : bool :=
  match (_apply_filters config (insider_data t) (World ∅ [])).1 with
  | Ok b => b
  | Raise _ => false
  end.

(** What one table row adds to the unit's set. *)
Definition contribution (config : ScraperConfig) (row : list string) : gset tuple :=
  if (length row =? length column_keys)%nat && passes config (retained row)
  then {[retained row]}
  else ∅.

(** Number of occurrences of [t] in a list of tuples. *)
Definition occurrences (t : tuple) (l : list tuple) : nat :=
  length (filter (fun x => x = t) l).

(** What a finished future adds to the aggregate. *)
Definition yield (f : future) : list tuple :=
  match f with
  | Ok s => elements s
  | Raise _ => []
  end.

Definition is_write (ev : event) : bool :=
  match ev with
  | EvWrite _ _ => true
  | _ => false
  end.

Definition is_error_log (ev : event) : bool :=
  match ev with
  | EvLog ERROR _ => true
  | _ => false
  end.

Definition is_warning (ev : event) : bool :=
  match ev with
  | EvLog WARNING _ => true
  | _ => false
  end.

(** Whether a finished future holds the tuple [t]. *)
Definition holds (t : tuple) (f : future) : bool :=
  match f with
  | Ok s => bool_decide (t ∈ s)
  | Raise _ => false
  end.

(** The log line the aggregation loop writes for a future. *)
Definition failure_log (f : future) : list event :=
  match f with
  | Ok _ => []
  | Raise e => [EvLog ERROR (ErrorInFuture e)]
  end.

(** [year], [month] name a month [datetime] accepts and whose end can be
    computed: [month_window] does not raise. *)
Definition in_calendar (year month : Z) : bool :=
  (1 <=? year) && (year <=? 9999) && (1 <=? month) && (month <=? 12)
  && negb ((year =? 9999) && (month =? 12)).

(** The guard of the cache branch of [_get_data_for_month]. *)
Definition cache_hit (config : ScraperConfig) (o : oracle) (year month : Z)
    (w : world) : bool :=
  cache_enabled config
  && match (_is_cache_valid config o (_get_cache_path config year month) w).1 with
     | Ok b => b
     | Raise _ => false
     end.

(** The world in which [scrape] starts its units: its first log line is out. *)
Definition started (w : world) : world :=
  World (fs w) (trace w ++ [EvLog INFO Starting]).

(** The effects of three failed attempts: the requests and the two pauses. *)
Definition three_attempts (year month : Z) (k : nat) : list event :=
  [EvRequest year month k; EvSleep 2;
   EvRequest year month (S k); EvSleep 4;
   EvRequest year month (S (S k))].

(** ** Test data *)

Module Sample.

Definition config : ScraperConfig := {|
  output_dir := "data"; output_file := "insiders.csv"; output_format := "csv";
  start_year := 2024; start_month := 1; max_workers := 4;
  retry_attempts := 5; timeout := 30;
  min_transaction_value := PyFloat.Int 25000;
  transaction_types := ["P - Purchase"];
  exclude_companies := ["XYZ"]; include_companies := [];
  min_shares_traded := 100;
  log_level := "INFO"; log_file := "scraper.log"; rotate_logs := true;
  max_log_size := 10;
  cache_enabled := true; cache_dir := ".cache"; cache_max_age := 24
|}.

Definition row (ticker value qty : string) : list string :=
  ["D"; "2024-01-05 16:01:02"; "2024-01-03"; ticker; "Acme Corp";
   "Doe John"; "CEO"; "P - Purchase"; "$12.50"; qty; "10,000"; "+25%";
   value; ""; ""; ""; ""].

Definition rows : list (list string) :=
  [row "ACME" "+$25,000" "+2,000"; row "ACME" "+$24,999" "+2,000";
   row " ACME " "+$25,000" "+2,000"; row "XYZ" "+$99,000" "+2,000";
   ["short"; "row"]].

Definition oracle0 : oracle := {|
  now := fun _ => PyFloat.of_Z 1700000000;
  net := fun _ y m n => if (m =? 1) then Ok (Table rows) else Ok NoTable;
  disk_ok := fun _ => true;
  write_time := fun _ => PyFloat.of_Z 1700000001;
  completion := fun l => l
|}.

(** A network on which every request fails. *)
Definition offline : oracle := {|
  now := fun _ => PyFloat.of_Z 1700000000;
  net := fun _ _ _ _ => Raise (RequestException "Connection refused");
  disk_ok := fun _ => true;
  write_time := fun _ => PyFloat.of_Z 1700000001;
  completion := fun l => l
|}.

(** A source that serves the same table for every month. *)
Definition repeating : oracle := {|
  now := fun _ => PyFloat.of_Z 1700000000;
  net := fun _ _ _ _ => Ok (Table rows);
  disk_ok := fun _ => true;
  write_time := fun _ => PyFloat.of_Z 1700000001;
  completion := fun l => l
|}.

(** Three rows that pass the sample filters, served for January only. *)
Definition trio : list (list string) :=
  [row "ACME" "+$25,000" "+2,000"; row "BETA" "+$30,000" "+500";
   row "GAMA" "$1,000,000" "100"].

Definition sparse : oracle := {|
  now := fun _ => PyFloat.of_Z 1700000000;
  net := fun _ y m n => if (m =? 1) then Ok (Table trio) else Ok NoTable;
  disk_ok := fun _ => true;
  write_time := fun _ => PyFloat.of_Z 1700000001;
  completion := fun l => l
|}.

Definition acme : tuple := retained (row "ACME" "+$25,000" "+2,000").

Definition cheap : list string := row "ACME" "+$24,999" "+2,000".

Definition world0 : world := World ∅ [].

Definition january : path := CachePath ".cache" 2024 1.

(** A cache file for January written 1000 seconds before [now]. *)
Definition cached : world :=
  World {[january := File (PyFloat.of_Z 1699999000) (Some [acme])]} [].

(** The same file, unreadable. *)
Definition corrupt : world :=
  World {[january := File (PyFloat.of_Z 1699999000) None]} [].

(** The same file, two days old. *)
Definition stale : world :=
  World {[january := File (PyFloat.of_Z 1699827200) (Some [acme])]} [].

End Sample.

(** ** The month window of a unit *)

(** A calendar date, as [datetime] holds it. *)
Record date := Date { d_year : Z; d_month : Z; d_day : Z }.

Definition is_leap (year : Z) : bool :=
  ((year mod 4 =? 0) && negb (year mod 100 =? 0)) || (year mod 400 =? 0).

Definition days_in_month (year month : Z) : Z :=
  if month =? 2 then (if is_leap year then 29 else 28)
  else if (month =? 4) || (month =? 6) || (month =? 9) || (month =? 11) then 30
  else 31.

(** [d + timedelta(days=1)]; [None] stands for the [OverflowError] past
    9999-12-31. *)
Definition tomorrow (d : date) : option date :=
  if d_day d <? days_in_month (d_year d) (d_month d)
  then Some (Date (d_year d) (d_month d) (d_day d + 1))
  else if d_month d <? 12 then Some (Date (d_year d) (d_month d + 1) 1)
  else if d_year d <? 9999 then Some (Date (d_year d + 1) 1 1)
  else None.

(** [d - timedelta(days=1)]; [None] stands for the [OverflowError] before
    0001-01-01. *)
Definition yesterday (d : date) : option date :=
  if 1 <? d_day d then Some (Date (d_year d) (d_month d) (d_day d - 1))
  else if 1 <? d_month d
  then Some (Date (d_year d) (d_month d - 1)
                  (days_in_month (d_year d) (d_month d - 1)))
  else if 1 <? d_year d then Some (Date (d_year d - 1) 12 31)
  else None.

(** [d + timedelta(days=n)] *)
Fixpoint add_days (n : nat) (d : date) : option date :=
  match n with
  | O => Some d
  | S n' => d' ← tomorrow d; add_days n' d'
  end.

(** The dates that enter the URL of a unit: [start_date] is
    [datetime(year, month, 1)] and [end_date] is
    [(datetime(year, month, 1) + timedelta(days=32)).replace(day=1)
     - timedelta(days=1)]. *)
Definition month_bounds (year month : Z) : M (date * date) :=
  if negb ((1 <=? year) && (year <=? 9999)) then
    raise (ValueError "year is out of range")
  else if negb ((1 <=? month) && (month <=? 12)) then
    raise (ValueError "month must be in 1..12")
  else
    let start_date := Date year month 1 in
    match add_days 32 start_date with
    | None => raise (OverflowError "date value out of range")
    | Some later =>
        match yesterday (Date (d_year later) (d_month later) 1) with
        | None => raise (OverflowError "date value out of range")
        | Some end_date => ret (start_date, end_date)
        end
    end.

(** The month after (year, month). *)
Definition next_month (u : Z * Z) : Z * Z :=
  if u.2 =? 12 then (u.1 + 1, 1) else (u.1, u.2 + 1).

(** Units in the order of the calendar. *)
Definition unit_lt (u v : Z * Z) : Prop :=
  u.1 < v.1 \/ (u.1 = v.1 /\ u.2 < v.2).

(** The four characters [_clean_numeric] removes. *)
Definition strip_symbols (s : string) : string :=
  PyStr.remove "%" (PyStr.remove "+" (PyStr.remove "," (PyStr.remove "$" s))).

(** A float below zero ([-0.0] is not). *)
Definition is_negative (x : PyFloat.float) : bool :=
  match x with
  | S754_finite true _ _ | S754_infinity true => true
  | _ => false
  end.

(** A configured number that is zero or above. *)
Definition is_nonnegative (y : PyFloat.number) : bool :=
  match y with
  | PyFloat.Int z => 0 <=? z
  | PyFloat.Float (S754_zero _) | PyFloat.Float (S754_finite false _ _)
  | PyFloat.Float (S754_infinity false) => true
  | PyFloat.Float _ => false
  end.

(** A row with the number of cells the parser expects. *)
Definition well_formed (row : list string) : bool :=
  (length row =? length column_keys)%nat.

(** ** The name of a cache file *)

(** [str(z)] for an [int] [z]. *)
Definition str_int (z : Z) : string :=
  DecimalString.NilEmpty.string_of_int (Z.to_int z).

(** [f"data_{year}_{month}.json"] *)
Definition cache_file_name (year month : Z) : string :=
  ("data_" ++ str_int year ++ "_" ++ str_int month ++ ".json")%string.

(** Whether the character [c] occurs in [s]. *)
Fixpoint has_char (c : ascii) (s : string) : bool :=
  match s with
  | EmptyString => false
  | String d r => Ascii.eqb c d || has_char c r
  end.

(** ** The consumers of the scraper's output: [extractor.py], [app.py] *)

(** A cell of a pandas row: a string, an integer or a float (NaN for an
    empty cell). *)
Inductive pyval :=
| PStr (s : string)
| PInt (z : Z)
| PFloat (x : PyFloat.float).

(** A row of the data frame, by column name. *)
Abbreviation row := (list (string * pyval)).

(** [row.get(key, default)] *)
Fixpoint row_get (key : string) (r : row) (default : pyval) : pyval :=
  match r with
  | [] => default
  | (k, v) :: r' => if String.eqb key k then v else row_get key r' default
  end.

Definition upper_char (c : ascii) : ascii :=
  if ((97 <=? PyStr.code c) && (PyStr.code c <=? 122))%N
  then ascii_of_N (PyStr.code c - 32)
  else c.

(** [s.upper()] *)
Fixpoint upper (s : string) : string :=
  match s with
  | EmptyString => EmptyString
  | String c r => String (upper_char c) (upper r)
  end.

(** [needle in hay] for two strings *)
Fixpoint contains (needle hay : string) : bool :=
  String.prefix needle hay
  || match hay with
     | EmptyString => false
     | String _ r => contains needle r
     end.

(** The blanks of [str.split] outside ASCII, as UTF-8 reads them: U+0085
    and U+00A0 on two bytes; U+1680, U+2000 to U+200A, U+2028, U+2029,
    U+202F, U+205F and U+3000 on three. *)
Definition is_blank2 (c d : ascii) : bool :=
  ((PyStr.code c =? 194)
   && ((PyStr.code d =? 133) || (PyStr.code d =? 160)))%N.

Definition is_blank3 (c d e : ascii) : bool :=
  (((PyStr.code c =? 225) && (PyStr.code d =? 154) && (PyStr.code e =? 128))
   || ((PyStr.code c =? 226) && (PyStr.code d =? 128)
       && (((128 <=? PyStr.code e) && (PyStr.code e <=? 138))
           || (PyStr.code e =? 168) || (PyStr.code e =? 169)
           || (PyStr.code e =? 175)))
   || ((PyStr.code c =? 226) && (PyStr.code d =? 129) && (PyStr.code e =? 159))
   || ((PyStr.code c =? 227) && (PyStr.code d =? 128) && (PyStr.code e =? 128)))%N.

(** [''.join(s.split())]: [s] without its blanks, those of ASCII and those
    beyond, [s] being the UTF-8 bytes of the text. *)
Fixpoint remove_blanks (s : string) : string :=
  match s with
  | EmptyString => EmptyString
  | String c r =>
      if PyStr.is_py_space c then remove_blanks r
      else
        match r with
        | String d r' =>
            if is_blank2 c d then remove_blanks r'
            else
              match r' with
              | String e r'' =>
                  if is_blank3 c d e then remove_blanks r''
                  else String c (remove_blanks r)
              | EmptyString => String c (remove_blanks r)
              end
        | EmptyString => String c (remove_blanks r)
        end
  end.

(** [x * y] on floats *)
Definition float_mul (x y : PyFloat.float) : PyFloat.float :=
  SFmul PyFloat.prec PyFloat.emax x y.

(** [x / y] on floats, for a divisor that is not zero *)
Definition float_div (x y : PyFloat.float) : PyFloat.float :=
  SFdiv PyFloat.prec PyFloat.emax x y.

(** [x >= z] for a float [x] and an [int] [z], compared exactly *)
Definition ge_int (x : PyFloat.float) (z : Z) : bool :=
  match x with
  | S754_nan => false
  | S754_infinity s => negb s
  | S754_zero _ => z <=? 0
  | S754_finite s m e =>
      let v := cond_Zopp s (Zpos m) in
      if 0 <=? e then z <=? v * 2 ^ e else z * 2 ^ (- e) <=? v
  end.

(** [int(x)] for a float [x]: truncation towards zero *)
Definition float_to_int (x : PyFloat.float) : result Z :=
  match x with
  | S754_nan => Raise (ValueError "cannot convert float NaN to integer")
  | S754_infinity _ =>
      Raise (OverflowError "cannot convert float infinity to integer")
  | S754_zero _ => Ok 0
  | S754_finite s m e =>
      Ok (cond_Zopp s (if 0 <=? e then Zpos m * 2 ^ e else Zpos m / 2 ^ (- e)))
  end.

(** [bool(v)] *)
Definition truthy (v : pyval) : bool :=
  match v with
  | PStr s => negb (String.eqb s "")
  | PInt z => negb (z =? 0)
  | PFloat (S754_zero _) => false
  | PFloat _ => true
  end.

(** [pd.isna(v)] *)
Definition isna (v : pyval) : bool :=
  match v with
  | PFloat S754_nan => true
  | _ => false
  end.

(** An alert, as the dashboard reads it. The extractor fills the five
    fields of type [pyval] with strings, the integration script with the
    cells as they are. *)
Record alert := {
  a_id : string;
  a_ticker : string;
  a_company : pyval;
  a_insider : pyval;
  a_role : pyval;
  a_transaction : string;
  a_totalValue : Z;
  a_shares : Z;
  a_pricePerShare : PyFloat.number;
  a_currentPrice : PyFloat.number;
  a_priceChange : PyFloat.number;
  a_priceChangePercent : PyFloat.number;
  a_traded : pyval;
  a_filed : pyval;
  a_score : Z;
  a_level : string;
  a_factors : list string;
  a_source : string;
  a_timestamp : string
}.

(** [alerts.sort(key=lambda x: x['score'], reverse=True)]: by falling score,
    alerts of equal score in the order they had. *)
Fixpoint insert_by_score (a : alert) (l : list alert) : list alert :=
  match l with
  | [] => [a]
  | b :: l' =>
      if a_score b <=? a_score a then a :: b :: l' else b :: insert_by_score a l'
  end.

Definition sort_by_score (l : list alert) : list alert :=
  foldr insert_by_score [] l.

(** [a] may stand before [b] in a list sorted by falling score. *)
Definition score_ge (a b : alert) : Prop := a_score b <= a_score a.

(** [len([a for a in alerts if a['level'] == level])] *)
Definition count_level (level : string) (alerts : list alert) : nat :=
  length (List.filter (fun a => String.eqb (a_level a) level) alerts).

(** Whether some character of [s] satisfies [p]. *)
Fixpoint any_char (p : ascii -> bool) (s : string) : bool :=
  match s with
  | EmptyString => false
  | String c r => p c || any_char p r
  end.

(** Whether [s] is made of ASCII characters only. *)
Definition is_ascii (s : string) : bool :=
  negb (any_char (fun c => (128 <=? PyStr.code c)%N) s).

(** [row.get(key)]: [None] for a column that is missing. *)
Fixpoint row_find (key : string) (r : row) : option pyval :=
  match r with
  | [] => None
  | (k, v) :: r' => if String.eqb key k then Some v else row_find key r'
  end.

(** A quote of [ticker_prices]: numbers as [response.json()] gives them. *)
Record quote := {
  q_current : PyFloat.number;
  q_change : PyFloat.number;
  q_change_percent : PyFloat.number
}.

(** [a / b] for two [int]s, [b] positive: the quotient rounded once. *)
Definition int_true_div (a b : Z) : PyFloat.float :=
  match a with
  | 0 => PyFloat.zero
  | Zpos m => SFdiv PyFloat.prec PyFloat.emax
                (S754_finite false m 0) (S754_finite false (Z.to_pos b) 0)
  | Zneg m => SFdiv PyFloat.prec PyFloat.emax
                (S754_finite true m 0) (S754_finite false (Z.to_pos b) 0)
  end.

(** [s] is empty or starts with a character [p] refuses. *)
Definition starts_clean (p : ascii -> bool) (s : string) : Prop :=
  match s with
  | EmptyString => True
  | String c _ => p c = false
  end.

(** [s] is empty or ends with a character [p] refuses. *)
Fixpoint ends_clean (p : ascii -> bool) (s : string) : Prop :=
  match s with
  | EmptyString => True
  | String c EmptyString => p c = false
  | String _ r => ends_clean p r
  end.

(** The columns [_save_data] writes, the header of the scraper's CSV. *)
Definition field_names : list string :=
  ["filing_date"; "trade_date"; "ticker"; "company_name";
   "owner_name"; "title"; "trade_type"; "price"; "qty";
   "owned"; "change_pct"; "value"].

Module Extractor.

Section Builtins.

(** [repr] of a float, [f'{x:.{digits}f}'], [round(x, digits)], [hash] of a
    string and [datetime.now().isoformat()]: builtins taken as they are. *)
Variable repr_float : PyFloat.float -> string.
Variable format_float : nat -> PyFloat.float -> string.
Variable round_float : nat -> PyFloat.float -> PyFloat.float.
Variable py_hash : string -> Z.
Variable now_iso : string.

(** [str(v)] *)
Definition py_str (v : pyval) : string :=
  match v with
  | PStr s => s
  | PInt z => str_int z
  | PFloat x => repr_float x
  end.

Definition clean_numeric (value : pyval) : PyFloat.float :=
  if negb (truthy value) || isna value then PyFloat.zero else
  let clean :=
    PyStr.strip
      (PyStr.remove "'" (PyStr.remove "034" (PyStr.remove "$"
         (PyStr.remove "," (PyStr.remove "+" (py_str value)))))) in
  let clean := remove_blanks clean in
  if String.eqb clean "" then PyFloat.zero else
  match PyFloat.from_string clean with
  | Some x => x
  | None => PyFloat.zero
  end.

Definition any_in (words : list string) (text : string) : bool :=
  existsb (fun word => contains word text) words.

Definition calculate_enhanced_score (r : row) (total_value : PyFloat.float) : Z :=
  let score := 0 in
  let score :=
    if ge_int total_value 500000000 then score + 60
    else if ge_int total_value 200000000 then score + 55
    else if ge_int total_value 100000000 then score + 50
    else if ge_int total_value 50000000 then score + 40
    else if ge_int total_value 10000000 then score + 30
    else if ge_int total_value 1000000 then score + 20
    else score in
  let title := PyStr.lower (py_str (row_get "Title" r (PStr ""))) in
  let insider_name := PyStr.lower (py_str (row_get "owner_name" r (PStr ""))) in
  let score :=
    if contains "moskovitz" insider_name then score + 30
    else if any_in ["ceo"; "chief executive"] title then score + 28
    else if any_in ["cfo"; "chief financial"] title then score + 25
    else if any_in ["founder"; "co-founder"] title then score + 30
    else if any_in ["president"; "pres"] title then score + 23
    else if any_in ["chairman"; "chair"] title then score + 20
    else if contains "10%" title then score + 25
    else if any_in ["director"; "dir"] title then score + 18
    else if any_in ["officer"; "vp"; "vice"; "evp"] title then score + 15
    else score + 8 in
  let ticker := upper (py_str (row_get "ticker" r (PStr ""))) in
  let score :=
    if PyStr.mem ticker ["AAPL"; "MSFT"; "GOOGL"; "GOOG"; "AMZN"] then score + 15
    else if PyStr.mem ticker ["TSLA"; "NVDA"; "META"; "UPS"; "CHTR"] then score + 12
    else if PyStr.mem ticker ["ASAN"; "PLTR"] then score + 10
    else if PyStr.mem ticker ["RDDT"; "COIN"] then score + 8
    else score + 3 in
  let shares := clean_numeric (row_get "Qty" r (PInt 0)) in
  let score :=
    if ge_int shares 10000000 then score + 5
    else if ge_int shares 1000000 then score + 3
    else if ge_int shares 100000 then score + 2
    else score in
  Z.min score 100.

Definition millions (total_value : PyFloat.float) : PyFloat.float :=
  float_div total_value (PyFloat.of_Z 1000000).

Definition get_enhanced_factors (r : row) (total_value : PyFloat.float) : list string :=
  let factors := [] in
  let factors :=
    if ge_int total_value 100000000
    then factors ++ [("MEGA ($" ++ format_float 0 (millions total_value) ++ "M)")%string]
    else if ge_int total_value 10000000
    then factors ++ [("MAJOR ($" ++ format_float 0 (millions total_value) ++ "M)")%string]
    else if ge_int total_value 1000000
    then factors ++ [("Large ($" ++ format_float 1 (millions total_value) ++ "M)")%string]
    else factors in
  let title := PyStr.lower (py_str (row_get "Title" r (PStr ""))) in
  let insider_name := PyStr.lower (py_str (row_get "owner_name" r (PStr ""))) in
  let factors :=
    if contains "moskovitz" insider_name then factors ++ ["FOUNDER (Asana)"]
    else if contains "ceo" title then factors ++ ["CEO"]
    else if contains "cfo" title then factors ++ ["CFO"]
    else if contains "10%" title then factors ++ ["MAJOR OWNER"]
    else if contains "director" title then factors ++ ["DIRECTOR"]
    else factors in
  let ticker := upper (py_str (row_get "ticker" r (PStr ""))) in
  let factors :=
    if PyStr.mem ticker ["UPS"; "CHTR"; "ASAN"] then factors ++ [ticker]
    else factors in
  factors ++ ["Recent"].

Definition get_alert_level (score : Z) : string :=
  if 80 <=? score then "critical"
  else if 65 <=? score then "high"
  else if 50 <=? score then "medium"
  else "low".

(** The body of the [try] in [create_enhanced_alert]. *)
Definition create_enhanced_alert_body (r : row) : result (option alert) :=
  let shares := clean_numeric (row_get "Qty" r (PInt 0)) in
  let price := clean_numeric (row_get "last_price" r (PInt 0)) in
  let total_value := float_mul shares price in
  if PyFloat.lt_int total_value 25000 then Ok None else
  let score := calculate_enhanced_score r total_value in
  let ticker := row_get "ticker" r (PStr "") in
  let trade_date := row_get "trade_date" r (PStr "") in
  let owner_name := row_get "owner_name" r (PStr "") in
  let alert_id :=
    ("insider_" ++
     str_int (py_hash (py_str ticker ++ "_" ++ py_str trade_date ++ "_"
                       ++ py_str owner_name)))%string in
  match float_to_int total_value with
  | Raise e => Raise e
  | Ok total =>
      match float_to_int shares with
      | Raise e => Raise e
      | Ok whole_shares =>
          Ok (Some {|
            a_id := alert_id;
            a_ticker := upper (py_str (row_get "ticker" r (PStr "")));
            a_company := PStr (py_str (row_get "company_name" r (PStr "")));
            a_insider := PStr (py_str (row_get "owner_name" r (PStr "")));
            a_role := PStr (py_str (row_get "Title" r (PStr "")));
            a_transaction := "Purchase";
            a_totalValue := total;
            a_shares := whole_shares;
            a_pricePerShare := PyFloat.Float (round_float 2 price);
            a_currentPrice := PyFloat.Float (round_float 2 price);
            a_priceChange := PyFloat.Int 0;
            a_priceChangePercent := PyFloat.Int 0;
            a_traded := PStr (py_str (row_get "trade_date" r (PStr "")));
            a_filed :=
              PStr (py_str (row_get "transaction_date" r
                              (row_get "trade_date" r (PStr ""))));
            a_score := score;
            a_level := get_alert_level score;
            a_factors := get_enhanced_factors r total_value;
            a_source := "Tu OpenInsider Scraper";
            a_timestamp := now_iso
          |})
      end
  end.

(** Any exception is printed and turned into [None]. *)
Definition create_enhanced_alert (r : row) : option alert :=
  match create_enhanced_alert_body r with
  | Ok a => a
  | Raise _ => None
  end.

(** [process_scraped_data], on what it finds at the path of the scraper's
    CSV: no file, a file [pd.read_csv] refuses, or the rows read. *)
Definition process_scraped_data (csv : option (result (list row))) : list alert :=
  match csv with
  | None => []
  | Some (Raise _) => []
  | Some (Ok df) =>
      let alerts :=
        omap (fun r =>
                match create_enhanced_alert r with
                | Some a => if 40 <=? a_score a then Some a else None
                | None => None
                end) df in
      sort_by_score alerts
  end.

(** [round(n, digits)] for a number: an [int] is its own rounding. *)
Definition round_number (digits : nat) (n : PyFloat.number) : PyFloat.number :=
  match n with
  | PyFloat.Int z => PyFloat.Int z
  | PyFloat.Float y => PyFloat.Float (round_float digits y)
  end.

(** The last loop of [update_prices_with_finnhub]: the quotes gathered in
    [ticker_prices] are written into the alerts. Which quotes the service
    gave is left open: [ticker_prices] is any map. *)
Definition update_alert (ticker_prices : gmap string quote) (a : alert) : alert :=
  match ticker_prices !! a_ticker a with
  | Some price_data => {|
      a_id := a_id a;
      a_ticker := a_ticker a;
      a_company := a_company a;
      a_insider := a_insider a;
      a_role := a_role a;
      a_transaction := a_transaction a;
      a_totalValue := a_totalValue a;
      a_shares := a_shares a;
      a_pricePerShare := a_pricePerShare a;
      a_currentPrice := round_number 2 (q_current price_data);
      a_priceChange := round_number 2 (q_change price_data);
      a_priceChangePercent := round_number 2 (q_change_percent price_data);
      a_traded := a_traded a;
      a_filed := a_filed a;
      a_score := a_score a;
      a_level := a_level a;
      a_factors := a_factors a;
      a_source := a_source a;
      a_timestamp := a_timestamp a
    |}
  | None => a
  end.

Definition update_alerts (ticker_prices : gmap string quote) (alerts : list alert)
    : list alert :=
  update_alert ticker_prices <$> alerts.

(** What [save_alerts_for_web] writes beside the alerts: ['total_alerts']
    and ['stats']. *)
Record stats := {
  st_total_alerts : nat;
  st_critical : nat;
  st_high : nat;
  st_medium : nat;
  st_low : nat;
  st_avg_score : PyFloat.number;
  st_total_value : Z;
  st_mega_trades : nat
}.

Definition web_stats (alerts : list alert) : stats := {|
  st_total_alerts := length alerts;
  st_critical := count_level "critical" alerts;
  st_high := count_level "high" alerts;
  st_medium := count_level "medium" alerts;
  st_low := count_level "low" alerts;
  st_avg_score :=
    match alerts with
    | [] => PyFloat.Int 0
    | _ =>
        PyFloat.Float
          (round_float 1 (int_true_div (foldr Z.add 0 (a_score <$> alerts))
                                       (Z.of_nat (length alerts))))
    end;
  st_total_value := foldr Z.add 0 (a_totalValue <$> alerts);
  st_mega_trades :=
    length (List.filter (fun a => 1000000 <=? a_totalValue a) alerts)
|}.

(** [run_full_process]: [scraped] is the verdict of [run_existing_scraper],
    [csv] what [process_scraped_data] finds, [writable] whether the file of
    alerts can be opened for writing. The result is the list returned and
    what has been saved, if anything. *)
Definition run_full_process (scraped : bool) (csv : option (result (list row)))
    (ticker_prices : gmap string quote) (writable : bool)
    : result (list alert * option stats) :=
  if negb scraped then Ok ([], None) else
  let alerts := process_scraped_data csv in
  match alerts with
  | [] => Ok ([], None)
  | _ =>
      let alerts := update_alerts ticker_prices alerts in
      if writable then Ok (alerts, Some (web_stats alerts))
      else Raise (OSError "Permission denied")
  end.

End Builtins.

End Extractor.

Module Integration.

Section Builtins.

Variable repr_float : PyFloat.float -> string.
Variable round_float : nat -> PyFloat.float -> PyFloat.float.
Variable py_hash : string -> Z.
Variable now_iso : string.

Definition py_str (v : pyval) : string :=
  match v with
  | PStr s => s
  | PInt z => str_int z
  | PFloat x => repr_float x
  end.

(** [float(v)] *)
Definition py_float (v : pyval) : result PyFloat.float :=
  match v with
  | PStr s =>
      match PyFloat.from_string s with
      | Some x => Ok x
      | None => Raise (ValueError "could not convert string to float")
      end
  | PInt z =>
      match PyFloat.of_Z z with
      | S754_infinity _ => Raise (OverflowError "int too large to convert to float")
      | x => Ok x
      end
  | PFloat x => Ok x
  end.

(** A value inside an f-string; a missing column reads [None]. *)
Definition fmt (v : option pyval) : string :=
  match v with
  | Some v => py_str v
  | None => "None"
  end.

Definition any_in (words : list string) (text : string) : bool :=
  existsb (fun word => contains word text) words.

Definition tech_stocks : list string :=
  ["NVDA"; "TSLA"; "AAPL"; "MSFT"; "GOOGL"; "META"; "PLTR"].

Definition calculate_score (r : row) (total_value : PyFloat.float) : Z :=
  let score := 0 in
  let score :=
    if ge_int total_value 10000000 then score + 30
    else if ge_int total_value 5000000 then score + 25
    else if ge_int total_value 1000000 then score + 20
    else score + 10 in
  let title := PyStr.lower (py_str (row_get "title" r (PStr ""))) in
  let score :=
    if any_in ["ceo"; "president"; "chief"] title then score + 25
    else if any_in ["director"; "chairman"] title then score + 20
    else if any_in ["officer"; "vp"; "vice"] title then score + 15
    else score + 10 in
  let score := score + 15 in
  let ticker := upper (py_str (row_get "ticker" r (PStr ""))) in
  let score := if PyStr.mem ticker tech_stocks then score + 10 else score in
  Z.min score 100.

Definition get_alert_level (score : Z) : string :=
  if 80 <=? score then "critical"
  else if 70 <=? score then "high"
  else if 60 <=? score then "medium"
  else "low".

Definition get_factors (r : row) (total_value : PyFloat.float) : list string :=
  let factors := [] in
  let factors :=
    if ge_int total_value 5000000 then factors ++ ["Large trade"] else factors in
  let factors :=
    if ge_int total_value 10000000 then factors ++ ["Mega trade"] else factors in
  let title := PyStr.lower (py_str (row_get "title" r (PStr ""))) in
  let factors :=
    if contains "ceo" title then factors ++ ["CEO purchase"]
    else if contains "director" title then factors ++ ["Director purchase"]
    else factors in
  let ticker := upper (py_str (row_get "ticker" r (PStr ""))) in
  let factors :=
    if PyStr.mem ticker ["NVDA"; "TSLA"; "AAPL"; "MSFT"]
    then factors ++ ["Tech leader"]
    else factors in
  factors ++ ["Recent filing"].

(** The body of the [try] in [create_alert_from_row]. *)
Definition create_alert_from_row_body (r : row) : result (option alert) :=
  match py_float (row_get "shares" r (PInt 0)) with
  | Raise e => Raise e
  | Ok shares =>
  match py_float (row_get "price" r (PInt 0)) with
  | Raise e => Raise e
  | Ok price =>
  let total_value := float_mul shares price in
  if PyFloat.lt_int total_value 50000 then Ok None else
  let score := calculate_score r total_value in
  let alert_id :=
    ("insider_" ++
     str_int (py_hash (fmt (row_find "ticker" r) ++ "_" ++ fmt (row_find "date" r)
                       ++ "_" ++ fmt (row_find "insider" r))))%string in
  match row_get "ticker" r (PStr "") with
  | PStr ticker =>
      match float_to_int total_value with
      | Raise e => Raise e
      | Ok total =>
          match float_to_int shares with
          | Raise e => Raise e
          | Ok whole_shares =>
              Ok (Some {|
                a_id := alert_id;
                a_ticker := upper ticker;
                a_company := row_get "company" r (PStr "");
                a_insider := row_get "insider" r (PStr "");
                a_role := row_get "title" r (PStr "");
                a_transaction := "Purchase";
                a_totalValue := total;
                a_shares := whole_shares;
                a_pricePerShare := PyFloat.Float (round_float 2 price);
                a_currentPrice := PyFloat.Float (round_float 2 price);
                a_priceChange := PyFloat.Int 0;
                a_priceChangePercent := PyFloat.Int 0;
                a_traded := row_get "date" r (PStr "");
                a_filed := row_get "filing_date" r (row_get "date" r (PStr ""));
                a_score := score;
                a_level := get_alert_level score;
                a_factors := get_factors r total_value;
                a_source := "OpenInsider";
                a_timestamp := now_iso
              |})
          end
      end
  | _ => Raise (AttributeError "object has no attribute 'upper'")
  end
  end
  end.

Definition create_alert_from_row (r : row) : option alert :=
  match create_alert_from_row_body r with
  | Ok a => a
  | Raise _ => None
  end.

Definition process_insider_data (csv : option (result (list row))) : list alert :=
  match csv with
  | None => []
  | Some (Raise _) => []
  | Some (Ok df) =>
      let alerts :=
        omap (fun r =>
                match create_alert_from_row r with
                | Some a => if 60 <=? a_score a then Some a else None
                | None => None
                end) df in
      sort_by_score alerts
  end.

Definition get_example_alerts : list alert :=
  [{| a_id := "example_1";
      a_ticker := "RDDT";
      a_company := PStr "Reddit Inc";
      a_insider := PStr "Steve Huffman";
      a_role := PStr "CEO";
      a_transaction := "Purchase";
      a_totalValue := 987000;
      a_shares := 15000;
      a_pricePerShare := PyFloat.Float (PyFloat.of_decimal false 6580 (-2));
      a_currentPrice := PyFloat.Float (PyFloat.of_decimal false 6745 (-2));
      a_priceChange := PyFloat.Float (PyFloat.of_decimal false 165 (-2));
      a_priceChangePercent := PyFloat.Float (PyFloat.of_decimal false 251 (-2));
      a_traded := PStr "2025-08-02";
      a_filed := PStr "2025-08-02";
      a_score := 78;
      a_level := "high";
      a_factors := ["CEO purchase"; "Recent filing"; "Tech sector"];
      a_source := "OpenInsider";
      a_timestamp := now_iso |}].

(** [bool(self.alpha_key)]: a key that is neither [None] nor empty. *)
Definition has_key (alpha_key : option string) : bool :=
  match alpha_key with
  | None | Some EmptyString => false
  | Some _ => true
  end.

(** What the script guarantees of an alert it keeps. *)
Definition kept (a : alert) : Prop :=
  60 <= a_score a <= 80
  /\ a_level a = get_alert_level (a_score a)
  /\ 50000 <= a_totalValue a.

(** What one round of the loop of [update_prices_with_alpha_vantage] does
    to an alert: with the three numbers of a quote it sets the prices,
    without a quote, or after an exception, the alert stays as it is. *)
Definition set_prices (answer : option (PyFloat.float * PyFloat.float * PyFloat.float))
    (a : alert) : alert :=
  match answer with
  | Some (current_price, change, change_percent) => {|
      a_id := a_id a;
      a_ticker := a_ticker a;
      a_company := a_company a;
      a_insider := a_insider a;
      a_role := a_role a;
      a_transaction := a_transaction a;
      a_totalValue := a_totalValue a;
      a_shares := a_shares a;
      a_pricePerShare := a_pricePerShare a;
      a_currentPrice := PyFloat.Float (round_float 2 current_price);
      a_priceChange := PyFloat.Float (round_float 2 change);
      a_priceChangePercent := PyFloat.Float (round_float 2 change_percent);
      a_traded := a_traded a;
      a_filed := a_filed a;
      a_score := a_score a;
      a_level := a_level a;
      a_factors := a_factors a;
      a_source := a_source a;
      a_timestamp := a_timestamp a
    |}
  | None => a
  end.

(** [update_prices_with_alpha_vantage]; [answers i] is what the service
    gives in round [i] of the loop. Without a key the alerts are returned
    as they are; with a key the loop runs over [alerts[:5]] and returns
    what it has gathered. *)
Definition update_prices_with_alpha_vantage (alpha_key : option string)
    (answers : nat -> option (PyFloat.float * PyFloat.float * PyFloat.float))
    (alerts : list alert) : list alert :=
  if negb (has_key alpha_key) then alerts
  else imap (fun i a => set_prices (answers i) a) (take 5 alerts).

(** What [save_alerts_for_web] writes beside the alerts. *)
Record stats := {
  st_total_alerts : nat;
  st_critical : nat;
  st_high : nat;
  st_medium : nat;
  st_avg_score : PyFloat.number
}.

Definition web_stats (alerts : list alert) : stats := {|
  st_total_alerts := length alerts;
  st_critical := count_level "critical" alerts;
  st_high := count_level "high" alerts;
  st_medium := count_level "medium" alerts;
  st_avg_score :=
    match alerts with
    | [] => PyFloat.Int 0
    | _ =>
        PyFloat.Float
          (round_float 1 (int_true_div (foldr Z.add 0 (a_score <$> alerts))
                                       (Z.of_nat (length alerts))))
    end
|}.

(** [run_full_process]: [scraped] is the verdict of [run_scraper], [csv]
    what [process_insider_data] finds, [writable] whether the file of alerts
    can be opened for writing. The result is the list returned, after what
    is saved. *)
Definition run_full_process (scraped : bool) (csv : option (result (list row)))
    (alpha_key : option string)
    (answers : nat -> option (PyFloat.float * PyFloat.float * PyFloat.float))
    (writable : bool) : result (list alert * stats) :=
  let alerts :=
    if negb scraped then get_example_alerts else process_insider_data csv in
  let alerts :=
    match alerts with
    | [] => get_example_alerts
    | _ => alerts
    end in
  let alerts := update_prices_with_alpha_vantage alpha_key answers alerts in
  if writable then Ok (alerts, web_stats alerts)
  else Raise (OSError "Permission denied").

End Builtins.

End Integration.

Module App.

(** [InsiderBotAPI.add_log], on the list of messages; [timestamp] is the
    clock reading [datetime.now().strftime("%H:%M:%S")]. *)
Definition add_log (timestamp message : string) (log_messages : list string)
    : list string :=
  let log_entry := ("[" ++ timestamp ++ "] " ++ message)%string in
  let log_messages := log_messages ++ [log_entry] in
  if (50 <? length log_messages)%nat
  then drop (length log_messages - 50) log_messages
  else log_messages.

(** A sequence of calls, each with its clock reading and message. *)
Definition add_logs (calls : list (string * string)) (log_messages : list string)
    : list string :=
  foldl (fun l call => add_log call.1 call.2 l) log_messages calls.

Definition entry (call : string * string) : string :=
  ("[" ++ call.1 ++ "] " ++ call.2)%string.

End App.

(** ** Test data for the consumers *)

Module Demo.

(** Stand-ins for the builtins, to run the consumers on examples. *)
Definition repr_float (x : PyFloat.float) : string := "1.0".
Definition format_float (digits : nat) (x : PyFloat.float) : string := "9".
Definition round_float (digits : nat) (x : PyFloat.float) : PyFloat.float := x.
Definition py_hash (s : string) : Z := Z.of_nat (String.length s).
Definition now_iso : string := "2024-01-31T12:00:00".

Definition create_enhanced_alert : row -> option alert :=
  Extractor.create_enhanced_alert repr_float format_float round_float py_hash now_iso.
Definition process_scraped_data : option (result (list row)) -> list alert :=
  Extractor.process_scraped_data repr_float format_float round_float py_hash now_iso.
Definition run_full_process :
    bool -> option (result (list row)) -> gmap string quote -> bool ->
    result (list alert * option Extractor.stats) :=
  Extractor.run_full_process repr_float format_float round_float py_hash now_iso.

Definition run_integration :
    bool -> option (result (list row)) -> option string ->
    (nat -> option (PyFloat.float * PyFloat.float * PyFloat.float)) -> bool ->
    result (list alert * Integration.stats) :=
  Integration.run_full_process repr_float round_float py_hash now_iso.

(** A row with the columns the extractor reads. *)
Definition purchase : row :=
  [("ticker", PStr "asan"); ("company_name", PStr "Asana, Inc.");
   ("owner_name", PStr "Moskovitz Dustin"); ("Title", PStr "CEO, 10%");
   ("trade_date", PStr "2024-01-05");
   ("Qty", PStr "+500,000"); ("last_price", PStr "$18.50")].

(** A row with the columns the integration script reads. *)
Definition filing : row :=
  [("ticker", PStr "nvda"); ("company", PStr "NVIDIA Corp");
   ("insider", PStr "Huang Jen Hsun"); ("title", PStr "President, CEO");
   ("date", PStr "2024-01-05");
   ("shares", PInt 100000); ("price", PFloat (PyFloat.of_decimal false 1205 (-1)))].

(** A row as [_save_data] writes it. *)
Definition scraped : row := zip field_names (PStr <$> Sample.acme).

End Demo.

(** * Sanity checks of the embedding *)

Example strip_blanks : PyStr.strip "  ACME  " = "ACME".
Proof. reflexivity. Qed.

Example lower_token : PyStr.lower "N/A" = "n/a".
Proof. reflexivity. Qed.

Example float_of_tenth :
  PyFloat.from_string "0.1" = Some (S754_finite false 7205759403792794 (-56)).
Proof. reflexivity. Qed.

Example float_ties_to_even :
  PyFloat.from_string "9007199254740993" = Some (PyFloat.of_Z 9007199254740992).
Proof. reflexivity. Qed.

Example float_overflows_to_inf :
  PyFloat.from_string "1e400" = Some (S754_infinity false).
Proof. reflexivity. Qed.

Example float_smallest_subnormal :
  PyFloat.from_string "4.9e-324" = Some (S754_finite false 1 (-1074)).
Proof. reflexivity. Qed.

Example float_underscores_and_blanks :
  PyFloat.from_string " -1_000.5e+1 " = Some (SFopp (PyFloat.of_Z 10005)).
Proof. reflexivity. Qed.

Example float_refuses :
  PyFloat.from_string "" = None /\ PyFloat.from_string "1__0" = None
  /\ PyFloat.from_string "1e" = None /\ PyFloat.from_string "." = None
  /\ PyFloat.from_string "0x10" = None /\ PyFloat.from_string "12 3" = None.
Proof. repeat split. Qed.

Example float_specials :
  PyFloat.from_string "-Infinity" = Some (S754_infinity true)
  /\ PyFloat.from_string "NaN" = Some S754_nan.
Proof. split; reflexivity. Qed.

(** [float] rounds: a numeral just below 25000 is the float 25000.0. *)
Example clean_numeric_rounds :
  _clean_numeric "$24,999.99999999999999999999" = PyFloat.of_Z 25000.
Proof. reflexivity. Qed.

Example work_units_of_a_year :
  work_units Sample.config 2025 2
  = ((fun m => (2024, m)) <$> range 1 13) ++ [(2025, 1); (2025, 2)].
Proof. reflexivity. Qed.

(** Two months, three accepted rows in the first and no table in the
    second: three Records reach the sink and one warning is logged. *)
Example scrape_two_months :
  match scrape Sample.config Sample.sparse 2024 2 Sample.world0 with
  | (Ok all_data, w) =>
      length all_data = 3%nat
      /\ List.filter is_warning (trace w) = [EvLog WARNING (NoTableFound 2 2024)]
  | _ => False
  end.
Proof. vm_compute. split; reflexivity. Qed.

(** * The filter engine: properties *)

Section FilterFacts.

Variable config : ScraperConfig.

Lemma mem_spec (x : string) (xs : list string) : PyStr.mem x xs = true <-> x ∈ xs.
Proof.
  unfold PyStr.mem. rewrite existsb_exists. split.
  - intros (y & Hy & Heq). apply String.eqb_eq in Heq. subst.
    by apply list_elem_of_In.
  - intros H. exists x. split; [by apply list_elem_of_In | apply String.eqb_refl].
Qed.

Lemma mem_false (x : string) (xs : list string) : PyStr.mem x xs = false <-> x ∉ xs.
Proof.
  rewrite <- mem_spec. destruct (PyStr.mem x xs); split; congruence.
Qed.

Lemma apply_filters_verdict (data : dict) (w : world) trade_type ticker value qty :
  dict_get "trade_type" data = Some trade_type ->
  dict_get "ticker" data = Some ticker ->
  dict_get "value" data = Some value ->
  dict_get "qty" data = Some qty ->
  _apply_filters config data w = (Ok (negb (rejected config trade_type ticker value qty)), w).
Proof.
  intros Ht Hk Hv Hq.
  unfold _apply_filters, try_except, _apply_filters_body, rejected, subscript.
  unfold mbind, M_bind, bind, ret, raise.
  rewrite Ht, Hk, Hv, Hq.
  destruct (negb (bool_decide (transaction_types config = []))),
           (PyStr.mem trade_type (transaction_types config)); simpl; try done;
    destruct (PyStr.mem ticker (exclude_companies config)); simpl; try done;
    destruct (negb (bool_decide (include_companies config = []))),
             (PyStr.mem ticker (include_companies config)); simpl; try done;
    destruct (PyFloat.lt_number (_clean_numeric value) (min_transaction_value config));
    simpl; try done;
    by destruct (PyFloat.lt_int (PyFloat.abs (_clean_numeric qty))
                                (min_shares_traded config)).
Qed.

Lemma rejected_iff trade_type ticker value qty :
  rejected config trade_type ticker value qty = true <->
    (transaction_types config <> [] /\ trade_type ∉ transaction_types config)
    \/ ticker ∈ exclude_companies config
    \/ (include_companies config <> [] /\ ticker ∉ include_companies config)
    \/ PyFloat.lt_number (_clean_numeric value) (min_transaction_value config) = true
    \/ PyFloat.lt_int (PyFloat.abs (_clean_numeric qty)) (min_shares_traded config) = true.
Proof.
  unfold rejected.
  rewrite !orb_true_iff, !andb_true_iff, !negb_true_iff, !bool_decide_eq_false.
  rewrite !mem_false, mem_spec. tauto.
Qed.

End FilterFacts.

(** C5. [_apply_filters] returns false exactly when one of the five grounds
    holds: a configured type list without the trade type, an excluded ticker,
    a configured inclusion list without the ticker, a coerced value strictly
    below [min_transaction_value], or an absolute coerced share count strictly
    below [min_shares_traded]; it never raises. Against a minimum of 25000
    the value "$25,000" is not below the minimum and "$24,999" is. *)
Theorem apply_filters_false_iff
    (config : ScraperConfig) (data : dict) (w : world)
    (trade_type ticker value qty : string) :
  dict_get "trade_type" data = Some trade_type ->
  dict_get "ticker" data = Some ticker ->
  dict_get "value" data = Some value ->
  dict_get "qty" data = Some qty ->
  let by_type :=
    transaction_types config <> [] /\ trade_type ∉ transaction_types config in
  let by_exclusion := ticker ∈ exclude_companies config in
  let by_inclusion :=
    include_companies config <> [] /\ ticker ∉ include_companies config in
  let by_value :=
    PyFloat.lt_number (_clean_numeric value) (min_transaction_value config) = true in
  let by_shares :=
    PyFloat.lt_int (PyFloat.abs (_clean_numeric qty)) (min_shares_traded config) = true in
  ((_apply_filters config data w).1 = Ok false <->
     by_type \/ by_exclusion \/ by_inclusion \/ by_value \/ by_shares)
  /\ ((_apply_filters config data w).1 = Ok true <->
        ~ (by_type \/ by_exclusion \/ by_inclusion \/ by_value \/ by_shares))
  /\ (min_transaction_value config = PyFloat.Int 25000
      \/ min_transaction_value config = PyFloat.Float (PyFloat.of_Z 25000) ->
      (value = "$25,000" -> ~ by_value) /\ (value = "$24,999" -> by_value)).
Proof.
  intros Ht Hk Hv Hq. cbv zeta.
  rewrite (apply_filters_verdict config data w _ _ _ _ Ht Hk Hv Hq). simpl.
  rewrite <- rejected_iff.
  destruct (rejected config trade_type ticker value qty); simpl.
  - split; [tauto|]. split; [split; [discriminate | tauto]|].
    intros [Hmin|Hmin]; rewrite Hmin;
      (split; intros ->; [vm_compute; discriminate | reflexivity]).
  - split; [split; [discriminate | intros H; exfalso; revert H; clear; intuition discriminate]|].
    split; [split; [intros _; intuition discriminate | done]|].
    intros [Hmin|Hmin]; rewrite Hmin;
      (split; intros ->; [vm_compute; discriminate | reflexivity]).
Qed.

(** C6. [_clean_numeric] sends "N/A", "" and "new", in any letter case, to
    0.0, sends "$1,234.50" to the float 1234.5, and sends to 0.0 every string
    that [float] refuses once '$', ',', '+' and '%' are removed: it is a
    total function and no error leaves it. *)
Theorem clean_numeric_lenient :
  _clean_numeric "N/A" = PyFloat.zero
  /\ _clean_numeric "" = PyFloat.zero
  /\ _clean_numeric "new" = PyFloat.zero
  /\ (forall s, PyStr.lower s = "n/a" \/ PyStr.lower s = "new" ->
                _clean_numeric s = PyFloat.zero)
  /\ _clean_numeric "$1,234.50" = S754_finite false 5429388417957888 (-42)
  /\ PyFloat.is_ratio (_clean_numeric "$1,234.50") 123450 100 = true
  /\ (forall s,
        PyFloat.from_string
          (PyStr.remove "%" (PyStr.remove "+" (PyStr.remove "," (PyStr.remove "$" s))))
        = None ->
        _clean_numeric s = PyFloat.zero).
Proof.
  repeat split; try reflexivity.
  - intros s Hs. unfold _clean_numeric.
    destruct Hs as [-> | ->]; simpl; by rewrite orb_true_r.
  - intros s Hs. unfold _clean_numeric. rewrite Hs.
    by destruct (_ || _).
Qed.

(** * The work unit processor: properties *)

Ltac unfold_M :=
  unfold mbind, M_bind, bind, ret, raise, try_except, log, emit, subscript in *.

Section ProcessorFacts.

Variable config : ScraperConfig.
Variable o : oracle.

(** On a Record of 12 fields the filter finds all its keys: it returns
    its verdict and leaves the world untouched. *)
Lemma apply_filters_record (t : tuple) (w : world) :
  length t = 12%nat ->
  _apply_filters config (insider_data t) w = (Ok (passes config t), w).
Proof.
  intros Hlen.
  destruct t as [|filing_date [|trade_date [|ticker [|company_name [|owner_name
    [|title [|trade_type [|price [|qty [|owned [|change_pct [|value [|? ?]]]]]]]]]]]]];
    try discriminate Hlen.
  unfold passes.
  rewrite !(apply_filters_verdict config _ _ trade_type ticker value qty); reflexivity.
Qed.

Lemma retained_length (row : list string) :
  length row = length column_keys -> length (retained row) = 12%nat.
Proof.
  intros H. unfold retained.
  rewrite length_fmap, length_take, length_drop, H. reflexivity.
Qed.

Lemma process_row_spec (row : list string) (data : gset tuple) (w : world) :
  process_row config row data w = (Ok (contribution config row ∪ data), w).
Proof.
  unfold process_row, contribution.
  destruct (length row =? length column_keys)%nat eqn:Hlen; simpl.
  2: { unfold ret. by rewrite (left_id_L ∅ (∪)). }
  apply Nat.eqb_eq in Hlen.
  pose proof (apply_filters_record (retained row) w (retained_length row Hlen)) as Hf.
  do 18 (destruct row as [|? row]; try discriminate Hlen).
  unfold retained in *. cbn [drop take fmap list_fmap] in *.
  unfold insider_data, record_keys, column_keys in Hf.
  cbn [drop take zip zip_with] in Hf.
  unfold_M. cbn. unfold_M. rewrite Hf.
  destruct (passes config _); [done|]. by rewrite (left_id_L ∅ (∪)).
Qed.

Lemma for_each_process_row (rows : list (list string)) (data : gset tuple) (w : world) :
  for_each (process_row config) rows data w
  = (Ok (⋃ (contribution config <$> rows) ∪ data), w).
Proof.
  revert data. induction rows as [|row rows IH]; intros data; simpl.
  - unfold ret. by rewrite (left_id_L ∅ (∪)).
  - unfold mbind, M_bind, bind. rewrite process_row_spec, IH.
    by rewrite (assoc_L (∪)), (comm_L (∪) (contribution config row)).
Qed.

Lemma attempts_request (year month : Z) (tr : list event) (n : nat) :
  attempts year month (tr ++ [EvRequest year month n]) = S (attempts year month tr).
Proof.
  unfold attempts. rewrite List.filter_app, length_app. simpl.
  rewrite !Z.eqb_refl. simpl. lia.
Qed.

Lemma attempts_sleep (year month : Z) (tr : list event) (d : Z) :
  attempts year month (tr ++ [EvSleep d]) = attempts year month tr.
Proof.
  unfold attempts. rewrite List.filter_app, length_app. simpl. lia.
Qed.

Ltac settle_trace :=
  cbn [fs trace];
  repeat (first [rewrite attempts_sleep | rewrite attempts_request]).

(** Whatever the network does, [_fetch_data] starts with a request, only
    requests and sleeps, leaves the files alone and never returns [None]. *)
Lemma fetch_data_frame (year month : Z) (w : world) :
  exists r evs,
    _fetch_data config o year month w
    = (r, World (fs w)
                (trace w ++ EvRequest year month (attempts year month (trace w)) :: evs))
    /\ existsb is_write evs = false
    /\ existsb is_error_log evs = false
    /\ r <> Ok None.
Proof.
  unfold _fetch_data, retry, requests_get. unfold_M.
  set (k := attempts year month (trace w)).
  destruct (net o (timeout config) year month k) as [a|e0]; settle_trace.
  { exists (Ok (Some a)), []. rewrite <- ?app_assoc. repeat split; try done; congruence. }
  fold k.
  destruct (net o (timeout config) year month (S k)) as [a|e1]; settle_trace.
  { exists (Ok (Some a)), [EvSleep 2; EvRequest year month (S k)].
    rewrite <- ?app_assoc. repeat split; try done; congruence. }
  fold k.
  destruct (net o (timeout config) year month (S (S k))) as [a|e2]; settle_trace.
  - exists (Ok (Some a)), (tail (three_attempts year month k)).
    rewrite <- ?app_assoc. repeat split; try done; congruence.
  - exists (Raise e2), (tail (three_attempts year month k)).
    rewrite <- ?app_assoc. repeat split; try done; congruence.
Qed.

Lemma fetch_data_all_fail (year month : Z) (w : world) :
  (forall n, exists e, net o (timeout config) year month n = Raise e) ->
  exists e,
    _fetch_data config o year month w
    = (Raise e,
       World (fs w)
             (trace w ++ three_attempts year month (attempts year month (trace w)))).
Proof.
  intros Hfail.
  unfold _fetch_data, retry, requests_get. unfold_M.
  destruct (Hfail (attempts year month (trace w))) as [e0 ->]. settle_trace.
  destruct (Hfail (S (attempts year month (trace w)))) as [e1 ->]. settle_trace.
  destruct (Hfail (S (S (attempts year month (trace w))))) as [e2 ->]. settle_trace.
  exists e2. rewrite <- !app_assoc. reflexivity.
Qed.

Lemma month_window_ok (year month : Z) (w : world) :
  in_calendar year month = true -> month_window year month w = (Ok tt, w).
Proof.
  unfold in_calendar, month_window. intros H.
  apply andb_true_iff in H as [H H5]. apply andb_true_iff in H as [H H4].
  apply andb_true_iff in H as [H H3]. apply andb_true_iff in H as [H1 H2].
  rewrite H1, H2, H3, H4. simpl. apply negb_true_iff in H5. by rewrite H5.
Qed.

Lemma is_cache_valid_pure (p : path) (w : world) :
  exists b, _is_cache_valid config o p w = (Ok b, w).
Proof. unfold _is_cache_valid. destruct (fs w !! p); eauto. Qed.

(** A cache hit returns what the file holds and touches nothing. *)
Lemma get_data_hit (year month : Z) (w : world) (f : file) :
  cache_enabled config = true ->
  fs w !! _get_cache_path config year month = Some f ->
  PyFloat.lt_int (PyFloat.sub (now o (_get_cache_path config year month)) (mtime f))
                 (cache_max_age config * 3600) = true ->
  _get_data_for_month config o year month w
  = (match content f with
     | Some rows => Ok (list_to_set rows)
     | None => Raise (JSONDecodeError "Expecting value")
     end, w).
Proof.
  intros Hen Hf Hage.
  unfold _get_data_for_month, _is_cache_valid, json_load. unfold_M.
  rewrite Hen, Hf, Hage, Hf. by destruct (content f).
Qed.

(** Without a hit the unit computes its window and enters the [try]. *)
Lemma get_data_miss (year month : Z) (w : world) :
  cache_hit config o year month w = false ->
  _get_data_for_month config o year month w
  = (month_window year month;;
     try_except (fetch_parse_filter config o year month
                                    (_get_cache_path config year month))
       (fun e => log ERROR (FailedToFetch month year e);;
                 ret (∅ : gset tuple))) w.
Proof.
  unfold cache_hit, _get_data_for_month. intros Hmiss.
  destruct (cache_enabled config); simpl in Hmiss.
  - destruct (is_cache_valid_pure (_get_cache_path config year month) w) as [b Hb].
    rewrite Hb in Hmiss. simpl in Hmiss. subst b.
    unfold mbind at 1, M_bind at 1, bind at 1. by rewrite Hb.
  - reflexivity.
Qed.

(** The unit after its fetch, case by case. *)
Lemma get_data_after_fetch (year month : Z) (w w1 : world)
    (r : result (option page)) :
  cache_hit config o year month w = false ->
  in_calendar year month = true ->
  _fetch_data config o year month w = (r, w1) ->
  let p := _get_cache_path config year month in
  let failed e :=
    (Ok (∅ : gset tuple),
     World (fs w1) (trace w1 ++ [EvLog ERROR (FailedToFetch month year e)])) in
  _get_data_for_month config o year month w
  = match r with
    | Raise e => failed e
    | Ok None => failed (AttributeError "'NoneType' object has no attribute 'text'")
    | Ok (Some NoTable) =>
        (Ok ∅, World (fs w1) (trace w1 ++ [EvLog WARNING (NoTableFound month year)]))
    | Ok (Some NoTbody) =>
        failed (AttributeError "'NoneType' object has no attribute 'find_all'")
    | Ok (Some (Table rows)) =>
        let data := ⋃ (contribution config <$> rows) in
        if cache_enabled config then
          if disk_ok o p then
            (Ok data,
             World (<[p := File (write_time o p) (Some (elements data))]> (fs w1))
                   (trace w1 ++ [EvWrite p (elements data)]))
          else failed (OSError "Permission denied")
        else (Ok data, w1)
    end.
Proof.
  intros Hmiss Hcal Hfetch p failed.
  rewrite (get_data_miss _ _ _ Hmiss).
  unfold mbind at 1, M_bind at 1, bind at 1.
  rewrite (month_window_ok _ _ _ Hcal).
  unfold try_except, fetch_parse_filter.
  unfold mbind at 1, M_bind at 1, bind at 1. rewrite Hfetch.
  destruct r as [[[| |rows]|]|e]; try reflexivity.
  unfold mbind at 1, M_bind at 1, bind at 1.
  rewrite for_each_process_row.
  replace (⋃ (contribution config <$> rows) ∪ ∅)
    with (⋃ (contribution config <$> rows)) by (by rewrite (right_id_L ∅ (∪))).
  fold p. unfold json_dump.
  destruct (cache_enabled config); [|reflexivity].
  unfold mbind, M_bind, bind.
  destruct (disk_ok o p); reflexivity.
Qed.

End ProcessorFacts.

(** * The orchestrator: properties *)

Section OrchestratorFacts.

Lemma collect_spec (f : future) (all_data : list tuple) (w : world) :
  collect f all_data w
  = (Ok (all_data ++ yield f), World (fs w) (trace w ++ failure_log f)).
Proof.
  unfold collect, future_result. unfold_M.
  destruct f as [s|e]; destruct w as [files tr]; simpl.
  - by rewrite app_nil_r.
  - by rewrite app_nil_r.
Qed.

(** The loop over the finished futures never stops early: it appends what
    each future yields and logs each failure. *)
Lemma for_each_collect (futures : list future) (all_data : list tuple) (w : world) :
  for_each collect futures all_data w
  = (Ok (all_data ++ concat (yield <$> futures)),
     World (fs w) (trace w ++ concat (failure_log <$> futures))).
Proof.
  revert all_data w. induction futures as [|f futures IH]; intros all_data w.
  - destruct w. simpl. unfold ret. by rewrite !app_nil_r.
  - simpl. unfold mbind, M_bind, bind. rewrite collect_spec, IH.
    cbn [fs trace]. by rewrite <- !app_assoc.
Qed.

Lemma occurrences_app (t : tuple) (l1 l2 : list tuple) :
  occurrences t (l1 ++ l2) = (occurrences t l1 + occurrences t l2)%nat.
Proof. unfold occurrences. by rewrite filter_app, length_app. Qed.

Lemma occurrences_NoDup (t : tuple) (l : list tuple) :
  NoDup l -> occurrences t l = if bool_decide (t ∈ l) then 1%nat else 0%nat.
Proof.
  unfold occurrences. induction 1 as [|x l Hx Hnd IH]; [done|].
  rewrite filter_cons. destruct (decide (x = t)) as [->|Hne].
  - simpl. rewrite IH. rewrite (bool_decide_eq_false_2 _ Hx).
    rewrite bool_decide_eq_true_2; [done | by left].
  - rewrite IH.
    replace (bool_decide (t ∈ x :: l)) with (bool_decide (t ∈ l)); [done|].
    apply bool_decide_ext. rewrite elem_of_cons.
    split; [by right | by intros [->|?]].
Qed.

Lemma occurrences_yield (t : tuple) (f : future) :
  occurrences t (yield f) = if holds t f then 1%nat else 0%nat.
Proof.
  destruct f as [s|e]; simpl; [|done].
  rewrite occurrences_NoDup by apply NoDup_elements.
  replace (bool_decide (t ∈ elements s)) with (bool_decide (t ∈ s)); [done|].
  apply bool_decide_ext. by rewrite elem_of_elements.
Qed.

Lemma occurrences_concat_yield (t : tuple) (futures : list future) :
  occurrences t (concat (yield <$> futures))
  = length (List.filter (holds t) futures).
Proof.
  induction futures as [|f futures IH]; [done|].
  rewrite fmap_cons. cbn [concat List.filter].
  rewrite occurrences_app, occurrences_yield, IH.
  by destruct (holds t f).
Qed.

Lemma filter_two {A} (P : A -> bool) (l : list A) (i j : nat) (x y : A) :
  i <> j -> l !! i = Some x -> l !! j = Some y ->
  P x = true -> P y = true -> (2 <= length (List.filter P l))%nat.
Proof.
  revert i j. induction l as [|a l IH]; intros i j Hne Hi Hj Hx Hy; [done|].
  destruct i as [|i], j as [|j]; simpl in *; simplify_eq.
  - rewrite Hx. simpl.
    apply list_elem_of_lookup_2, list_elem_of_In in Hj.
    assert (In y (List.filter P l)) as Hin by (apply filter_In; done).
    destruct (List.filter P l); [done | simpl; lia].
  - rewrite Hy. simpl.
    apply list_elem_of_lookup_2, list_elem_of_In in Hi.
    assert (In x (List.filter P l)) as Hin by (apply filter_In; done).
    destruct (List.filter P l); [done | simpl; lia].
  - assert (i <> j) as Hne' by congruence.
    specialize (IH i j Hne' Hi Hj Hx Hy).
    destruct (P a); simpl; lia.
Qed.

Variable config : ScraperConfig.
Variable o : oracle.

Lemma run_tasks_length (units : list (Z * Z)) (w : world) :
  length (run_tasks config o units w).1 = length units.
Proof.
  revert w. induction units as [|[year month] units IH]; intros w; [done|].
  simpl. destruct (_get_data_for_month config o year month w) as [r w1].
  specialize (IH w1). destruct (run_tasks config o units w1) as [futures w2].
  simpl in *. by rewrite IH.
Qed.

End OrchestratorFacts.

(** * The work unit processor: the unit as a whole *)

Section UnitFacts.

Variable config : ScraperConfig.
Variable o : oracle.

Lemma elem_of_contributions (t : tuple) (rows : list (list string)) :
  t ∈ ⋃ (contribution config <$> rows) ->
  exists row,
    row ∈ rows /\ length row = length column_keys
    /\ passes config (retained row) = true /\ t = retained row.
Proof.
  rewrite elem_of_union_list. intros (X & HX & Ht).
  apply list_elem_of_fmap in HX as (row & -> & Hrow).
  unfold contribution in Ht.
  destruct (length row =? length column_keys)%nat eqn:Hlen; simpl in Ht;
    [|set_solver].
  destruct (passes config (retained row)) eqn:Hp; [|set_solver].
  apply elem_of_singleton in Ht. apply Nat.eqb_eq in Hlen. eauto.
Qed.

Lemma contribution_elem_of (row : list string) (rows : list (list string)) :
  row ∈ rows -> contribution config row ⊆ ⋃ (contribution config <$> rows).
Proof.
  intros Hrow t Ht. apply elem_of_union_list.
  exists (contribution config row). split; [|done].
  apply list_elem_of_fmap. eauto.
Qed.

Lemma passes_of_verdict (row : list string) (w0 : world) (b : bool) :
  length row = length column_keys ->
  (_apply_filters config (insider_data (retained row)) w0).1 = Ok b ->
  passes config (retained row) = b.
Proof.
  intros Hlen Hv.
  rewrite (apply_filters_record config _ w0 (retained_length row Hlen)) in Hv.
  simpl in Hv. congruence.
Qed.

Lemma month_window_raises (year month : Z) (w : world) :
  in_calendar year month = false ->
  exists e, month_window year month w = (Raise e, w).
Proof.
  unfold in_calendar, month_window. intros H.
  destruct ((1 <=? year) && (year <=? 9999)); simpl in *; [|eauto].
  destruct (1 <=? month); simpl in *; [|eauto].
  destruct (month <=? 12); simpl in *; [|eauto].
  apply negb_false_iff in H. rewrite H. eauto.
Qed.

Lemma no_write_in (evs : list event) (p : path) (written : list tuple) :
  existsb is_write evs = false -> EvWrite p written ∉ evs.
Proof.
  intros Hno Hin. apply list_elem_of_In in Hin.
  assert (existsb is_write evs = true) as Hyes
    by (apply existsb_exists; eexists; split; [exact Hin | done]).
  congruence.
Qed.

(** A unit that misses its cache: what it returns comes from rows that
    pass the filter, and the only file it may write is its own cache file,
    holding exactly the set it returns. *)
Lemma miss_summary (year month : Z) (w : world) :
  cache_hit config o year month w = false ->
  let run := _get_data_for_month config o year month w in
  let p := _get_cache_path config year month in
  exists evs,
    trace run.2 = trace w ++ evs
    /\ (forall s t, run.1 = Ok s -> t ∈ s ->
          exists row, length row = length column_keys
                      /\ passes config (retained row) = true
                      /\ t = retained row)
    /\ (forall p' written, EvWrite p' written ∈ evs ->
          p' = p /\ exists s, run.1 = Ok s /\ written = elements s)
    /\ (fs run.2 = fs w
        \/ exists s, run.1 = Ok s
                     /\ fs run.2
                        = <[p := File (write_time o p) (Some (elements s))]> (fs w)).
Proof.
  intros Hmiss run p. subst run.
  destruct (in_calendar year month) eqn:Hcal.
  - destruct (fetch_data_frame config o year month w)
      as (r & evs & Hfetch & Hnw & _ & Hnn).
    rewrite (get_data_after_fetch config o year month w _ r Hmiss Hcal Hfetch).
    cbv zeta. fold p.
    set (k := attempts year month (trace w)) in *.
    assert (forall ev p' written,
               is_write ev = false ->
               EvWrite p' written ∈ EvRequest year month k :: evs ++ [ev] ->
               False) as Hnone.
    { intros ev p' written Hev Hin.
      apply elem_of_cons in Hin as [?|Hin]; [done|].
      apply elem_of_app in Hin as [Hin|Hin]; [by eapply no_write_in|].
      apply list_elem_of_singleton in Hin. subst ev. done. }
    assert (forall s ev,
               is_write ev = false ->
               let run := (Ok (s : gset tuple),
                           World (fs w) ((trace w ++ EvRequest year month k :: evs) ++ [ev])) in
               s = ∅ ->
               exists evs',
                 trace run.2 = trace w ++ evs'
                 /\ (forall s' t, run.1 = Ok s' -> t ∈ s' ->
                       exists row, length row = length column_keys
                                   /\ passes config (retained row) = true
                                   /\ t = retained row)
                 /\ (forall p' written, EvWrite p' written ∈ evs' ->
                       p' = p /\ exists s', run.1 = Ok s' /\ written = elements s')
                 /\ (fs run.2 = fs w
                     \/ exists s', run.1 = Ok s'
                          /\ fs run.2
                             = <[p := File (write_time o p) (Some (elements s'))]> (fs w)))
      as Hquiet.
    { intros s ev Hev run' ->. subst run'.
      exists (EvRequest year month k :: evs ++ [ev]). cbn [fst snd fs trace].
      split; [by rewrite <- app_assoc|].
      split; [intros s' t [= <-]; set_solver|].
      split; [intros p' written Hin; by destruct (Hnone _ _ _ Hev Hin)|by left]. }
    destruct r as [[[| |rows]|]|e]; cbn [fs trace]; try (by apply Hquiet).
    destruct (cache_enabled config); [destruct (disk_ok o p)|];
      try (by apply Hquiet).
    + exists (EvRequest year month k
                :: evs ++ [EvWrite p (elements (⋃ (contribution config <$> rows)))]).
      cbn [fst snd fs trace].
      split; [by rewrite <- app_assoc|].
      split.
      { intros s' t [= <-] Ht.
        apply elem_of_contributions in Ht as (row & _ & ? & ? & ?). eauto. }
      split.
      { intros p' written Hin.
        apply elem_of_cons in Hin as [?|Hin]; [done|].
        apply elem_of_app in Hin as [Hin|Hin]; [by destruct (no_write_in _ _ _ Hnw Hin)|].
        apply list_elem_of_singleton in Hin. simplify_eq. eauto. }
      right. eauto.
    + exists (EvRequest year month k :: evs). cbn [fst snd fs trace].
      split; [done|].
      split.
      { intros s' t [= <-] Ht.
        apply elem_of_contributions in Ht as (row & _ & ? & ? & ?). eauto. }
      split; [|by left].
      intros p' written Hin.
      apply elem_of_cons in Hin as [?|Hin]; [done|].
      by destruct (no_write_in _ _ _ Hnw Hin).
  - rewrite (get_data_miss config o year month w Hmiss).
    unfold mbind, M_bind, bind.
    destruct (month_window_raises year month w Hcal) as [e ->].
    exists []. cbn [fst snd]. rewrite app_nil_r.
    split; [done|]. split; [done|]. split; [|by left].
    intros p' written Hin. by apply elem_of_nil in Hin.
Qed.

End UnitFacts.

(** C1. On a unit that fetches, a row whose 12 retained fields
    [_apply_filters] rejects leaves no Record behind: the Record is not in
    the set the unit returns, not in any cache file the unit writes, and the
    unit's cache file is either untouched or holds rows without it. *)
Theorem rejected_record_never_kept
    (config : ScraperConfig) (o : oracle) (year month : Z) (w w0 : world)
    (row : list string) :
  cache_hit config o year month w = false ->
  length row = length column_keys ->
  (_apply_filters config (insider_data (retained row)) w0).1 = Ok false ->
  let run := _get_data_for_month config o year month w in
  let p := _get_cache_path config year month in
  (forall s, run.1 = Ok s -> retained row ∉ s)
  /\ (exists evs,
        trace run.2 = trace w ++ evs
        /\ forall p' written, EvWrite p' written ∈ evs -> retained row ∉ written)
  /\ (fs run.2 = fs w
      \/ exists written,
           fs run.2 = <[p := File (write_time o p) (Some written)]> (fs w)
           /\ retained row ∉ written).
Proof.
  intros Hmiss Hlen Hrej run p.
  pose proof (passes_of_verdict config row w0 false Hlen Hrej) as Hno.
  destruct (miss_summary config o year month w Hmiss)
    as (evs & Htrace & Hfrom & Hwrites & Hfs).
  fold run in Htrace, Hfrom, Hwrites, Hfs. fold p in Hwrites, Hfs.
  assert (forall s, run.1 = Ok s -> retained row ∉ s) as Hout.
  { intros s Hs Hin. destruct (Hfrom s _ Hs Hin) as (row' & _ & Hp & Heq).
    rewrite Heq in Hno. congruence. }
  split; [exact Hout|]. split.
  - exists evs. split; [exact Htrace|].
    intros p' written Hin Hmem.
    destruct (Hwrites p' written Hin) as (_ & s & Hs & ->).
    apply elem_of_elements in Hmem. by apply (Hout s Hs).
  - destruct Hfs as [Hfs | (s & Hs & Hfs)]; [by left|].
    right. exists (elements s). split; [exact Hfs|].
    intros Hmem. apply elem_of_elements in Hmem. by apply (Hout s Hs).
Qed.

Lemma rejected_record_never_kept_witness :
  (_apply_filters Sample.config (insider_data (retained Sample.cheap)) Sample.world0).1
  = Ok false
  /\ forall s,
       (_get_data_for_month Sample.config Sample.oracle0 2024 1 Sample.world0).1 = Ok s ->
       retained Sample.cheap ∉ s.
Proof.
  split; [vm_compute; reflexivity|].
  apply (rejected_record_never_kept
           Sample.config Sample.oracle0 2024 1 Sample.world0 Sample.world0 Sample.cheap);
    vm_compute; reflexivity.
Defined.

(** C2. With caching enabled, a cache file younger than [cache_max_age]
    hours is served as it is: the unit returns the stored set and has no
    effect at all, so no request is made. A file that is missing, or whose
    age is not below the limit, is not consulted whatever it holds: the unit
    goes to the network. *)
Theorem fresh_cache_served_without_fetch
    (config : ScraperConfig) (o : oracle) (year month : Z) (w : world) :
  let p := _get_cache_path config year month in
  let run := _get_data_for_month config o year month w in
  let age f := PyFloat.sub (now o p) (mtime f) in
  let limit := cache_max_age config * 3600 in
  (forall f,
      cache_enabled config = true ->
      fs w !! p = Some f ->
      PyFloat.lt_int (age f) limit = true ->
      run.2 = w
      /\ attempts year month (trace run.2) = attempts year month (trace w)
      /\ forall rows, content f = Some rows -> run.1 = Ok (list_to_set rows))
  /\ (fs w !! p = None
      \/ (exists f, fs w !! p = Some f /\ PyFloat.lt_int (age f) limit = false) ->
      cache_hit config o year month w = false
      /\ (in_calendar year month = true ->
          exists evs,
            trace run.2
            = trace w ++ EvRequest year month (attempts year month (trace w)) :: evs)).
Proof.
  intros p run age limit. split.
  - intros f Hen Hf Hage. subst run.
    rewrite (get_data_hit config o year month w f Hen Hf Hage). simpl.
    split; [done|]. split; [done|]. by intros rows ->.
  - intros Hmiss.
    assert (cache_hit config o year month w = false) as Hnohit.
    { unfold cache_hit, _is_cache_valid. fold p.
      destruct Hmiss as [-> | (f & -> & Hage)]; simpl.
      - apply andb_false_r.
      - fold (age f). fold limit. rewrite Hage. apply andb_false_r. }
    split; [exact Hnohit|]. intros Hcal.
    destruct (fetch_data_frame config o year month w) as (r & evs & Hfetch & _).
    subst run.
    rewrite (get_data_after_fetch config o year month w _ r Hnohit Hcal Hfetch).
    cbv zeta.
    destruct r as [[[| |rows]|]|e]; cbn [snd trace];
      try (eexists; by rewrite <- app_assoc).
    destruct (cache_enabled config); [destruct (disk_ok o _)|]; cbn [snd trace];
      try (eexists; by rewrite <- app_assoc).
    by eexists.
Qed.

Lemma fresh_cache_served_without_fetch_witness :
  (_get_data_for_month Sample.config Sample.oracle0 2024 1 Sample.cached).2
  = Sample.cached
  /\ cache_hit Sample.config Sample.oracle0 2024 1 Sample.stale = false.
Proof.
  pose proof (fresh_cache_served_without_fetch
                Sample.config Sample.oracle0 2024 1 Sample.cached) as [Hhit _].
  pose proof (fresh_cache_served_without_fetch
                Sample.config Sample.oracle0 2024 1 Sample.stale) as [_ Hmiss].
  split.
  - apply (Hhit (File (PyFloat.of_Z 1699999000) (Some [Sample.acme])));
      vm_compute; reflexivity.
  - apply Hmiss. right.
    exists (File (PyFloat.of_Z 1699827200) (Some [Sample.acme])).
    split; vm_compute; reflexivity.
Defined.

(** C3. What the code does where the claim expects [retry_attempts] tries:
    whatever the configuration says, on a network that always fails
    [_fetch_data] makes exactly three requests, sleeping 2 and then 4 seconds
    between them, and then lets the failure through. The sample
    configuration asks for 5 attempts and gets 3. *)
Theorem fetch_data_ignores_retry_attempts
    (config : ScraperConfig) (year month : Z) (w : world) :
  _fetch_data config Sample.offline year month w
  = (Raise (RequestException "Connection refused"),
     World (fs w)
           (trace w ++ three_attempts year month (attempts year month (trace w))))
  /\ retry_attempts Sample.config = 5
  /\ attempts 2024 1
       (trace (_fetch_data Sample.config Sample.offline 2024 1 Sample.world0).2)
     = 3%nat.
Proof.
  split; [|split; reflexivity].
  destruct (fetch_data_all_fail config Sample.offline year month w) as [e He].
  { intros n. by eexists. }
  rewrite He. f_equal. f_equal.
  assert ((_fetch_data config Sample.offline year month w).1
          = Raise (RequestException "Connection refused")) as Hres.
  { unfold _fetch_data, retry, requests_get. unfold_M. reflexivity. }
  rewrite He in Hres. simpl in Hres. congruence.
Qed.

(** C7. Two rows of one table with the same 12 retained fields give one
    Record: the unit returns the set it would return without the second row,
    the list made of that set has no repetition, and the Record occurs in it
    exactly once when the filter accepts it (and not at all otherwise). *)
Theorem duplicate_rows_give_one_record
    (config : ScraperConfig) (o : oracle) (year month : Z) (w w1 : world)
    (rows : list (list string)) (i j : nat) (r1 r2 : list string) :
  let run := _get_data_for_month config o year month w in
  let p := _get_cache_path config year month in
  cache_hit config o year month w = false ->
  in_calendar year month = true ->
  _fetch_data config o year month w = (Ok (Some (Table rows)), w1) ->
  (cache_enabled config = true -> disk_ok o p = true) ->
  i <> j ->
  rows !! i = Some r1 ->
  rows !! j = Some r2 ->
  length r1 = length column_keys ->
  retained r1 = retained r2 ->
  exists s,
    run.1 = Ok s
    /\ s = ⋃ (contribution config <$> delete j rows)
    /\ NoDup (elements s)
    /\ occurrences (retained r1) (elements s)
       = if passes config (retained r1) then 1%nat else 0%nat.
Proof.
  intros run p Hmiss Hcal Hfetch Hdisk Hne Hi Hj Hlen Hsame.
  exists (⋃ (contribution config <$> rows)).
  assert (run.1 = Ok (⋃ (contribution config <$> rows))) as Hrun.
  { subst run.
    rewrite (get_data_after_fetch config o year month w _ _ Hmiss Hcal Hfetch).
    cbv zeta. fold p.
    destruct (cache_enabled config); [|done]. by rewrite Hdisk. }
  assert (r1 ∈ delete j rows) as Hkept.
  { apply list_elem_of_lookup.
    destruct (decide (i < j)%nat) as [Hlt|Hge].
    - exists i. by rewrite list_lookup_delete_lt.
    - exists (pred i). rewrite list_lookup_delete_ge by lia.
      replace (S (pred i)) with i by lia. done. }
  assert (contribution config r2 ⊆ contribution config r1) as Hsub.
  { unfold contribution. rewrite <- Hsame, Hlen, Nat.eqb_refl. simpl.
    destruct (_ =? _)%nat; simpl; [done | apply empty_subseteq]. }
  split; [exact Hrun|]. split; [|split].
  - rewrite delete_take_drop.
    rewrite <- (take_drop_middle rows j r2 Hj) at 1.
    rewrite !fmap_app, fmap_cons, !union_list_app_L, union_list_cons.
    pose proof (contribution_elem_of config r1 _ Hkept) as Hin.
    rewrite delete_take_drop, fmap_app, union_list_app_L in Hin.
    apply set_eq. intros t. rewrite !elem_of_union. split.
    + intros [?|[Ht|?]]; [by left | | by right].
      apply elem_of_union. apply Hin, Hsub, Ht.
    + intros [?|?]; [by left | by right; right].
  - apply NoDup_elements.
  - rewrite occurrences_NoDup by apply NoDup_elements.
    destruct (passes config (retained r1)) eqn:Hp.
    + rewrite bool_decide_eq_true_2; [done|].
      apply elem_of_elements.
      apply (contribution_elem_of config r1 rows).
      * by eapply list_elem_of_lookup_2.
      * unfold contribution. rewrite Hlen, Nat.eqb_refl, Hp. set_solver.
    + rewrite bool_decide_eq_false_2; [done|].
      intros Hin. apply elem_of_elements in Hin.
      apply elem_of_contributions in Hin as (row & _ & _ & Hpass & Heq).
      rewrite Heq in Hp. congruence.
Qed.

Lemma duplicate_rows_give_one_record_witness :
  exists s,
    (_get_data_for_month Sample.config Sample.oracle0 2024 1 Sample.world0).1 = Ok s
    /\ occurrences Sample.acme (elements s) = 1%nat.
Proof.
  destruct (duplicate_rows_give_one_record
              Sample.config Sample.oracle0 2024 1
              Sample.world0 (World ∅ [EvRequest 2024 1 0]) Sample.rows 0 2
              (Sample.row "ACME" "+$25,000" "+2,000")
              (Sample.row " ACME " "+$25,000" "+2,000"))
    as (s & Hrun & _ & _ & Hocc); try (vm_compute; reflexivity).
  - discriminate.
  - exists s. split; [exact Hrun|]. exact Hocc.
Defined.

(** C8, as the code has it. On a cache miss with a fetch that succeeds and
    caching enabled: when the table and its body are found and the cache file
    can be written, the unit returns the deduplicated filtered set and its
    last effect is the write of that set to its cache file, also when no row
    passed the filter; when no table is found, the unit logs a warning and
    returns the empty set, and no file is written. *)
Theorem cache_written_when_table_found
    (config : ScraperConfig) (o : oracle) (year month : Z) (w w1 : world)
    (pg : page) :
  let run := _get_data_for_month config o year month w in
  let p := _get_cache_path config year month in
  cache_hit config o year month w = false ->
  in_calendar year month = true ->
  _fetch_data config o year month w = (Ok (Some pg), w1) ->
  cache_enabled config = true ->
  (forall rows,
      pg = Table rows ->
      disk_ok o p = true ->
      let data := ⋃ (contribution config <$> rows) in
      run = (Ok data,
             World (<[p := File (write_time o p) (Some (elements data))]> (fs w))
                   (trace w1 ++ [EvWrite p (elements data)]))
      /\ fs run.2 !! p = Some (File (write_time o p) (Some (elements data)))
      /\ ((forall row, row ∈ rows -> contribution config row = ∅) ->
          run.1 = Ok ∅
          /\ fs run.2 !! p = Some (File (write_time o p) (Some []))))
  /\ (pg = NoTable ->
      run = (Ok ∅,
             World (fs w) (trace w1 ++ [EvLog WARNING (NoTableFound month year)]))).
Proof.
  intros run p Hmiss Hcal Hfetch Hen.
  assert (fs w1 = fs w) as Hfs.
  { destruct (fetch_data_frame config o year month w) as (r & evs & Hframe & _).
    rewrite Hfetch in Hframe. by simplify_eq. }
  subst run.
  rewrite (get_data_after_fetch config o year month w _ _ Hmiss Hcal Hfetch).
  cbv zeta. fold p. split.
  - intros rows -> Hdisk. rewrite Hen, Hdisk, Hfs. cbn [fst snd fs trace].
    split; [done|]. split; [apply lookup_insert_eq|].
    intros Hnone.
    assert (⋃ (contribution config <$> rows) = ∅) as ->.
    { apply empty_union_list_L, Forall_fmap, Forall_forall.
      intros row Hrow. by apply Hnone. }
    split; [done|]. rewrite elements_empty. apply lookup_insert_eq.
  - intros ->. by rewrite Hfs.
Qed.

Lemma cache_written_when_table_found_witness :
  exists data,
    _get_data_for_month Sample.config Sample.oracle0 2024 1 Sample.world0
    = (Ok data,
       World {[Sample.january := File (PyFloat.of_Z 1700000001) (Some (elements data))]}
             [EvRequest 2024 1 0; EvWrite Sample.january (elements data)]).
Proof.
  destruct (cache_written_when_table_found
              Sample.config Sample.oracle0 2024 1
              Sample.world0 (World ∅ [EvRequest 2024 1 0]) (Table Sample.rows))
    as [Htable _]; try (vm_compute; reflexivity).
  destruct (Htable Sample.rows eq_refl eq_refl) as [Hrun _].
  eexists. exact Hrun.
Defined.

(** C8 as stated fails when no table is found: caching is enabled, the cache
    is missed and the fetch succeeds at its first attempt, yet the unit
    returns before the cache write; no file is written. *)
Lemma no_table_skips_cache_write :
  cache_enabled Sample.config = true
  /\ cache_hit Sample.config Sample.oracle0 2024 2 Sample.world0 = false
  /\ _fetch_data Sample.config Sample.oracle0 2024 2 Sample.world0
     = (Ok (Some NoTable), World ∅ [EvRequest 2024 2 0])
  /\ _get_data_for_month Sample.config Sample.oracle0 2024 2 Sample.world0
     = (Ok ∅, World ∅ [EvRequest 2024 2 0; EvLog WARNING (NoTableFound 2 2024)])
  /\ fs (_get_data_for_month Sample.config Sample.oracle0 2024 2 Sample.world0).2
       !! _get_cache_path Sample.config 2024 2 = None.
Proof. repeat split; vm_compute; reflexivity. Qed.

Lemma apply_filters_false_iff_witness :
  (_apply_filters Sample.config (insider_data (retained Sample.cheap)) Sample.world0).1
  = Ok false.
Proof.
  apply (proj2 (proj1 (apply_filters_false_iff
                         Sample.config (insider_data (retained Sample.cheap))
                         Sample.world0 "P - Purchase" "ACME" "+$24,999" "+2,000"
                         eq_refl eq_refl eq_refl eq_refl))).
  right. right. right. left. vm_compute. reflexivity.
Defined.

Lemma clean_numeric_lenient_witness :
  _clean_numeric "NeW" = PyFloat.zero /\ _clean_numeric "12abc" = PyFloat.zero.
Proof.
  destruct clean_numeric_lenient as (_ & _ & _ & Htoken & _ & _ & Hbad).
  split.
  - apply Htoken. right. reflexivity.
  - apply Hbad. reflexivity.
Defined.

(** * The orchestrator: the work units *)

Section WorkUnitFacts.

Lemma elem_of_range (a b x : Z) : x ∈ range a b <-> a <= x < b.
Proof.
  unfold range. rewrite list_elem_of_fmap. split.
  - intros (i & -> & Hi). apply elem_of_seq in Hi. lia.
  - intros Hx. exists (Z.to_nat (x - a)). split; [lia|].
    apply elem_of_seq. lia.
Qed.

Lemma StronglySorted_seq (j n : nat) : StronglySorted lt (seq j n).
Proof.
  revert j. induction n as [|n IH]; intros j; simpl; constructor; [apply IH|].
  apply Forall_forall. intros k Hk. apply elem_of_seq in Hk. lia.
Qed.

Lemma StronglySorted_range (a b : Z) : StronglySorted Z.lt (range a b).
Proof.
  unfold range. eapply StronglySorted_fmap; [|apply StronglySorted_seq].
  intros i j Hij. simpl. lia.
Qed.

Lemma StronglySorted_bind {A B} (R1 : relation A) (R2 : relation B)
    (f : A -> list B) (l : list A) :
  (forall y, y ∈ l -> StronglySorted R2 (f y)) ->
  (forall y1 y2 x1 x2, R1 y1 y2 -> x1 ∈ f y1 -> x2 ∈ f y2 -> R2 x1 x2) ->
  StronglySorted R1 l ->
  StronglySorted R2 (l ≫= f).
Proof.
  intros Hin Hacross Hl. induction Hl as [|y l Hl IH Hy].
  - constructor.
  - rewrite bind_cons. apply StronglySorted_app_2.
    + intros x1 x2 H1 H2. apply list_elem_of_bind in H2 as (y2 & H2 & Hy2).
      rewrite Forall_forall in Hy. eapply Hacross; [apply (Hy y2 Hy2)|done..].
    + apply Hin. by left.
    + apply IH. intros y' Hy'. apply Hin. by right.
Qed.

Lemma StronglySorted_unit_lt_NoDup (l : list (Z * Z)) :
  StronglySorted unit_lt l -> NoDup l.
Proof.
  induction 1 as [|u l Hl IH Hu]; constructor; [|done].
  intros Hin. rewrite Forall_forall in Hu. specialize (Hu u Hin).
  unfold unit_lt in Hu. lia.
Qed.

Lemma elem_of_work_units
    (config : ScraperConfig) (current_year current_month year month : Z) :
  (year, month) ∈ work_units config current_year current_month <->
    start_year config <= year <= current_year
    /\ (if year =? start_year config then start_month config else 1) <= month
    /\ month < (if year =? current_year then current_month + 1 else 13).
Proof.
  unfold work_units. rewrite list_elem_of_bind. split.
  - intros (y & Hm & Hy). apply elem_of_range in Hy.
    apply list_elem_of_bind in Hm as (m & Hu & Hm).
    apply list_elem_of_singleton in Hu. simplify_eq.
    apply elem_of_range in Hm. lia.
  - intros (Hy & Hlo & Hhi). exists year. split; [|apply elem_of_range; lia].
    apply list_elem_of_bind. exists month.
    split; [by apply list_elem_of_singleton | apply elem_of_range; lia].
Qed.

End WorkUnitFacts.

(** X1. The units [scrape] submits are exactly the months from
    ([start_year], [start_month]) to the current month, both included:
    every year from [start_year] to the current one, from [start_month] on
    in the first year and up to the current month in the last. *)
Theorem work_units_membership
    (config : ScraperConfig) (current_year current_month year month : Z) :
  (year, month) ∈ work_units config current_year current_month <->
    start_year config <= year <= current_year
    /\ (if year =? start_year config then start_month config else 1) <= month
    /\ month < (if year =? current_year then current_month + 1 else 13).
Proof. apply elem_of_work_units. Qed.

(** X2. The units are submitted in the order of the calendar, year after
    year and month after month, and no unit is submitted twice. *)
Theorem work_units_ascending
    (config : ScraperConfig) (current_year current_month : Z) :
  StronglySorted unit_lt (work_units config current_year current_month)
  /\ NoDup (work_units config current_year current_month).
Proof.
  assert (StronglySorted unit_lt (work_units config current_year current_month))
    as Hsorted.
  { unfold work_units.
    apply (StronglySorted_bind Z.lt unit_lt); [| |apply StronglySorted_range].
    - intros y _.
      apply (StronglySorted_bind Z.lt unit_lt); [| |apply StronglySorted_range].
      + intros m _. repeat constructor.
      + intros m1 m2 u1 u2 Hlt H1 H2.
        apply list_elem_of_singleton in H1, H2. subst. right. simpl. lia.
    - intros y1 y2 u1 u2 Hlt H1 H2.
      apply list_elem_of_bind in H1 as (m1 & H1 & _).
      apply list_elem_of_bind in H2 as (m2 & H2 & _).
      apply list_elem_of_singleton in H1, H2. subst. left. simpl. lia. }
  split; [exact Hsorted | by apply StronglySorted_unit_lt_NoDup].
Qed.

(** * The orchestrator: the pool *)

Section PoolFacts.

Lemma take_out_perm (u : Z * Z) (l rest : list (Z * Z)) :
  take_out u l = Some rest -> l ≡ₚ u :: rest.
Proof.
  revert rest. induction l as [|v l IH]; intros rest; [done|]. simpl.
  destruct (decide (u = v)) as [->|Hne].
  - by intros [= ->].
  - destruct (take_out u l) as [rest'|]; [|done]. intros [= <-].
    rewrite (IH rest' eq_refl). apply Permutation_swap.
Qed.

(** Every submitted unit completes, once: the order of completion is a
    permutation of the order of submission, whatever the scheduler does. *)
Lemma arrange_perm (wish pending : list (Z * Z)) : arrange wish pending ≡ₚ pending.
Proof.
  revert pending. induction wish as [|u wish IH]; intros pending; [done|]. simpl.
  destruct (take_out u pending) as [rest|] eqn:Hout; [|apply IH].
  by rewrite IH, (take_out_perm u pending rest Hout).
Qed.

Example arrange_follows_the_wish :
  arrange [(2024, 2); (2023, 7); (2024, 2)] [(2024, 1); (2024, 2); (2024, 3)]
  = [(2024, 2); (2024, 1); (2024, 3)]
  /\ arrange [] [(2024, 1); (2024, 2)] = [(2024, 1); (2024, 2)].
Proof. split; reflexivity. Qed.

Lemma work_units_NoDup (config : ScraperConfig) (current_year current_month : Z) :
  NoDup (work_units config current_year current_month).
Proof.
  apply StronglySorted_unit_lt_NoDup. unfold work_units.
  apply (StronglySorted_bind Z.lt unit_lt); [| |apply StronglySorted_range].
  - intros y _.
    apply (StronglySorted_bind Z.lt unit_lt); [| |apply StronglySorted_range].
    + intros m _. repeat constructor.
    + intros m1 m2 u1 u2 Hlt H1 H2.
      apply list_elem_of_singleton in H1, H2. subst. right. simpl. lia.
  - intros y1 y2 u1 u2 Hlt H1 H2.
    apply list_elem_of_bind in H1 as (m1 & H1 & _).
    apply list_elem_of_bind in H2 as (m2 & H2 & _).
    apply list_elem_of_singleton in H1, H2. subst. left. simpl. lia.
Qed.

Variable config : ScraperConfig.
Variable o : oracle.

Lemma completion_order_perm (current_year current_month : Z) :
  completion_order o (work_units config current_year current_month)
  ≡ₚ work_units config current_year current_month.
Proof. apply arrange_perm. Qed.

Lemma completion_order_NoDup (current_year current_month : Z) :
  NoDup (completion_order o (work_units config current_year current_month)).
Proof. rewrite completion_order_perm. apply work_units_NoDup. Qed.

Lemma after_units_app (units1 units2 : list (Z * Z)) (w : world) :
  after_units config o (units1 ++ units2) w
  = after_units config o units2 (after_units config o units1 w).
Proof.
  revert w. induction units1 as [|[y m] units1 IH]; intros w; [done|].
  simpl. apply IH.
Qed.

(** The pool runs every unit, each in the world its predecessors left, and
    keeps what it returned or raised: no unit is skipped, whatever the
    others did. *)
Lemma run_tasks_spec (units : list (Z * Z)) (w : world) :
  (run_tasks config o units w).2 = after_units config o units w
  /\ length (run_tasks config o units w).1 = length units
  /\ forall i year month,
       units !! i = Some (year, month) ->
       (run_tasks config o units w).1 !! i
       = Some (_get_data_for_month config o year month
                 (after_units config o (take i units) w)).1.
Proof.
  revert w. induction units as [|[y m] units IH]; intros w; [done|].
  simpl. destruct (_get_data_for_month config o y m w) as [r w1] eqn:Hrun.
  destruct (IH w1) as (Hw & Hlen & Hat).
  destruct (run_tasks config o units w1) as [futures w2]. simpl in *.
  split; [done|]. split; [by rewrite Hlen|].
  intros [|i] year month Hi; simpl in *.
  - injection Hi as -> ->. by rewrite Hrun.
  - rewrite Hrun. simpl. by apply Hat.
Qed.

Lemma after_units_raise (units : list (Z * Z)) (i : nat) (year month : Z)
    (w : world) (e : exn) :
  units !! i = Some (year, month) ->
  _get_data_for_month config o year month (after_units config o (take i units) w)
  = (Raise e, after_units config o (take i units) w) ->
  after_units config o (take (S i) units) w = after_units config o (take i units) w.
Proof.
  intros Hi Hrun. rewrite (take_S_r _ _ _ Hi), after_units_app. simpl.
  by rewrite Hrun.
Qed.

Lemma concat_yield_delete (futures : list future) (i : nat) (f : future) :
  futures !! i = Some f -> yield f = [] ->
  concat (yield <$> futures) = concat (yield <$> delete i futures).
Proof.
  revert i. induction futures as [|g futures IH]; intros [|i] Hi Hf; simpl in *;
    try done.
  - injection Hi as ->. by rewrite Hf.
  - f_equal. by apply IH.
Qed.

Lemma scrape_without_pool (current_year current_month : Z) (w : world) :
  max_workers config <= 0 ->
  scrape config o current_year current_month w
  = (Raise (ValueError "max_workers must be greater than 0"), started w).
Proof.
  intros Hw. unfold scrape, thread_pool, log, emit. unfold_M.
  fold (started w). apply Z.leb_le in Hw. by rewrite Hw.
Qed.

(** With a pool, [scrape] returns: the aggregate is what the futures yield,
    one after the other, and the trace holds the effects of every unit, the
    log lines of the futures that raised and the closing line. *)
Lemma scrape_spec (current_year current_month : Z) (w : world) :
  0 < max_workers config ->
  let order := completion_order o (work_units config current_year current_month) in
  let futures := (run_tasks config o order (started w)).1 in
  let w1 := after_units config o order (started w) in
  scrape config o current_year current_month w
  = (Ok (concat (yield <$> futures)),
     World (fs w1)
           (trace w1 ++ concat (failure_log <$> futures)
              ++ [EvLog INFO (Completed (length (concat (yield <$> futures))))])).
Proof.
  intros Hw order futures w1.
  unfold scrape, thread_pool, log, emit. unfold_M. fold (started w).
  apply Z.leb_gt in Hw. rewrite Hw. fold order.
  destruct (run_tasks_spec order (started w)) as (Hw1 & _).
  subst futures w1. rewrite <- Hw1.
  destruct (run_tasks config o order (started w)) as [futures w2]. cbn [fst snd].
  rewrite for_each_collect. cbn [fs trace app].
  by rewrite <- app_assoc.
Qed.

End PoolFacts.

(** C9. With a pool, every submitted unit completes once, and the future of
    each is what the unit returned or raised, in the world the units that
    completed before it left. The aggregate handed to the sink is the
    concatenation of what these futures yield, with no deduplication across
    units: a tuple occurs in it once for every unit whose set holds it,
    hence at least twice when two distinct units both yield it. *)
Theorem aggregate_keeps_cross_unit_duplicates
    (config : ScraperConfig) (o : oracle) (current_year current_month : Z)
    (w : world) :
  0 < max_workers config ->
  let order := completion_order o (work_units config current_year current_month) in
  order ≡ₚ work_units config current_year current_month
  /\ NoDup order
  /\ exists (futures : list future) (all_data : list tuple),
       length futures = length order
       /\ (forall i year month,
             order !! i = Some (year, month) ->
             futures !! i
             = Some (_get_data_for_month config o year month
                       (after_units config o (take i order) (started w))).1)
       /\ (scrape config o current_year current_month w).1 = Ok all_data
       /\ all_data = concat (yield <$> futures)
       /\ (forall t, occurrences t all_data = length (List.filter (holds t) futures))
       /\ (forall i j t,
             i <> j ->
             holds t <$> futures !! i = Some true ->
             holds t <$> futures !! j = Some true ->
             (2 <= occurrences t all_data)%nat).
Proof.
  intros Hw order.
  split; [apply completion_order_perm|].
  split; [apply completion_order_NoDup|].
  destruct (run_tasks_spec config o order (started w)) as (_ & Hlen & Hat).
  exists (run_tasks config o order (started w)).1.
  exists (concat (yield <$> (run_tasks config o order (started w)).1)).
  split; [exact Hlen|]. split; [exact Hat|].
  split; [by rewrite (scrape_spec config o _ _ w Hw)|]. split; [done|].
  split; [intros t; apply occurrences_concat_yield|].
  intros i j t Hne Hi Hj. rewrite occurrences_concat_yield.
  destruct (_ !! i) as [f1|] eqn:Ei; [|done].
  destruct (_ !! j) as [f2|] eqn:Ej; [|done].
  simpl in Hi, Hj. simplify_eq.
  by apply (filter_two (holds t) _ i j f1 f2).
Qed.

Lemma aggregate_keeps_cross_unit_duplicates_witness :
  0 < max_workers Sample.config
  /\ exists all_data,
       (scrape Sample.config Sample.repeating 2024 2 Sample.world0).1 = Ok all_data
       /\ (2 <= occurrences Sample.acme all_data)%nat.
Proof.
  assert (0 < max_workers Sample.config) as Hw by reflexivity.
  split; [exact Hw|].
  destruct (aggregate_keeps_cross_unit_duplicates
              Sample.config Sample.repeating 2024 2 Sample.world0 Hw)
    as (_ & _ & futures & all_data & _ & Hat & Hscrape & _ & _ & Htwice).
  exists all_data. split; [exact Hscrape|].
  apply (Htwice 0%nat 1%nat Sample.acme).
  - discriminate.
  - rewrite (Hat 0%nat 2024 1 eq_refl). vm_compute. reflexivity.
  - rewrite (Hat 1%nat 2024 2 eq_refl). vm_compute. reflexivity.
Defined.

(** C4. A unit that misses its cache never lets an exception of its
    fetch / parse / filter block reach the orchestrator: it returns a set,
    the empty one after logging an error when the block raised. When every
    attempt of the fetch fails, the unit makes its three requests, logs the
    error and returns the empty set. In a run of [scrape] in which such a
    unit returns the empty set, every submitted unit still completes, the
    future of each being what the unit returned or raised, and the
    aggregate is what the futures of the other units yield. *)
Theorem failed_unit_yields_empty_set
    (config : ScraperConfig) (o : oracle) (year month : Z) (w : world) :
  cache_hit config o year month w = false ->
  in_calendar year month = true ->
  let run := _get_data_for_month config o year month w in
  let p := _get_cache_path config year month in
  (exists s, run.1 = Ok s)
  /\ (forall e w1,
        fetch_parse_filter config o year month p w = (Raise e, w1) ->
        run = (Ok ∅, World (fs w1) (trace w1 ++ [EvLog ERROR (FailedToFetch month year e)])))
  /\ ((forall n, exists e, net o (timeout config) year month n = Raise e) ->
      exists e,
        run = (Ok ∅,
               World (fs w)
                     (trace w
                        ++ three_attempts year month (attempts year month (trace w))
                        ++ [EvLog ERROR (FailedToFetch month year e)])))
  /\ (forall pre post all_data w',
        for_each collect (pre ++ Ok ∅ :: post) all_data w'
        = for_each collect (pre ++ post) all_data w')
  /\ (forall current_year current_month w' i,
        0 < max_workers config ->
        let order :=
          completion_order o (work_units config current_year current_month) in
        order !! i = Some (year, month) ->
        after_units config o (take i order) (started w') = w ->
        run.1 = Ok ∅ ->
        order ≡ₚ work_units config current_year current_month
        /\ exists futures : list future,
             length futures = length order
             /\ (forall j y m,
                   order !! j = Some (y, m) ->
                   futures !! j
                   = Some (_get_data_for_month config o y m
                             (after_units config o (take j order) (started w'))).1)
             /\ futures !! i = Some (Ok ∅)
             /\ (scrape config o current_year current_month w').1
                = Ok (concat (yield <$> delete i futures))).
Proof.
  intros Hmiss Hcal run p.
  assert (run = (month_window year month;;
                 try_except (fetch_parse_filter config o year month p)
                   (fun e => log ERROR (FailedToFetch month year e);;
                             ret (∅ : gset tuple))) w) as Hrun
    by apply (get_data_miss config o year month w Hmiss).
  unfold mbind at 1, M_bind at 1, bind at 1 in Hrun.
  rewrite (month_window_ok year month w Hcal) in Hrun.
  unfold try_except in Hrun.
  split; [|split; [|split; [|split]]].
  - rewrite Hrun.
    destruct (fetch_parse_filter config o year month p w) as [[s|e] w1]; by eexists.
  - intros e w1 Hblock. rewrite Hrun, Hblock. reflexivity.
  - intros Hfail.
    destruct (fetch_data_all_fail config o year month w Hfail) as [e Hfetch].
    exists e. subst run.
    rewrite (get_data_after_fetch config o year month w _ _ Hmiss Hcal Hfetch).
    cbn [fs trace]. by rewrite <- app_assoc.
  - intros pre post all_data w'. rewrite !for_each_collect.
    rewrite !fmap_app, !fmap_cons, !concat_app. cbn [concat yield failure_log].
    by rewrite elements_empty.
  - intros current_year current_month w' i Hw order Hi Hbefore Hempty.
    split; [apply completion_order_perm|].
    destruct (run_tasks_spec config o order (started w')) as (_ & Hlen & Hat).
    exists (run_tasks config o order (started w')).1.
    assert ((run_tasks config o order (started w')).1 !! i = Some (Ok ∅)) as Hfi.
    { rewrite (Hat i year month Hi), Hbefore. fold run. by rewrite Hempty. }
    split; [exact Hlen|]. split; [exact Hat|]. split; [exact Hfi|].
    rewrite (scrape_spec config o _ _ w' Hw). cbn [fst]. f_equal.
    apply (concat_yield_delete _ i (Ok ∅) Hfi). cbn [yield]. apply elements_empty.
Qed.

Lemma failed_unit_yields_empty_set_witness :
  (exists e,
     _get_data_for_month Sample.config Sample.offline 2024 1 (started Sample.world0)
     = (Ok ∅,
        World ∅ (EvLog INFO Starting :: three_attempts 2024 1 0
                   ++ [EvLog ERROR (FailedToFetch 1 2024 e)])))
  /\ exists futures : list future,
       length futures = 2%nat
       /\ futures !! 0%nat = Some (Ok ∅)
       /\ (scrape Sample.config Sample.offline 2024 2 Sample.world0).1
          = Ok (concat (yield <$> delete 0%nat futures)).
Proof.
  destruct (failed_unit_yields_empty_set
              Sample.config Sample.offline 2024 1 (started Sample.world0))
    as (_ & _ & Hfail & _ & Hpool); [reflexivity | reflexivity |].
  destruct Hfail as [e Hrun]; [intros n; eexists; reflexivity|].
  split; [exists e; exact Hrun|].
  destruct (Hpool 2024 2 Sample.world0 0%nat)
    as (_ & futures & Hlen & _ & Hfi & Hscrape);
    [reflexivity | reflexivity | reflexivity | by rewrite Hrun |].
  exists futures. split; [exact Hlen|]. split; [exact Hfi | exact Hscrape].
Defined.

(** C10. With caching enabled, a fresh cache file that cannot be decoded
    makes [_get_data_for_month] raise: the read sits outside the [try], so
    there is no request, no log line and no fallback. In a run of [scrape]
    the exception stays in the unit's future: the units that complete after
    it run from the world it found, every submitted unit completes, and the
    aggregation loop logs the exception, adds nothing for the unit and goes
    on, so that the aggregate is what the futures of the other units
    yield. *)
Theorem corrupt_fresh_cache_raises
    (config : ScraperConfig) (o : oracle) (year month : Z) (w : world) (f : file) :
  let p := _get_cache_path config year month in
  let run := _get_data_for_month config o year month w in
  cache_enabled config = true ->
  fs w !! p = Some f ->
  PyFloat.lt_int (PyFloat.sub (now o p) (mtime f)) (cache_max_age config * 3600) = true ->
  content f = None ->
  run = (Raise (JSONDecodeError "Expecting value"), w)
  /\ (forall pre post all_data w',
        for_each collect (pre ++ run.1 :: post) all_data w'
        = (Ok (all_data ++ concat (yield <$> pre) ++ concat (yield <$> post)),
           World (fs w')
                 (trace w' ++ concat (failure_log <$> pre)
                    ++ EvLog ERROR (ErrorInFuture (JSONDecodeError "Expecting value"))
                    :: concat (failure_log <$> post))))
  /\ (forall current_year current_month w' i,
        0 < max_workers config ->
        let order :=
          completion_order o (work_units config current_year current_month) in
        order !! i = Some (year, month) ->
        after_units config o (take i order) (started w') = w ->
        order ≡ₚ work_units config current_year current_month
        /\ after_units config o (take (S i) order) (started w') = w
        /\ exists futures : list future,
             length futures = length order
             /\ (forall j y m,
                   order !! j = Some (y, m) ->
                   futures !! j
                   = Some (_get_data_for_month config o y m
                             (after_units config o (take j order) (started w'))).1)
             /\ futures !! i = Some (Raise (JSONDecodeError "Expecting value"))
             /\ scrape config o current_year current_month w'
                = (Ok (concat (yield <$> delete i futures)),
                   World (fs (after_units config o order (started w')))
                         (trace (after_units config o order (started w'))
                            ++ concat (failure_log <$> take i futures)
                            ++ EvLog ERROR
                                 (ErrorInFuture (JSONDecodeError "Expecting value"))
                               :: concat (failure_log <$> drop (S i) futures)
                            ++ [EvLog INFO
                                  (Completed
                                     (length (concat (yield <$> delete i futures))))]))).
Proof.
  intros p run Hen Hf Hage Hcorrupt.
  assert (run = (Raise (JSONDecodeError "Expecting value"), w)) as Hrun.
  { subst run. rewrite (get_data_hit config o year month w f Hen Hf Hage).
    by rewrite Hcorrupt. }
  split; [exact Hrun|]. split.
  { intros pre post all_data w'. rewrite Hrun. cbn [fst].
    rewrite for_each_collect, !fmap_app, !fmap_cons, !concat_app.
    reflexivity. }
  intros current_year current_month w' i Hw order Hi Hbefore.
  split; [apply completion_order_perm|].
  split.
  { rewrite (after_units_raise config o order i year month (started w')
               (JSONDecodeError "Expecting value") Hi); [exact Hbefore|].
    rewrite Hbefore. exact Hrun. }
  destruct (run_tasks_spec config o order (started w')) as (_ & Hlen & Hat).
  set (futures := (run_tasks config o order (started w')).1) in *.
  assert (futures !! i = Some (Raise (JSONDecodeError "Expecting value"))) as Hfi.
  { rewrite (Hat i year month Hi), Hbefore. fold run. by rewrite Hrun. }
  exists futures.
  split; [exact Hlen|]. split; [exact Hat|]. split; [exact Hfi|].
  rewrite (scrape_spec config o _ _ w' Hw). cbv zeta. fold order. fold futures.
  rewrite <- (concat_yield_delete futures i _ Hfi eq_refl).
  assert (concat (failure_log <$> futures)
          = concat (failure_log <$> take i futures)
            ++ EvLog ERROR (ErrorInFuture (JSONDecodeError "Expecting value"))
               :: concat (failure_log <$> drop (S i) futures)) as ->.
  { rewrite <- (take_drop_middle futures i _ Hfi) at 1.
    by rewrite fmap_app, fmap_cons, concat_app. }
  by rewrite <- app_assoc.
Qed.

Lemma corrupt_fresh_cache_raises_witness :
  _get_data_for_month Sample.config Sample.oracle0 2024 1 (started Sample.corrupt)
  = (Raise (JSONDecodeError "Expecting value"), started Sample.corrupt)
  /\ exists futures : list future,
       length futures = 2%nat
       /\ futures !! 0%nat = Some (Raise (JSONDecodeError "Expecting value"))
       /\ futures !! 1%nat
          = Some (_get_data_for_month Sample.config Sample.oracle0 2024 2
                    (started Sample.corrupt)).1
       /\ (scrape Sample.config Sample.oracle0 2024 2 Sample.corrupt).1
          = Ok (concat (yield <$> delete 0%nat futures)).
Proof.
  destruct (corrupt_fresh_cache_raises
              Sample.config Sample.oracle0 2024 1 (started Sample.corrupt)
              (File (PyFloat.of_Z 1699999000) None))
    as (Hrun & _ & Hpool); [vm_compute; reflexivity..|].
  split; [exact Hrun|].
  destruct (Hpool 2024 2 Sample.corrupt 0%nat)
    as (_ & Hnext & futures & Hlen & Hat & Hfi & Hscrape);
    [reflexivity | reflexivity | reflexivity |].
  exists futures. split; [exact Hlen|]. split; [exact Hfi|].
  split.
  - rewrite (Hat 1%nat 2024 2 eq_refl). by rewrite Hnext.
  - by rewrite Hscrape.
Defined.

(** * The month window *)

Section WindowFacts.

Lemma in_calendar_bounds (year month : Z) :
  in_calendar year month = true <->
    1 <= year <= 9999 /\ 1 <= month <= 12 /\ ~ (year = 9999 /\ month = 12).
Proof.
  unfold in_calendar.
  rewrite !andb_true_iff, negb_true_iff, andb_false_iff.
  rewrite !Z.leb_le, !Z.eqb_neq. lia.
Qed.

Lemma month_cases (month : Z) :
  1 <= month <= 12 ->
  month = 1 \/ month = 2 \/ month = 3 \/ month = 4 \/ month = 5 \/ month = 6
  \/ month = 7 \/ month = 8 \/ month = 9 \/ month = 10 \/ month = 11 \/ month = 12.
Proof. lia. Qed.

Lemma days_in_month_range (year month : Z) : 28 <= days_in_month year month <= 31.
Proof.
  unfold days_in_month.
  destruct (month =? 2); [destruct (is_leap year); lia|].
  destruct (_ || _); lia.
Qed.

Lemma tomorrow_within (year month day : Z) :
  day < days_in_month year month ->
  tomorrow (Date year month day) = Some (Date year month (day + 1)).
Proof.
  intros Hlt. unfold tomorrow. cbn [d_year d_month d_day].
  by replace (day <? days_in_month year month) with true
    by (symmetry; apply Z.ltb_lt; lia).
Qed.

Lemma add_days_within (n : nat) (year month day : Z) :
  day + Z.of_nat n <= days_in_month year month ->
  add_days n (Date year month day) = Some (Date year month (day + Z.of_nat n)).
Proof.
  revert day. induction n as [|n IH]; intros day Hle.
  - simpl. do 2 f_equal. lia.
  - cbn [add_days]. rewrite tomorrow_within by lia. cbn [mbind option_bind].
    rewrite IH by lia. do 2 f_equal. lia.
Qed.

Lemma add_days_plus (a b : nat) (d : date) :
  add_days (a + b) d = add_days a d ≫= add_days b.
Proof.
  revert d. induction a as [|a IH]; intros d; [done|].
  cbn [add_days Nat.add]. destruct (tomorrow d) as [d'|]; [|done].
  cbn [mbind option_bind]. apply IH.
Qed.

Lemma tomorrow_last_day (year month : Z) :
  in_calendar year month = true ->
  tomorrow (Date year month (days_in_month year month))
  = Some (Date (next_month (year, month)).1 (next_month (year, month)).2 1).
Proof.
  intros Hcal. apply in_calendar_bounds in Hcal as (Hy & Hm & Hlast).
  unfold tomorrow, next_month. cbn [d_year d_month d_day fst snd].
  rewrite Z.ltb_irrefl.
  destruct (month =? 12) eqn:Hdec.
  - apply Z.eqb_eq in Hdec. subst month.
    replace (year <? 9999) with true by (symmetry; apply Z.ltb_lt; lia).
    reflexivity.
  - apply Z.eqb_neq in Hdec.
    replace (month <? 12) with true by (symmetry; apply Z.ltb_lt; lia).
    reflexivity.
Qed.

Lemma yesterday_first_day (year month : Z) :
  1 <= year -> 1 <= month <= 12 ->
  yesterday (Date (next_month (year, month)).1 (next_month (year, month)).2 1)
  = Some (Date year month (days_in_month year month)).
Proof.
  intros Hy Hm. unfold yesterday, next_month. cbn [fst snd].
  destruct (month =? 12) eqn:Hdec; cbn [d_year d_month d_day fst snd].
  - apply Z.eqb_eq in Hdec. subst month. cbn.
    replace (1 <? year + 1) with true by (symmetry; apply Z.ltb_lt; lia).
    do 2 f_equal. lia.
  - apply Z.eqb_neq in Hdec. rewrite Z.ltb_irrefl.
    replace (1 <? month + 1) with true by (symmetry; apply Z.ltb_lt; lia).
    replace (month + 1 - 1) with month by lia. reflexivity.
Qed.

(** The window computed for a month of the calendar is that month. *)
Lemma month_bounds_in_calendar (year month : Z) (w : world) :
  in_calendar year month = true ->
  month_bounds year month w
  = (Ok (Date year month 1, Date year month (days_in_month year month)), w).
Proof.
  intros Hcal. pose proof Hcal as Hcal'.
  apply in_calendar_bounds in Hcal' as (Hy & Hm & Hlast).
  pose proof (days_in_month_range year month) as Hdim.
  pose proof (days_in_month_range (next_month (year, month)).1
                                  (next_month (year, month)).2) as Hdim'.
  unfold month_bounds.
  replace ((1 <=? year) && (year <=? 9999)) with true
    by (symmetry; apply andb_true_iff; lia).
  replace ((1 <=? month) && (month <=? 12)) with true
    by (symmetry; apply andb_true_iff; lia).
  cbn [negb].
  set (dim := days_in_month year month) in *.
  replace 32%nat
    with (Z.to_nat (dim - 1) + (1 + Z.to_nat (32 - dim)))%nat by lia.
  rewrite add_days_plus, add_days_within by (fold dim; lia).
  cbn [mbind option_bind].
  replace (1 + Z.of_nat (Z.to_nat (dim - 1))) with dim by lia.
  rewrite add_days_plus. cbn [add_days mbind option_bind].
  subst dim. rewrite (tomorrow_last_day year month Hcal).
  cbn [mbind option_bind].
  rewrite add_days_within by lia. cbn [d_year d_month].
  rewrite yesterday_first_day by lia. reflexivity.
Qed.

End WindowFacts.

(** X3. For a month of the calendar the two dates that enter the unit's URL
    are the first and the last day of that very month, leap years included:
    the window has 28 to 31 days and ends the day before the window of the
    next month starts, so that windows neither overlap nor leave a gap. *)
Theorem month_bounds_cover_the_month (year month : Z) (w : world) :
  in_calendar year month = true ->
  month_bounds year month w
  = (Ok (Date year month 1, Date year month (days_in_month year month)), w)
  /\ 28 <= days_in_month year month <= 31
  /\ tomorrow (Date year month (days_in_month year month))
     = Some (Date (next_month (year, month)).1 (next_month (year, month)).2 1).
Proof.
  intros Hcal. split; [by apply month_bounds_in_calendar|].
  split; [apply days_in_month_range|]. by apply tomorrow_last_day.
Qed.

Lemma month_bounds_cover_the_month_witness :
  in_calendar 2024 2 = true
  /\ month_bounds 2024 2 Sample.world0
     = (Ok (Date 2024 2 1, Date 2024 2 29), Sample.world0).
Proof.
  split; [reflexivity|].
  apply (month_bounds_cover_the_month 2024 2 Sample.world0). reflexivity.
Defined.


(** X5. With a start year from 1 on, a start month from 1 on, and a current
    date before December 9999, every unit [scrape] submits is a month of the
    calendar: the date arithmetic before the [try] of
    [_get_data_for_month] does not raise for it. *)
Theorem submitted_units_are_months
    (config : ScraperConfig) (current_year current_month : Z) (u : Z * Z)
    (w : world) :
  1 <= start_year config ->
  1 <= start_month config ->
  current_year < 9999 ->
  current_month <= 12 ->
  u ∈ work_units config current_year current_month ->
  in_calendar u.1 u.2 = true /\ month_window u.1 u.2 w = (Ok tt, w).
Proof.
  intros Hsy Hsm Hcy Hcm Hu. destruct u as [year month].
  apply elem_of_work_units in Hu as (Hy & Hlo & Hhi).
  assert (in_calendar year month = true) as Hcal.
  { apply in_calendar_bounds. cbn [fst snd].
    destruct (year =? start_year config), (year =? current_year); lia. }
  split; [exact Hcal | by apply month_window_ok].
Qed.

Lemma submitted_units_are_months_witness :
  (2024, 2) ∈ work_units Sample.config 2024 2
  /\ month_window 2024 2 Sample.world0 = (Ok tt, Sample.world0).
Proof.
  assert ((2024, 2) ∈ work_units Sample.config 2024 2) as Hin
    by (apply elem_of_work_units; vm_compute; intuition discriminate).
  split; [exact Hin|].
  apply (submitted_units_are_months Sample.config 2024 2 (2024, 2) Sample.world0);
    [cbn; lia.. | exact Hin].
Defined.

(** * The fetch client and the cache *)

Section FetchFacts.

Variable config : ScraperConfig.
Variable o : oracle.

Lemma attempts_snoc_request (year month : Z) (tr : list event) (n : nat) :
  attempts year month (tr ++ [EvRequest year month n]) = S (attempts year month tr).
Proof.
  unfold attempts. rewrite List.filter_app, length_app. simpl.
  rewrite !Z.eqb_refl. simpl. lia.
Qed.

Lemma attempts_snoc_sleep (year month : Z) (tr : list event) (d : Z) :
  attempts year month (tr ++ [EvSleep d]) = attempts year month tr.
Proof. unfold attempts. rewrite List.filter_app, length_app. simpl. lia. Qed.

Lemma cache_hit_inv (year month : Z) (w : world) :
  cache_hit config o year month w = true ->
  exists f,
    cache_enabled config = true
    /\ fs w !! _get_cache_path config year month = Some f
    /\ PyFloat.lt_int
         (PyFloat.sub (now o (_get_cache_path config year month)) (mtime f))
         (cache_max_age config * 3600) = true.
Proof.
  unfold cache_hit, _is_cache_valid. intros H.
  apply andb_true_iff in H as [Hen H].
  destruct (fs w !! _get_cache_path config year month) as [f|]; [|done].
  exists f. simpl in H. done.
Qed.

End FetchFacts.

(** X6. [_fetch_data] stops at the first attempt that succeeds: when the
    attempts before the j-th fail and the j-th (j < 3) returns a page, that
    page is the result, after j + 1 requests and the j sleeps between them,
    and no file is touched. *)
Theorem fetch_data_stops_at_first_success
    (config : ScraperConfig) (o : oracle) (year month : Z) (w : world)
    (j : nat) (pg : page) :
  let k := attempts year month (trace w) in
  (j < 3)%nat ->
  (forall i, (i < j)%nat ->
             exists e, net o (timeout config) year month (k + i) = Raise e) ->
  net o (timeout config) year month (k + j) = Ok pg ->
  _fetch_data config o year month w
  = (Ok (Some pg),
     World (fs w) (trace w ++ take (2 * j + 1) (three_attempts year month k))).
Proof.
  intros k Hj Hfail Hok.
  unfold _fetch_data, retry, requests_get. unfold_M. fold k.
  destruct j as [|[|[|j]]]; [| | |lia].
  - rewrite Nat.add_0_r in Hok. rewrite Hok. reflexivity.
  - destruct (Hfail 0%nat) as [e0 He0]; [lia|]. rewrite Nat.add_0_r in He0.
    rewrite He0. cbn [fs trace].
    rewrite attempts_snoc_sleep, attempts_snoc_request. fold k.
    rewrite Nat.add_1_r in Hok. rewrite Hok.
    cbn [fs trace]. rewrite <- !app_assoc. reflexivity.
  - destruct (Hfail 0%nat) as [e0 He0]; [lia|]. rewrite Nat.add_0_r in He0.
    destruct (Hfail 1%nat) as [e1 He1]; [lia|]. rewrite Nat.add_1_r in He1.
    rewrite He0. cbn [fs trace].
    rewrite attempts_snoc_sleep, attempts_snoc_request. fold k.
    rewrite He1. cbn [fs trace].
    rewrite attempts_snoc_sleep, attempts_snoc_request.
    rewrite attempts_snoc_sleep, attempts_snoc_request. fold k.
    replace (k + 2)%nat with (S (S k)) in Hok by lia. rewrite Hok.
    cbn [fs trace]. rewrite <- !app_assoc. reflexivity.
Qed.

Lemma fetch_data_stops_at_first_success_witness :
  _fetch_data Sample.config Sample.oracle0 2024 1 Sample.world0
  = (Ok (Some (Table Sample.rows)), World ∅ [EvRequest 2024 1 0]).
Proof.
  apply (fetch_data_stops_at_first_success
           Sample.config Sample.oracle0 2024 1 Sample.world0 0 (Table Sample.rows)).
  - lia.
  - intros i Hi. lia.
  - reflexivity.
Defined.

(** X7. What a unit stores, a later run reads back: after a miss that ends
    with the cache write, a run whose clock still finds the file fresh
    returns the very set the first run returned, with no request and no
    other effect. *)
Theorem cache_round_trip
    (config : ScraperConfig) (o later : oracle) (year month : Z) (w w1 : world)
    (rows : list (list string)) :
  let p := _get_cache_path config year month in
  let run := _get_data_for_month config o year month w in
  cache_enabled config = true ->
  cache_hit config o year month w = false ->
  in_calendar year month = true ->
  _fetch_data config o year month w = (Ok (Some (Table rows)), w1) ->
  disk_ok o p = true ->
  PyFloat.lt_int (PyFloat.sub (now later p) (write_time o p))
                 (cache_max_age config * 3600) = true ->
  _get_data_for_month config later year month run.2 = run.
Proof.
  intros p run Hen Hmiss Hcal Hfetch Hdisk Hfresh. subst run.
  rewrite (get_data_after_fetch config o year month w _ _ Hmiss Hcal Hfetch).
  cbv zeta. fold p. rewrite Hen, Hdisk. cbn [fst snd].
  set (data := ⋃ (contribution config <$> rows)).
  rewrite (get_data_hit config later year month _
             (File (write_time o p) (Some (elements data))) Hen).
  - cbn [content]. by rewrite list_to_set_elements_L.
  - cbn [fs]. apply lookup_insert_eq.
  - exact Hfresh.
Qed.

Lemma cache_round_trip_witness :
  cache_hit Sample.config Sample.oracle0 2024 1 Sample.world0 = false
  /\ _get_data_for_month Sample.config Sample.oracle0 2024 1
       (_get_data_for_month Sample.config Sample.oracle0 2024 1 Sample.world0).2
     = _get_data_for_month Sample.config Sample.oracle0 2024 1 Sample.world0.
Proof.
  split; [reflexivity|].
  apply (cache_round_trip Sample.config Sample.oracle0 Sample.oracle0 2024 1
           Sample.world0 (World ∅ [EvRequest 2024 1 0]) Sample.rows);
    vm_compute; reflexivity.
Defined.

(** X8. A unit leaves every cache file but its own as it found it, deletes
    no file, and only adds to the trace of effects, whether it hits its
    cache, fetches, fails or raises. *)
Theorem unit_touches_only_its_cache_file
    (config : ScraperConfig) (o : oracle) (year month : Z) (w : world) :
  let run := _get_data_for_month config o year month w in
  (forall p, p <> _get_cache_path config year month -> fs run.2 !! p = fs w !! p)
  /\ (forall p, is_Some (fs w !! p) -> is_Some (fs run.2 !! p))
  /\ exists evs, trace run.2 = trace w ++ evs.
Proof.
  intros run.
  assert (fs run.2 = fs w /\ (exists evs, trace run.2 = trace w ++ evs)
          \/ (exists f, fs run.2 = <[_get_cache_path config year month := f]> (fs w))
             /\ (exists evs, trace run.2 = trace w ++ evs)) as Hcases.
  { subst run. destruct (cache_hit config o year month w) eqn:Hhit.
    - destruct (cache_hit_inv config o year month w Hhit) as (f & Hen & Hf & Hage).
      rewrite (get_data_hit config o year month w f Hen Hf Hage). cbn [snd].
      left. split; [done|]. exists []. by rewrite app_nil_r.
    - destruct (miss_summary config o year month w Hhit)
        as (evs & Htrace & _ & _ & Hfs).
      destruct Hfs as [Hfs | (s & _ & Hfs)]; [left | right]; eauto. }
  destruct Hcases as [[Hfs Htr] | [[f Hfs] Htr]]; rewrite Hfs.
  - done.
  - split; [intros p Hp; by rewrite lookup_insert_ne|].
    split; [|done]. intros p Hp.
    destruct (decide (p = _get_cache_path config year month)) as [->|Hne].
    + rewrite lookup_insert_eq. by eexists.
    + by rewrite lookup_insert_ne.
Qed.

(** X9. Rows that do not have the 17 expected cells are skipped: the loop
    over the table gives the result it gives on the table without them, it
    never raises, and it leaves files and log alone. *)
Theorem malformed_rows_are_skipped
    (config : ScraperConfig) (rows : list (list string)) (data : gset tuple)
    (w : world) :
  for_each (process_row config) rows data w
  = for_each (process_row config) (List.filter well_formed rows) data w
  /\ exists s, for_each (process_row config) rows data w = (Ok s, w).
Proof.
  rewrite !for_each_process_row. split; [|by eexists].
  do 2 f_equal. f_equal.
  induction rows as [|row rows IH]; [done|].
  rewrite fmap_cons, union_list_cons. cbn [List.filter].
  unfold well_formed at 1.
  destruct (length row =? length column_keys)%nat eqn:Hlen.
  - rewrite fmap_cons, union_list_cons. by rewrite IH.
  - rewrite IH. unfold contribution. rewrite Hlen. simpl.
    by rewrite (left_id_L ∅ (∪)).
Qed.

(** X10. [_apply_filters] fails closed and never raises: on any dictionary
    it returns a verdict, touches no file and logs at most one warning, which
    names a missing key and comes with the verdict false. A dictionary is
    accepted only if it holds the ticker, the value and the quantity, and
    the trade type whenever a list of types is configured. *)
Theorem apply_filters_fails_closed
    (config : ScraperConfig) (data : dict) (w : world) :
  exists (b : bool) (evs : list event),
    _apply_filters config data w = (Ok b, World (fs w) (trace w ++ evs))
    /\ (evs = []
        \/ exists k, evs = [EvLog WARNING (FilterError (KeyError k))]
                     /\ b = false /\ dict_get k data = None)
    /\ (b = true ->
        is_Some (dict_get "ticker" data)
        /\ is_Some (dict_get "value" data)
        /\ is_Some (dict_get "qty" data)
        /\ (transaction_types config <> [] -> is_Some (dict_get "trade_type" data))).
Proof.
  assert (forall b : bool, (Ok b, w) = (Ok b, World (fs w) (trace w ++ []))) as Hquiet
    by (intros b; destruct w; simpl; by rewrite app_nil_r).
  unfold _apply_filters, try_except, _apply_filters_body, subscript.
  unfold mbind, M_bind, bind, ret, raise, log, emit.
  destruct (bool_decide (transaction_types config = [])) eqn:Htypes; cbn [negb];
    [apply bool_decide_eq_true in Htypes|];
    repeat match goal with
           | |- context [match dict_get ?k data with Some _ => _ | None => _ end] =>
               destruct (dict_get k data) eqn:?
           | |- context [if ?c then _ else _] => destruct c eqn:?
           end;
    first
      [ (exists true, []; split; [apply Hquiet|]; split; [by left|];
         intros _; split; [by eexists|]; split; [by eexists|]; split; [by eexists|];
         intros Hne; first [by destruct Hne | by eexists])
      | (exists false, []; split; [apply Hquiet|]; split; [by left|]; discriminate)
      | (exists false, [EvLog WARNING (FilterError (KeyError "trade_type"))];
         split; [reflexivity|]; split; [|discriminate];
         right; exists "trade_type"; by repeat split)
      | (exists false, [EvLog WARNING (FilterError (KeyError "ticker"))];
         split; [reflexivity|]; split; [|discriminate];
         right; exists "ticker"; by repeat split)
      | (exists false, [EvLog WARNING (FilterError (KeyError "value"))];
         split; [reflexivity|]; split; [|discriminate];
         right; exists "value"; by repeat split)
      | (exists false, [EvLog WARNING (FilterError (KeyError "qty"))];
         split; [reflexivity|]; split; [|discriminate];
         right; exists "qty"; by repeat split) ].
Qed.

(** * The filter engine: numbers *)

Section NumberFacts.

Lemma lt_number_negative (x : PyFloat.float) (y : PyFloat.number) :
  is_negative x = true -> is_nonnegative y = true -> PyFloat.lt_number x y = true.
Proof.
  intros Hx Hy. destruct y as [z|y]; simpl in *.
  - apply Z.leb_le in Hy.
    destruct x as [| [] | | [] m e]; try discriminate; simpl; [done|].
    destruct (0 <=? e) eqn:He; apply Z.ltb_lt.
    + apply Z.leb_le in He.
      pose proof (Z.pow_pos_nonneg 2 e ltac:(lia) He). nia.
    + apply Z.leb_gt in He.
      pose proof (Z.pow_pos_nonneg 2 (- e) ltac:(lia) ltac:(lia)). nia.
  - destruct x as [| [] | | [] m e]; try discriminate;
      destruct y as [| [] | | [] m' e']; try discriminate; reflexivity.
Qed.

Lemma strip_symbols_cons (c : ascii) (s : string) :
  strip_symbols (String c s)
  = if Ascii.eqb c "$" || Ascii.eqb c "," || Ascii.eqb c "+" || Ascii.eqb c "%"
    then strip_symbols s
    else String c (strip_symbols s).
Proof.
  unfold strip_symbols. cbn [PyStr.remove].
  rewrite (Ascii.eqb_sym "$" c).
  destruct (Ascii.eqb c "$") eqn:E1; [done|]. cbn [PyStr.remove orb].
  rewrite (Ascii.eqb_sym "," c).
  destruct (Ascii.eqb c ",") eqn:E2; [done|]. cbn [PyStr.remove orb].
  rewrite (Ascii.eqb_sym "+" c).
  destruct (Ascii.eqb c "+") eqn:E3; [done|]. cbn [PyStr.remove orb].
  rewrite (Ascii.eqb_sym "%" c).
  by destruct (Ascii.eqb c "%") eqn:E4.
Qed.

Lemma strip_symbols_idemp (s : string) :
  strip_symbols (strip_symbols s) = strip_symbols s.
Proof.
  induction s as [|c s IH]; [done|].
  rewrite strip_symbols_cons.
  destruct (_ || _) eqn:Hc; [done|].
  by rewrite strip_symbols_cons, Hc, IH.
Qed.

Lemma lower_char_n (c : ascii) :
  PyStr.lower_char c = "n"%char -> c = "n"%char \/ c = "N"%char.
Proof.
  destruct c as [[] [] [] [] [] [] [] []]; vm_compute; intros [=]; auto.
Qed.

Lemma lower_char_slash (c : ascii) :
  PyStr.lower_char c = "/"%char -> c = "/"%char.
Proof.
  destruct c as [[] [] [] [] [] [] [] []]; vm_compute; intros [=]; auto.
Qed.

Lemma lower_char_a (c : ascii) :
  PyStr.lower_char c = "a"%char -> c = "a"%char \/ c = "A"%char.
Proof.
  destruct c as [[] [] [] [] [] [] [] []]; vm_compute; intros [=]; auto.
Qed.

Lemma lower_char_e (c : ascii) :
  PyStr.lower_char c = "e"%char -> c = "e"%char \/ c = "E"%char.
Proof.
  destruct c as [[] [] [] [] [] [] [] []]; vm_compute; intros [=]; auto.
Qed.

Lemma lower_char_w (c : ascii) :
  PyStr.lower_char c = "w"%char -> c = "w"%char \/ c = "W"%char.
Proof.
  destruct c as [[] [] [] [] [] [] [] []]; vm_compute; intros [=]; auto.
Qed.

(** A string that reads "n/a" or "new" when lowered holds none of the four
    symbols and is no number. *)
Lemma token_is_no_number (s : string) :
  PyStr.mem (PyStr.lower s) ["n/a"; "new"] = true ->
  strip_symbols s = s /\ PyFloat.from_string s = None.
Proof.
  intros Hmem. simpl in Hmem. rewrite orb_false_r in Hmem.
  destruct s as [|c s]; [done|].
  cbn [PyStr.lower] in Hmem.
  assert (PyStr.lower_char c = "n"%char) as Hc.
  { apply orb_true_iff in Hmem as [H|H]; apply String.eqb_eq in H; by simplify_eq. }
  assert (s = "/a" \/ s = "/A" \/ s = "ew" \/ s = "eW" \/ s = "Ew" \/ s = "EW")
    as Hrest.
  { rewrite Hc in Hmem.
    destruct s as [|c1 [|c2 [|c3 s]]]; try (by vm_compute in Hmem);
      cbn [PyStr.lower] in Hmem.
    - exfalso. apply orb_true_iff in Hmem as [H|H];
        apply String.eqb_eq in H; simplify_eq.
    - apply orb_true_iff in Hmem as [H|H]; apply String.eqb_eq in H;
        injection H as H1 H2.
      + apply lower_char_slash in H1 as ->.
        apply lower_char_a in H2 as [-> | ->]; auto.
      + apply lower_char_e in H1 as [-> | ->];
          apply lower_char_w in H2 as [-> | ->]; auto 10.
    - exfalso. apply orb_true_iff in Hmem as [H|H];
        apply String.eqb_eq in H; simplify_eq. }
  destruct (lower_char_n c Hc) as [-> | ->];
    destruct Hrest as [->|[->|[->|[->|[->| ->]]]]]; split; reflexivity.
Qed.

(** The four symbols never influence the number read. *)
Lemma clean_numeric_strip_symbols (s : string) :
  _clean_numeric s = _clean_numeric (strip_symbols s).
Proof.
  unfold _clean_numeric at 1. fold (strip_symbols s).
  destruct (String.eqb s "") eqn:Hempty.
  { apply String.eqb_eq in Hempty. by subst s. }
  cbn [orb].
  destruct (PyStr.mem (PyStr.lower s) ["n/a"; "new"]) eqn:Htoken.
  { destruct (token_is_no_number s Htoken) as [-> _].
    unfold _clean_numeric. by rewrite Hempty, Htoken. }
  unfold _clean_numeric. fold (strip_symbols (strip_symbols s)).
  rewrite strip_symbols_idemp.
  destruct (String.eqb (strip_symbols s) "") eqn:Hempty'.
  { apply String.eqb_eq in Hempty'. by rewrite Hempty'. }
  cbn [orb].
  destruct (PyStr.mem (PyStr.lower (strip_symbols s)) ["n/a"; "new"]) eqn:Htoken';
    [|done].
  destruct (token_is_no_number _ Htoken') as [_ ->]. done.
Qed.

End NumberFacts.

(** X11. A cell whose number is below zero, a sale written "-$50,000" say,
    never passes a minimum value that is zero or above, whatever the other
    fields hold: the value is compared as it is, only the share count is
    compared in absolute value. *)
Theorem negative_values_are_rejected
    (config : ScraperConfig) (data : dict) (w : world) (value : string) :
  dict_get "value" data = Some value ->
  is_negative (_clean_numeric value) = true ->
  is_nonnegative (min_transaction_value config) = true ->
  (_apply_filters config data w).1 = Ok false.
Proof.
  intros Hv Hneg Hmin.
  pose proof (lt_number_negative _ _ Hneg Hmin) as Hlt.
  unfold _apply_filters, try_except, _apply_filters_body, subscript.
  unfold mbind, M_bind, bind, ret, raise, log, emit.
  rewrite Hv, Hlt.
  repeat match goal with
         | |- context [match dict_get ?k data with Some _ => _ | None => _ end] =>
             destruct (dict_get k data) eqn:?
         | |- context [if ?c then _ else _] => destruct c eqn:?
         end; reflexivity.
Qed.

Lemma negative_values_are_rejected_witness :
  is_negative (_clean_numeric "-$50,000") = true
  /\ (_apply_filters Sample.config
        (insider_data (retained (Sample.row "ACME" "-$50,000" "-2,000")))
        Sample.world0).1 = Ok false.
Proof.
  split; [reflexivity|].
  apply (negative_values_are_rejected Sample.config _ Sample.world0 "-$50,000");
    reflexivity.
Defined.

(** X12. The characters '$', ',', '+' and '%' never influence the number
    [_clean_numeric] reads: a cell and the same cell without them give the
    same float, wherever the symbols stand. *)
Theorem clean_numeric_ignores_symbols (s : string) :
  _clean_numeric s
  = _clean_numeric
      (PyStr.remove "%" (PyStr.remove "+" (PyStr.remove "," (PyStr.remove "$" s)))).
Proof. apply clean_numeric_strip_symbols. Qed.

(** * The shape of the Records a unit fetches *)

Section StripFacts.

Variable p : ascii -> bool.

Local Abbreviation starts_clean := (starts_clean p).
Local Abbreviation ends_clean := (ends_clean p).

Lemma append_cons (c : ascii) (r t : string) :
  (String c r ++ t = String c (r ++ t))%string.
Proof. reflexivity. Qed.

Lemma append_nil_l (t : string) : (EmptyString ++ t = t)%string.
Proof. reflexivity. Qed.

Lemma rev_onto_rev_onto (s a b : string) :
  PyStr.rev_onto (PyStr.rev_onto s a) b = PyStr.rev_onto a (s ++ b)%string.
Proof.
  revert a b. induction s as [|c r IH]; intros a b; [done|].
  cbn [PyStr.rev_onto]. by rewrite IH, append_cons.
Qed.

Lemma rev_involutive (s : string) : PyStr.rev (PyStr.rev s) = s.
Proof.
  unfold PyStr.rev. rewrite rev_onto_rev_onto. cbn [PyStr.rev_onto].
  induction s as [|c r IH]; [done|]. by rewrite append_cons, IH.
Qed.

Lemma drop_while_starts_clean (s : string) : starts_clean (PyStr.drop_while p s).
Proof.
  induction s as [|c r IH]; simpl; [done|].
  destruct (p c) eqn:Hc; [done|]. simpl. done.
Qed.

Lemma drop_while_clean (s : string) : starts_clean s -> PyStr.drop_while p s = s.
Proof. destruct s as [|c r]; simpl; [done|]. by intros ->. Qed.

Lemma ends_clean_cons (c : ascii) (r : string) :
  ends_clean (String c r) -> ends_clean r.
Proof. destruct r; simpl; done. Qed.

Lemma drop_while_ends_clean (s : string) :
  ends_clean s -> ends_clean (PyStr.drop_while p s).
Proof.
  induction s as [|c r IH]; [done|].
  intros H. cbn [PyStr.drop_while]. destruct (p c); [|done].
  apply IH. by eapply ends_clean_cons.
Qed.

Lemma starts_clean_rev_onto (s acc : string) :
  starts_clean (PyStr.rev_onto s acc)
  <-> match s with EmptyString => starts_clean acc | _ => ends_clean s end.
Proof.
  revert acc. induction s as [|c r IH]; intros acc; [done|].
  cbn [PyStr.rev_onto]. rewrite IH. destruct r; simpl; done.
Qed.

Lemma starts_clean_rev (s : string) : starts_clean (PyStr.rev s) <-> ends_clean s.
Proof. unfold PyStr.rev. rewrite starts_clean_rev_onto. by destruct s. Qed.

Lemma strip_with_idemp (s : string) :
  PyStr.strip_with p (PyStr.strip_with p s) = PyStr.strip_with p s.
Proof.
  unfold PyStr.strip_with.
  set (A := PyStr.drop_while p s).
  set (B := PyStr.drop_while p (PyStr.rev A)).
  assert (ends_clean B) as HB.
  { apply drop_while_ends_clean, starts_clean_rev.
    rewrite rev_involutive. apply drop_while_starts_clean. }
  rewrite (drop_while_clean (PyStr.rev B)) by by apply starts_clean_rev.
  rewrite rev_involutive.
  by rewrite (drop_while_clean B) by apply drop_while_starts_clean.
Qed.

End StripFacts.

Lemma retained_stripped (row : list string) :
  Forall (fun field => PyStr.strip field = field) (retained row).
Proof.
  unfold retained. apply Forall_fmap, Forall_forall. intros field _.
  apply strip_with_idemp.
Qed.

(** X13. A Record a unit obtains from the network has exactly the 12
    fields [_save_data] names as columns, and no field starts or ends with
    a blank: stripping it again changes nothing. *)
Theorem fetched_records_fit_the_columns
    (config : ScraperConfig) (o : oracle) (year month : Z) (w : world)
    (t : tuple) :
  cache_hit config o year month w = false ->
  holds t (_get_data_for_month config o year month w).1 = true ->
  length t = length field_names
  /\ Forall (fun field => PyStr.strip field = field) t.
Proof.
  intros Hmiss Ht.
  destruct (miss_summary config o year month w Hmiss) as (_ & _ & Hout & _).
  destruct ((_get_data_for_month config o year month w).1) as [s|]; [|done].
  apply bool_decide_eq_true in Ht.
  destruct (Hout s t eq_refl Ht) as (row & Hlen & _ & ->).
  split; [by rewrite retained_length|apply retained_stripped].
Qed.

Lemma fetched_records_fit_the_columns_witness :
  holds Sample.acme
    (_get_data_for_month Sample.config Sample.oracle0 2024 1 Sample.world0).1 = true
  /\ length Sample.acme = length field_names
  /\ Forall (fun field => PyStr.strip field = field) Sample.acme.
Proof.
  split; [vm_compute; reflexivity|].
  apply (fetched_records_fit_the_columns
           Sample.config Sample.oracle0 2024 1 Sample.world0 Sample.acme);
    vm_compute; reflexivity.
Defined.

Section FileNames.

Lemma has_char_app (c : ascii) (s t : string) :
  has_char c (s ++ t) = has_char c s || has_char c t.
Proof.
  induction s as [|d r IH]; [done|].
  rewrite append_cons. simpl. by rewrite IH, orb_assoc.
Qed.

(** Two strings free of [c] that are followed by [c] and the same ending
    or not: the first occurrence of [c] splits a string in one way only. *)
Lemma split_at_first (c : ascii) (s1 s2 t1 t2 : string) :
  has_char c s1 = false -> has_char c s2 = false ->
  (s1 ++ String c t1 = s2 ++ String c t2)%string ->
  s1 = s2 /\ t1 = t2.
Proof.
  revert s2. induction s1 as [|d r IH]; intros [|d' r'];
    rewrite ?append_cons, ?append_nil_l; simpl.
  - by intros _ _ [= ->].
  - intros _ H [= <- _]. by rewrite Ascii.eqb_refl in H.
  - intros H _ [= -> _]. by rewrite Ascii.eqb_refl in H.
  - intros [_ H1]%orb_false_elim [_ H2]%orb_false_elim [= -> Heq].
    destruct (IH r' H1 H2 Heq) as [-> ->]. done.
Qed.

Lemma string_of_uint_digits (c : ascii) (d : Decimal.uint) :
  PyStr.is_digit c = false -> has_char c (NilEmpty.string_of_uint d) = false.
Proof.
  intros Hc. induction d; simpl; try done;
    rewrite IHd, orb_false_r; apply Ascii.eqb_neq; by intros ->.
Qed.

Lemma str_int_chars (c : ascii) (z : Z) :
  PyStr.is_digit c = false -> c <> "-"%char -> has_char c (str_int z) = false.
Proof.
  intros Hc Hm. unfold str_int, NilEmpty.string_of_int.
  destruct (Z.to_int z); simpl.
  - by apply string_of_uint_digits.
  - rewrite string_of_uint_digits by done. rewrite orb_false_r.
    by apply Ascii.eqb_neq.
Qed.

Lemma str_int_inj (x y : Z) : str_int x = str_int y -> x = y.
Proof.
  unfold str_int. intros H.
  apply (f_equal NilEmpty.int_of_string) in H.
  rewrite !NilEmpty.isi in H. injection H as H.
  by apply DecimalZ.to_int_inj.
Qed.

End FileNames.

(** X14. Two work units share the name of their cache file,
    [data_<year>_<month>.json], only when they are the same month: the name
    determines year and month, as the path of the model does. *)
Theorem cache_file_names_are_distinct
    (config : ScraperConfig) (year month year' month' : Z) :
  (cache_file_name year month = cache_file_name year' month'
   <-> year = year' /\ month = month')
  /\ (_get_cache_path config year month = _get_cache_path config year' month'
      <-> cache_file_name year month = cache_file_name year' month').
Proof.
  assert (cache_file_name year month = cache_file_name year' month'
          <-> year = year' /\ month = month') as Hname; [|split; [done|]].
  2: { rewrite Hname. unfold _get_cache_path.
       split; [by intros [= -> ->]|by intros [-> ->]]. }
  split; [|by intros [-> ->]].
  unfold cache_file_name. intros H.
  apply (String.app_inj "data_") in H.
  apply (split_at_first "_" (str_int year) (str_int year')) in H as [Hy Hm];
    [|by apply str_int_chars..].
  apply (split_at_first "." (str_int month) (str_int month') "json" "json")
    in Hm as [Hm _]; [|by apply str_int_chars..].
  split; by apply str_int_inj.
Qed.

Example str_int_samples :
  str_int 2024 = "2024" /\ str_int 0 = "0" /\ str_int (-7) = "-7"
  /\ cache_file_name 2024 3 = "data_2024_3.json".
Proof. repeat split; vm_compute; reflexivity. Qed.

(** * The extractor: from the scraper's CSV to the alerts *)

Example demo_purchase :
  (fun a => (a_ticker a, a_totalValue a, a_shares a, a_score a, a_level a, a_factors a))
    <$> Demo.create_enhanced_alert Demo.purchase
  = Some ("ASAN", 9250000, 500000, 62, "medium",
          ["Large ($9M)"; "FOUNDER (Asana)"; "ASAN"; "Recent"]).
Proof. vm_compute. reflexivity. Qed.

Example demo_scraped : Demo.scraped.*1 = field_names.
Proof. vm_compute. reflexivity. Qed.

Example demo_filing :
  (fun a => (a_ticker a, a_totalValue a, a_shares a, a_score a, a_level a, a_factors a))
    <$> Integration.create_alert_from_row
          Demo.repr_float Demo.round_float Demo.py_hash Demo.now_iso Demo.filing
  = Some ("NVDA", 12050000, 100000, 80, "critical",
          ["Large trade"; "Mega trade"; "CEO purchase"; "Tech leader"; "Recent filing"]).
Proof. vm_compute. reflexivity. Qed.

Lemma row_get_absent (key : string) (r : row) (default : pyval) :
  key ∉ r.*1 -> row_get key r default = default.
Proof.
  induction r as [|[k v] r IH]; [done|].
  rewrite fmap_cons, not_elem_of_cons. intros [Hk Hr]. simpl.
  destruct (String.eqb key k) eqn:Heq; [by apply String.eqb_eq in Heq|].
  by apply IH.
Qed.

(** The integer part of a float that is not below [z] is not below [z]. *)
Lemma float_to_int_ge (x : PyFloat.float) (z n : Z) :
  PyFloat.lt_int x z = false -> float_to_int x = Ok n -> z <= n.
Proof.
  destruct x as [s| | |s m e]; simpl; try done.
  - intros H [= <-]. lia.
  - destruct (0 <=? e) eqn:He.
    + intros H [= <-]. apply Z.ltb_ge in H.
      destruct s; simpl in *; lia.
    + intros H [= <-]. apply Z.ltb_ge in H. apply Z.leb_gt in He.
      assert (0 < 2 ^ (- e)) as Hd by (apply Z.pow_pos_nonneg; lia).
      destruct s; simpl in *.
      * assert (Z.pos m / 2 ^ (- e) <= - z); [|lia].
        apply Z.div_le_upper_bound; [done|]. lia.
      * apply Z.div_le_lower_bound; [done|]. lia.
Qed.

Lemma float_mul_zero_l (y : PyFloat.float) :
  (exists s, float_mul PyFloat.zero y = S754_zero s)
  \/ float_mul PyFloat.zero y = S754_nan.
Proof. destruct y; simpl; eauto. Qed.

Lemma float_mul_zero_r (x : PyFloat.float) :
  (exists s, float_mul x PyFloat.zero = S754_zero s)
  \/ float_mul x PyFloat.zero = S754_nan.
Proof. destruct x; simpl; eauto. Qed.

Section SortFacts.

Lemma insert_by_score_perm (a : alert) (l : list alert) :
  insert_by_score a l ≡ₚ a :: l.
Proof.
  induction l as [|b l IH]; simpl; [done|].
  destruct (a_score b <=? a_score a); [done|].
  by rewrite IH, Permutation_swap.
Qed.

Lemma sort_by_score_perm (l : list alert) : sort_by_score l ≡ₚ l.
Proof.
  induction l as [|a l IH]; simpl; [done|].
  by rewrite insert_by_score_perm, IH.
Qed.

Lemma insert_by_score_sorted (a : alert) (l : list alert) :
  StronglySorted score_ge l -> StronglySorted score_ge (insert_by_score a l).
Proof.
  induction 1 as [|b l Hl IH Hb]; simpl.
  - repeat constructor.
  - destruct (a_score b <=? a_score a) eqn:Hab.
    + apply Z.leb_le in Hab. constructor; [by constructor|].
      constructor; [done|].
      eapply Forall_impl; [exact Hb|]. unfold score_ge. intros; simpl in *; lia.
    + apply Z.leb_gt in Hab. constructor; [done|].
      rewrite insert_by_score_perm. constructor; [|done].
      unfold score_ge. lia.
Qed.

Lemma sort_by_score_sorted (l : list alert) :
  StronglySorted score_ge (sort_by_score l).
Proof.
  induction l as [|a l IH]; simpl; [constructor|].
  by apply insert_by_score_sorted.
Qed.

Lemma insert_by_score_stable (k : Z) (a : alert) (l : list alert) :
  List.filter (fun b => a_score b =? k) (insert_by_score a l)
  = List.filter (fun b => a_score b =? k) (a :: l).
Proof.
  induction l as [|b l IH]; [done|].
  cbn [insert_by_score]. destruct (a_score b <=? a_score a) eqn:Hab; [done|].
  apply Z.leb_gt in Hab.
  cbn [List.filter] in *. rewrite IH.
  destruct (a_score b =? k) eqn:Hb, (a_score a =? k) eqn:Ha; try done.
  lia.
Qed.

Lemma sort_by_score_stable (k : Z) (l : list alert) :
  List.filter (fun b => a_score b =? k) (sort_by_score l)
  = List.filter (fun b => a_score b =? k) l.
Proof.
  induction l as [|a l IH]; [done|].
  cbn [sort_by_score foldr]. fold (sort_by_score l).
  rewrite insert_by_score_stable. cbn [List.filter]. by rewrite IH.
Qed.

End SortFacts.

Section ExtractorFacts.

Variable repr_float : PyFloat.float -> string.
Variable format_float : nat -> PyFloat.float -> string.
Variable round_float : nat -> PyFloat.float -> PyFloat.float.
Variable py_hash : string -> Z.
Variable now_iso : string.

Local Abbreviation clean_numeric := (Extractor.clean_numeric repr_float).
Local Abbreviation calculate_enhanced_score := (Extractor.calculate_enhanced_score repr_float).
Local Abbreviation create_enhanced_alert_body :=
  (Extractor.create_enhanced_alert_body repr_float format_float round_float py_hash now_iso).
Local Abbreviation create_enhanced_alert :=
  (Extractor.create_enhanced_alert repr_float format_float round_float py_hash now_iso).
Local Abbreviation process_scraped_data :=
  (Extractor.process_scraped_data repr_float format_float round_float py_hash now_iso).
Local Abbreviation run_full_process :=
  (Extractor.run_full_process repr_float format_float round_float py_hash now_iso).

Lemma score_bounds (r : row) (total_value : PyFloat.float) :
  11 <= calculate_enhanced_score r total_value <= 100.
Proof.
  unfold Extractor.calculate_enhanced_score. cbv zeta.
  set (value := if ge_int total_value 500000000 then _ else _).
  assert (0 <= value <= 60) as Hvalue.
  { subst value.
    repeat match goal with |- context [if ?c then _ else _] => destruct c end; lia. }
  clearbody value.
  set (role := if contains "moskovitz" _ then _ else _).
  assert (value + 8 <= role <= value + 30) as Hrole.
  { subst role.
    repeat match goal with |- context [if ?c then _ else _] => destruct c end; lia. }
  clearbody role.
  set (ticker := if PyStr.mem _ ["AAPL"; "MSFT"; "GOOGL"; "GOOG"; "AMZN"] then _ else _).
  assert (role + 3 <= ticker <= role + 15) as Hticker.
  { subst ticker.
    repeat match goal with |- context [if ?c then _ else _] => destruct c end; lia. }
  clearbody ticker.
  repeat match goal with |- context [if ?c then _ else _] => destruct c end; lia.
Qed.

Lemma no_alert_of_zero (r : row) :
  clean_numeric (row_get "Qty" r (PInt 0)) = PyFloat.zero
  \/ clean_numeric (row_get "last_price" r (PInt 0)) = PyFloat.zero ->
  create_enhanced_alert r = None.
Proof.
  unfold Extractor.create_enhanced_alert, Extractor.create_enhanced_alert_body.
  intros [-> | ->].
  - destruct (float_mul_zero_l (clean_numeric (row_get "last_price" r (PInt 0))))
      as [[s ->] | ->]; done.
  - destruct (float_mul_zero_r (clean_numeric (row_get "Qty" r (PInt 0))))
      as [[s ->] | ->]; done.
Qed.

Lemma no_alert_without_column (r : row) :
  "Qty" ∉ r.*1 \/ "last_price" ∉ r.*1 -> create_enhanced_alert r = None.
Proof.
  intros [H | H]; apply no_alert_of_zero; [left | right];
    by rewrite (row_get_absent _ _ _ H).
Qed.

Lemma alert_facts (r : row) (a : alert) :
  create_enhanced_alert r = Some a ->
  25000 <= a_totalValue a
  /\ 11 <= a_score a <= 100
  /\ a_level a = Extractor.get_alert_level (a_score a).
Proof.
  unfold Extractor.create_enhanced_alert, Extractor.create_enhanced_alert_body.
  set (shares := clean_numeric (row_get "Qty" r (PInt 0))).
  set (price := clean_numeric (row_get "last_price" r (PInt 0))).
  destruct (PyFloat.lt_int (float_mul shares price) 25000) eqn:Hlt; [done|].
  destruct (float_to_int (float_mul shares price)) as [total|] eqn:Htotal; [|done].
  destruct (float_to_int shares) as [whole|]; [|done].
  intros [= <-]. cbn [a_totalValue a_score a_level].
  split; [by eapply float_to_int_ge|]. split; [apply score_bounds|done].
Qed.

Lemma elem_of_process_scraped_data (df : list row) (a : alert) :
  a ∈ process_scraped_data (Some (Ok df))
  <-> exists r, r ∈ df /\ create_enhanced_alert r = Some a /\ 40 <= a_score a.
Proof.
  unfold Extractor.process_scraped_data.
  rewrite sort_by_score_perm, list_elem_of_omap.
  split; intros (r & Hr & H); exists r; (split; [done|]).
  - destruct (create_enhanced_alert r) as [b|]; [|done].
    destruct (40 <=? a_score b) eqn:Hb; [|done].
    injection H as <-. split; [done|lia].
  - destruct H as [-> H]. apply Z.leb_le in H. by rewrite H.
Qed.

Lemma process_scraped_data_facts (csv : option (result (list row))) :
  Forall (fun a => 40 <= a_score a <= 100 /\ 25000 <= a_totalValue a
                   /\ a_level a = Extractor.get_alert_level (a_score a))
         (process_scraped_data csv).
Proof.
  destruct csv as [[df|]|]; try by constructor.
  apply Forall_forall. intros a (r & _ & Ha & H40)%elem_of_process_scraped_data.
  destruct (alert_facts r a Ha) as (? & ? & ?). repeat split; [done|lia|done..].
Qed.

Lemma process_scraped_data_sorted (csv : option (result (list row))) :
  StronglySorted score_ge (process_scraped_data csv).
Proof.
  destruct csv as [[df|]|]; try by constructor.
  apply sort_by_score_sorted.
Qed.

Lemma count_levels (alerts : list alert) :
  Forall (fun a => a_level a = Extractor.get_alert_level (a_score a)) alerts ->
  (count_level "critical" alerts + count_level "high" alerts
   + count_level "medium" alerts + count_level "low" alerts
   = length alerts)%nat.
Proof.
  unfold count_level.
  induction 1 as [|a l Ha _ IH]; [done|].
  cbn [List.filter length]. rewrite Ha. unfold Extractor.get_alert_level.
  destruct (80 <=? a_score a); [simpl; lia|].
  destruct (65 <=? a_score a); [simpl; lia|].
  destruct (50 <=? a_score a); simpl; lia.
Qed.

Lemma update_alert_keeps (ticker_prices : gmap string quote) (a : alert) :
  let b := Extractor.update_alert round_float ticker_prices a in
  a_score b = a_score a /\ a_level b = a_level a
  /\ a_totalValue b = a_totalValue a /\ a_ticker b = a_ticker a
  /\ a_id b = a_id a.
Proof.
  unfold Extractor.update_alert. by destruct (ticker_prices !! a_ticker a).
Qed.

End ExtractorFacts.

Section PipelineFacts.

Variable repr_float : PyFloat.float -> string.
Variable format_float : nat -> PyFloat.float -> string.
Variable round_float : nat -> PyFloat.float -> PyFloat.float.
Variable py_hash : string -> Z.
Variable now_iso : string.

Local Abbreviation create_enhanced_alert :=
  (Extractor.create_enhanced_alert repr_float format_float round_float py_hash now_iso).
Local Abbreviation process_scraped_data :=
  (Extractor.process_scraped_data repr_float format_float round_float py_hash now_iso).
Local Abbreviation run_full_process :=
  (Extractor.run_full_process repr_float format_float round_float py_hash now_iso).

Lemma process_without_columns (df : list row) :
  Forall (fun r => "Qty" ∉ r.*1 \/ "last_price" ∉ r.*1) df ->
  process_scraped_data (Some (Ok df)) = [].
Proof.
  intros Hdf. unfold Extractor.process_scraped_data.
  replace (omap _ df) with (@nil alert); [done|].
  induction Hdf as [|r df Hr _ IH]; [done|].
  cbn [omap list_omap]. fold (@omap list _ _ _ (fun r =>
    match create_enhanced_alert r with
    | Some a => if 40 <=? a_score a then Some a else None
    | None => None
    end) df).
  by rewrite (no_alert_without_column _ _ _ _ _ r Hr).
Qed.

Lemma update_alerts_sorted (ticker_prices : gmap string quote) (alerts : list alert) :
  StronglySorted score_ge alerts ->
  StronglySorted score_ge (Extractor.update_alerts round_float ticker_prices alerts).
Proof.
  unfold Extractor.update_alerts.
  induction 1 as [|a l _ IH Ha]; [constructor|].
  rewrite fmap_cons. constructor; [done|].
  apply Forall_fmap. eapply Forall_impl; [exact Ha|].
  intros b. unfold score_ge. simpl.
  destruct (update_alert_keeps round_float ticker_prices a) as (-> & _).
  by destruct (update_alert_keeps round_float ticker_prices b) as (-> & _).
Qed.

Lemma update_alerts_facts (P : Z -> Z -> string -> Prop)
    (ticker_prices : gmap string quote) (alerts : list alert) :
  Forall (fun a => P (a_score a) (a_totalValue a) (a_level a)) alerts ->
  Forall (fun a => P (a_score a) (a_totalValue a) (a_level a))
         (Extractor.update_alerts round_float ticker_prices alerts).
Proof.
  intros H. apply Forall_fmap. eapply Forall_impl; [exact H|].
  intros a. simpl.
  by destruct (update_alert_keeps round_float ticker_prices a) as (-> & -> & -> & _).
Qed.

Lemma total_value_bound (alerts : list alert) :
  Forall (fun a => 25000 <= a_totalValue a) alerts ->
  25000 * Z.of_nat (length alerts) <= foldr Z.add 0 (a_totalValue <$> alerts).
Proof.
  induction 1 as [|a l Ha _ IH]; [done|].
  rewrite fmap_cons, length_cons, Nat2Z.inj_succ. cbn [foldr]. lia.
Qed.

End PipelineFacts.

Section LogFacts.

Lemma add_log_last (timestamp message : string) (l : list string) :
  let l' := l ++ [App.entry (timestamp, message)] in
  App.add_log timestamp message l = drop (length l' - 50) l'.
Proof.
  unfold App.add_log, App.entry. cbv zeta. cbn [fst snd].
  set (l' := l ++ _).
  destruct (50 <? length l')%nat eqn:H; [done|].
  apply Nat.ltb_ge in H. by replace (length l' - 50)%nat with 0%nat by lia.
Qed.

Lemma add_logs_last (calls : list (string * string)) (l : list string) :
  (length l <= 50)%nat ->
  let all := l ++ (App.entry <$> calls) in
  App.add_logs calls l = drop (length all - 50) all.
Proof.
  revert l. induction calls as [|[t m] calls IH]; intros l Hl; cbv zeta.
  - simpl. rewrite app_nil_r. by replace (length l - 50)%nat with 0%nat by lia.
  - change (App.add_logs ((t, m) :: calls) l)
      with (App.add_logs calls (App.add_log t m l)).
    rewrite add_log_last. cbv zeta.
    set (l1 := l ++ [App.entry (t, m)]).
    assert (length l1 = S (length l)) as Hl1
      by (subst l1; rewrite length_app; simpl; lia).
    rewrite IH by (rewrite length_drop; lia). cbv zeta.
    rewrite fmap_cons.
    replace (l ++ App.entry (t, m) :: (App.entry <$> calls))
      with (l1 ++ (App.entry <$> calls)) by (subst l1; by rewrite <- app_assoc).
    set (E := App.entry <$> calls).
    rewrite <- (drop_app_le l1 E) by lia.
    rewrite drop_drop. f_equal.
    rewrite length_drop, !length_app. lia.
Qed.

End LogFacts.

Lemma omap_cons {A B} (f : A -> option B) (x : A) (l : list A) :
  omap f (x :: l) = match f x with Some y => y :: omap f l | None => omap f l end.
Proof. reflexivity. Qed.

(** X15. [create_enhanced_alert] reads the share count under ['Qty'] and the
    price under ['last_price'], with 0 for a column that is missing: a row
    without one of the two columns has a total value of 0.0 (or NaN, which
    [int] refuses), and gives no alert. *)
Theorem alert_needs_qty_and_last_price
    (repr_float : PyFloat.float -> string)
    (format_float : nat -> PyFloat.float -> string)
    (round_float : nat -> PyFloat.float -> PyFloat.float)
    (py_hash : string -> Z) (now_iso : string) (r : row) :
  "Qty" ∉ r.*1 \/ "last_price" ∉ r.*1 ->
  Extractor.create_enhanced_alert repr_float format_float round_float py_hash now_iso r
  = None.
Proof. apply no_alert_without_column. Qed.

Lemma alert_needs_qty_and_last_price_witness :
  ("Qty" ∉ Demo.scraped.*1 \/ "last_price" ∉ Demo.scraped.*1)
  /\ Demo.create_enhanced_alert Demo.scraped = None.
Proof.
  assert ("Qty" ∉ Demo.scraped.*1) as H
    by (apply (bool_decide_unpack _); vm_compute; reflexivity).
  split; [by left|].
  apply (alert_needs_qty_and_last_price
           Demo.repr_float Demo.format_float Demo.round_float Demo.py_hash
           Demo.now_iso Demo.scraped).
  by left.
Defined.

(** X16. The CSV [_save_data] writes has the columns [field_names], with
    the share count under ['qty'] and the price under ['price']: from a file
    with these columns [process_scraped_data] makes no alert, whatever the
    rows hold, and [run_full_process] returns the empty list and saves
    nothing. *)
Theorem scraper_csv_yields_no_alert
    (repr_float : PyFloat.float -> string)
    (format_float : nat -> PyFloat.float -> string)
    (round_float : nat -> PyFloat.float -> PyFloat.float)
    (py_hash : string -> Z) (now_iso : string)
    (df : list row) (scraped : bool) (ticker_prices : gmap string quote)
    (writable : bool) :
  Forall (fun r => r.*1 = field_names) df ->
  Extractor.process_scraped_data repr_float format_float round_float py_hash now_iso
    (Some (Ok df)) = []
  /\ Extractor.run_full_process repr_float format_float round_float py_hash now_iso
       scraped (Some (Ok df)) ticker_prices writable = Ok ([], None).
Proof.
  intros Hdf.
  assert (Extractor.process_scraped_data repr_float format_float round_float
            py_hash now_iso (Some (Ok df)) = []) as Hnone.
  { apply process_without_columns. eapply Forall_impl; [exact Hdf|].
    intros r ->. left. apply (bool_decide_unpack _). vm_compute. reflexivity. }
  split; [done|]. unfold Extractor.run_full_process. rewrite Hnone.
  by destruct scraped.
Qed.

Lemma scraper_csv_yields_no_alert_witness :
  Forall (fun r => r.*1 = field_names) [Demo.scraped; Demo.scraped]
  /\ Demo.process_scraped_data (Some (Ok [Demo.scraped; Demo.scraped])) = []
  /\ Demo.run_full_process true (Some (Ok [Demo.scraped; Demo.scraped])) ∅ true
     = Ok ([], None).
Proof.
  assert (Forall (fun r : row => r.*1 = field_names) [Demo.scraped; Demo.scraped])
    as H by (repeat constructor).
  split; [exact H|].
  exact (scraper_csv_yields_no_alert
           Demo.repr_float Demo.format_float Demo.round_float Demo.py_hash
           Demo.now_iso [Demo.scraped; Demo.scraped] true ∅ true H).
Defined.

(** X17. An alert [create_enhanced_alert] returns has a total value (the
    integer part of shares times price) of at least 25000, a score between
    11 and 100, and the level [get_alert_level] gives for that score. *)
Theorem alert_meets_thresholds
    (repr_float : PyFloat.float -> string)
    (format_float : nat -> PyFloat.float -> string)
    (round_float : nat -> PyFloat.float -> PyFloat.float)
    (py_hash : string -> Z) (now_iso : string) (r : row) (a : alert) :
  Extractor.create_enhanced_alert repr_float format_float round_float py_hash now_iso r
  = Some a ->
  25000 <= a_totalValue a
  /\ 11 <= a_score a <= 100
  /\ a_level a = Extractor.get_alert_level (a_score a).
Proof. apply alert_facts. Qed.

Lemma alert_meets_thresholds_witness :
  exists a,
    Demo.create_enhanced_alert Demo.purchase = Some a
    /\ 25000 <= a_totalValue a
    /\ 11 <= a_score a <= 100
    /\ a_level a = Extractor.get_alert_level (a_score a).
Proof.
  eexists. split; [vm_compute; reflexivity|].
  apply (alert_meets_thresholds
           Demo.repr_float Demo.format_float Demo.round_float Demo.py_hash
           Demo.now_iso Demo.purchase).
  vm_compute. reflexivity.
Defined.

(** X18. From the rows of a readable CSV, [process_scraped_data] returns
    exactly the alerts of score 40 or more that [create_enhanced_alert]
    makes of them, by falling score, alerts of equal score in the order of
    their rows. *)
Theorem processed_alerts_sorted_and_filtered
    (repr_float : PyFloat.float -> string)
    (format_float : nat -> PyFloat.float -> string)
    (round_float : nat -> PyFloat.float -> PyFloat.float)
    (py_hash : string -> Z) (now_iso : string) (df : list row) :
  StronglySorted score_ge
    (Extractor.process_scraped_data repr_float format_float round_float py_hash
       now_iso (Some (Ok df)))
  /\ (forall a,
        a ∈ Extractor.process_scraped_data repr_float format_float round_float
              py_hash now_iso (Some (Ok df))
        <-> exists r,
              r ∈ df
              /\ Extractor.create_enhanced_alert repr_float format_float
                   round_float py_hash now_iso r = Some a
              /\ 40 <= a_score a)
  /\ (forall k,
        40 <= k ->
        List.filter (fun a => a_score a =? k)
          (Extractor.process_scraped_data repr_float format_float round_float
             py_hash now_iso (Some (Ok df)))
        = List.filter (fun a => a_score a =? k)
            (omap (Extractor.create_enhanced_alert repr_float format_float
                     round_float py_hash now_iso) df)).
Proof.
  split; [apply process_scraped_data_sorted|].
  split; [apply elem_of_process_scraped_data|].
  intros k Hk. unfold Extractor.process_scraped_data.
  rewrite sort_by_score_stable.
  induction df as [|r df IH]; [done|].
  rewrite !omap_cons.
  destruct (Extractor.create_enhanced_alert _ _ _ _ _ r) as [a|]; [|done].
  destruct (40 <=? a_score a) eqn:Ha.
  - cbn [List.filter]. by rewrite IH.
  - cbn [List.filter]. apply Z.leb_gt in Ha.
    replace (a_score a =? k) with false by lia. done.
Qed.

(** X19. When [run_full_process] saves, the list it returns is not empty
    and still sorted by falling score after the price update, every alert
    has a score of 40 to 100 and a total value of at least 25000, and in what
    is saved the four level counts add up to ['total_alerts'], the length of
    the list, while ['total_value'] is at least 25000 per alert. *)
Theorem saved_stats_add_up
    (repr_float : PyFloat.float -> string)
    (format_float : nat -> PyFloat.float -> string)
    (round_float : nat -> PyFloat.float -> PyFloat.float)
    (py_hash : string -> Z) (now_iso : string)
    (scraped : bool) (csv : option (result (list row)))
    (ticker_prices : gmap string quote) (writable : bool)
    (alerts : list alert) (st : Extractor.stats) :
  Extractor.run_full_process repr_float format_float round_float py_hash now_iso
    scraped csv ticker_prices writable = Ok (alerts, Some st) ->
  alerts <> []
  /\ StronglySorted score_ge alerts
  /\ Forall (fun a => 40 <= a_score a <= 100 /\ 25000 <= a_totalValue a) alerts
  /\ Extractor.st_total_alerts st = length alerts
  /\ (Extractor.st_critical st + Extractor.st_high st
      + Extractor.st_medium st + Extractor.st_low st
      = Extractor.st_total_alerts st)%nat
  /\ 25000 * Z.of_nat (Extractor.st_total_alerts st) <= Extractor.st_total_value st.
Proof.
  unfold Extractor.run_full_process.
  destruct scraped; [|done]. cbn [negb].
  pose proof (process_scraped_data_facts repr_float format_float round_float
                py_hash now_iso csv) as Hfacts.
  pose proof (process_scraped_data_sorted repr_float format_float round_float
                py_hash now_iso csv) as Hsorted.
  destruct (Extractor.process_scraped_data _ _ _ _ _ csv) as [|a0 l] eqn:Hout;
    [done|].
  destruct writable; [|done].
  set (found := a0 :: l) in *. intros H.
  assert (alerts = Extractor.update_alerts round_float ticker_prices found)
    as -> by congruence.
  assert (st = Extractor.web_stats round_float
                 (Extractor.update_alerts round_float ticker_prices found))
    as -> by congruence.
  clear H.
  apply (update_alerts_facts round_float
           (fun score total level =>
              40 <= score <= 100 /\ 25000 <= total
              /\ level = Extractor.get_alert_level score) ticker_prices) in Hfacts.
  split; [done|].
  split; [by apply update_alerts_sorted|].
  split; [eapply Forall_impl; [exact Hfacts|]; by intros a (? & ? & ?)|].
  split; [done|].
  split.
  - apply count_levels. eapply Forall_impl; [exact Hfacts|]. by intros a (? & ? & ?).
  - apply total_value_bound. eapply Forall_impl; [exact Hfacts|]. by intros a (? & ? & ?).
Qed.

Lemma saved_stats_add_up_witness :
  exists alerts st,
    Demo.run_full_process true (Some (Ok [Demo.scraped; Demo.purchase])) ∅ true
    = Ok (alerts, Some st)
    /\ alerts <> []
    /\ StronglySorted score_ge alerts
    /\ Forall (fun a => 40 <= a_score a <= 100 /\ 25000 <= a_totalValue a) alerts
    /\ Extractor.st_total_alerts st = length alerts
    /\ (Extractor.st_critical st + Extractor.st_high st
        + Extractor.st_medium st + Extractor.st_low st
        = Extractor.st_total_alerts st)%nat
    /\ 25000 * Z.of_nat (Extractor.st_total_alerts st) <= Extractor.st_total_value st.
Proof.
  eexists _, _. split; [vm_compute; reflexivity|].
  apply (saved_stats_add_up
           Demo.repr_float Demo.format_float Demo.round_float Demo.py_hash
           Demo.now_iso true (Some (Ok [Demo.scraped; Demo.purchase])) ∅ true).
  vm_compute. reflexivity.
Defined.

(** X20. [add_log] keeps the newest messages: after any sequence of calls
    on a list of at most 50 entries (the empty list of a new
    [InsiderBotAPI]), the list holds the last 50 of the old entries followed
    by the new ones, all of them when they are 50 or fewer, and so never more
    than 50. *)
Theorem add_log_keeps_last_fifty
    (calls : list (string * string)) (log_messages : list string) :
  (length log_messages <= 50)%nat ->
  App.add_logs calls log_messages
  = drop (length (log_messages ++ (App.entry <$> calls)) - 50)
         (log_messages ++ (App.entry <$> calls))
  /\ (length (App.add_logs calls log_messages) <= 50)%nat.
Proof.
  intros Hl. pose proof (add_logs_last calls log_messages Hl) as H.
  cbv zeta in H. split; [done|].
  rewrite H, length_drop. lia.
Qed.

Lemma add_log_keeps_last_fifty_witness :
  (length (@nil string) <= 50)%nat
  /\ App.add_logs [("12:00:00", "start"); ("12:00:01", "done")] []
     = ["[12:00:00] start"; "[12:00:01] done"].
Proof.
  split; [simpl; lia|].
  exact (proj1 (add_log_keeps_last_fifty
                  [("12:00:00", "start"); ("12:00:01", "done")] []
                  ltac:(simpl; lia))).
Defined.


(** * The two readers of numbers *)

Section ReaderFacts.

Lemma remove_absent (c : ascii) (s : string) :
  has_char c s = false -> PyStr.remove c s = s.
Proof.
  induction s as [|d r IH]; [done|]. simpl.
  intros [-> H]%orb_false_elim. by rewrite IH.
Qed.

Lemma has_char_remove (c d : ascii) (s : string) :
  has_char c s = false -> has_char c (PyStr.remove d s) = false.
Proof.
  induction s as [|e r IH]; [done|]. simpl.
  intros [He H]%orb_false_elim.
  destruct (Ascii.eqb d e); [by apply IH|]. simpl. by rewrite He, IH.
Qed.

Lemma any_char_remove (p : ascii -> bool) (d : ascii) (s : string) :
  any_char p s = false -> any_char p (PyStr.remove d s) = false.
Proof.
  induction s as [|e r IH]; [done|]. simpl.
  intros [He H]%orb_false_elim.
  destruct (Ascii.eqb d e); [by apply IH|]. simpl. by rewrite He, IH.
Qed.

Lemma remove_comm (c d : ascii) (s : string) :
  PyStr.remove c (PyStr.remove d s) = PyStr.remove d (PyStr.remove c s).
Proof.
  induction s as [|e r IH]; [done|]. simpl.
  destruct (Ascii.eqb d e) eqn:Hd, (Ascii.eqb c e) eqn:Hc; simpl;
    rewrite ?Hd, ?Hc, ?IH; done.
Qed.

Lemma any_char_starts_clean (p : ascii -> bool) (s : string) :
  any_char p s = false -> starts_clean p s /\ ends_clean p s.
Proof.
  induction s as [|c r IH]; [done|]. simpl.
  intros [Hc H]%orb_false_elim. split; [done|].
  destruct r; [done|]. by apply IH.
Qed.

Lemma strip_clean (s : string) :
  any_char PyStr.is_py_space s = false -> PyStr.strip s = s.
Proof.
  intros [Hs He]%any_char_starts_clean.
  unfold PyStr.strip, PyStr.strip_with.
  rewrite (drop_while_clean _ s Hs).
  rewrite drop_while_clean by by apply starts_clean_rev.
  apply rev_involutive.
Qed.

Lemma remove_blanks_keep (c : ascii) (r : string) :
  (PyStr.code c <? 128)%N = true ->
  PyStr.is_py_space c = false ->
  remove_blanks (String c r) = String c (remove_blanks r).
Proof.
  intros Hc Hsp. apply N.ltb_lt in Hc.
  assert (forall d, is_blank2 c d = false) as H2.
  { intros d. unfold is_blank2.
    destruct (PyStr.code c =? 194)%N eqn:E; [apply N.eqb_eq in E; lia|done]. }
  assert (forall d e, is_blank3 c d e = false) as H3.
  { intros d e. unfold is_blank3.
    destruct (PyStr.code c =? 225)%N eqn:E1; [apply N.eqb_eq in E1; lia|].
    destruct (PyStr.code c =? 226)%N eqn:E2; [apply N.eqb_eq in E2; lia|].
    destruct (PyStr.code c =? 227)%N eqn:E3; [apply N.eqb_eq in E3; lia|].
    done. }
  destruct r as [|d [|e r]]; cbn [remove_blanks]; rewrite Hsp, ?H2, ?H3; reflexivity.
Qed.

Lemma remove_blanks_clean (s : string) :
  is_ascii s = true ->
  any_char PyStr.is_py_space s = false -> remove_blanks s = s.
Proof.
  unfold is_ascii. rewrite negb_true_iff.
  induction s as [|c r IH]; [done|]. cbn [any_char].
  intros [Hc Hr]%orb_false_elim [Hsp H]%orb_false_elim.
  rewrite remove_blanks_keep, IH; try done.
  apply N.leb_gt in Hc. by apply N.ltb_lt.
Qed.

Lemma is_ascii_remove (d : ascii) (s : string) :
  is_ascii s = true -> is_ascii (PyStr.remove d s) = true.
Proof.
  unfold is_ascii. rewrite !negb_true_iff. apply any_char_remove.
Qed.

Lemma strip_symbols_order (s : string) :
  has_char "%" s = false ->
  PyStr.remove "$" (PyStr.remove "," (PyStr.remove "+" s)) = strip_symbols s.
Proof.
  intros H. unfold strip_symbols.
  rewrite (remove_absent "%") by by do 3 apply has_char_remove.
  rewrite (remove_comm "," "+"), (remove_comm "$" "+").
  by rewrite (remove_comm "$" ",").
Qed.

Lemma readers_agree (repr_float : PyFloat.float -> string) (s : string) :
  is_ascii s = true ->
  has_char "%" s = false ->
  has_char "034" s = false ->
  has_char "'" s = false ->
  any_char PyStr.is_py_space s = false ->
  Extractor.clean_numeric repr_float (PStr s) = _clean_numeric s.
Proof.
  intros Hascii Hpc Hdq Hsq Hsp.
  unfold Extractor.clean_numeric, _clean_numeric. cbn [truthy isna Extractor.py_str].
  rewrite orb_false_r, negb_involutive.
  destruct (String.eqb s "") eqn:Hempty; [done|]. cbn [orb].
  rewrite (remove_absent "'"), (remove_absent "034")
    by by repeat apply has_char_remove.
  rewrite strip_clean by by repeat apply any_char_remove.
  rewrite remove_blanks_clean;
    [|by repeat apply is_ascii_remove|by repeat apply any_char_remove].
  rewrite (strip_symbols_order s Hpc).
  fold (strip_symbols s).
  destruct (PyStr.mem (PyStr.lower s) ["n/a"; "new"]) eqn:Htoken.
  - destruct (token_is_no_number s Htoken) as [-> ->]. by rewrite Hempty.
  - destruct (String.eqb (strip_symbols s) "") eqn:Hnil; [|done].
    apply String.eqb_eq in Hnil. by rewrite Hnil.
Qed.

End ReaderFacts.

(** A non-breaking space inside a cell parts the two readers: [split]
    drops it and the extractor reads 12.0, [float] refuses it and the
    scraper reads 0.0. *)
Example readers_differ_on_nbsp :
  PyFloat.is_ratio
    (Extractor.clean_numeric Demo.repr_float
       (PStr (String "1" (String "194" (String "160" "2"))))) 12 1 = true
  /\ _clean_numeric (String "1" (String "194" (String "160" "2"))) = PyFloat.zero.
Proof. split; vm_compute; reflexivity. Qed.

(** X21. On an ASCII cell that holds no '%', no quote and no blank, the
    extractor's [clean_numeric] and the scraper's [_clean_numeric] read the
    same number. A '%' parts them: the scraper drops it, the extractor reads
    0.0. *)
Theorem readers_agree_on_plain_cells
    (repr_float : PyFloat.float -> string) (s : string) :
  is_ascii s = true ->
  has_char "%" s = false ->
  has_char "034" s = false ->
  has_char "'" s = false ->
  any_char PyStr.is_py_space s = false ->
  Extractor.clean_numeric repr_float (PStr s) = _clean_numeric s.
Proof. apply readers_agree. Qed.

Lemma readers_agree_on_plain_cells_witness :
  Extractor.clean_numeric Demo.repr_float (PStr "+$1,234.50")
  = _clean_numeric "+$1,234.50"
  /\ PyFloat.is_ratio (_clean_numeric "+$1,234.50") 2469 2 = true
  /\ PyFloat.is_ratio (_clean_numeric "+12%") 12 1 = true
  /\ Extractor.clean_numeric Demo.repr_float (PStr "+12%") = PyFloat.zero.
Proof.
  split; [|repeat split; vm_compute; reflexivity].
  apply (readers_agree_on_plain_cells Demo.repr_float "+$1,234.50"); reflexivity.
Defined.

(** * The integration script *)

Section IntegrationFacts.

Variable repr_float : PyFloat.float -> string.
Variable round_float : nat -> PyFloat.float -> PyFloat.float.
Variable py_hash : string -> Z.
Variable now_iso : string.

Local Abbreviation calculate_score := (Integration.calculate_score repr_float).
Local Abbreviation create_alert_from_row :=
  (Integration.create_alert_from_row repr_float round_float py_hash now_iso).
Local Abbreviation process_insider_data :=
  (Integration.process_insider_data repr_float round_float py_hash now_iso).
Local Abbreviation get_example_alerts := (Integration.get_example_alerts now_iso).
Local Abbreviation kept := Integration.kept.
Local Abbreviation update_prices :=
  (Integration.update_prices_with_alpha_vantage round_float).

Lemma integration_score_bounds (r : row) (total_value : PyFloat.float) :
  35 <= calculate_score r total_value <= 80.
Proof.
  unfold Integration.calculate_score. cbv zeta.
  repeat match goal with |- context [if ?c then _ else _] => destruct c end; lia.
Qed.

Lemma integration_critical (r : row) (total_value : PyFloat.float) :
  Integration.get_alert_level (calculate_score r total_value) = "critical" ->
  ge_int total_value 10000000 = true
  /\ Integration.any_in ["ceo"; "president"; "chief"]
       (PyStr.lower (Integration.py_str repr_float (row_get "title" r (PStr ""))))
     = true
  /\ PyStr.mem (upper (Integration.py_str repr_float (row_get "ticker" r (PStr ""))))
       Integration.tech_stocks = true.
Proof.
  unfold Integration.calculate_score. cbv zeta.
  repeat match goal with |- context [if ?c then _ else _] => destruct c end;
    done.
Qed.

Lemma no_alert_without_shares (r : row) :
  "shares" ∉ r.*1 -> create_alert_from_row r = None.
Proof.
  intros H.
  unfold Integration.create_alert_from_row, Integration.create_alert_from_row_body.
  rewrite (row_get_absent _ _ _ H).
  change (Integration.py_float (PInt 0)) with (Ok PyFloat.zero).
  destruct (Integration.py_float _) as [price|]; [|done].
  destruct (float_mul_zero_l price) as [[s ->] | ->]; [done|].
  cbn [PyFloat.lt_int float_to_int]. by destruct (row_get "ticker" r (PStr "")).
Qed.

Lemma integration_alert_facts (r : row) (a : alert) :
  create_alert_from_row r = Some a ->
  50000 <= a_totalValue a
  /\ 35 <= a_score a <= 80
  /\ a_level a = Integration.get_alert_level (a_score a).
Proof.
  unfold Integration.create_alert_from_row, Integration.create_alert_from_row_body.
  destruct (Integration.py_float (row_get "shares" r (PInt 0))) as [shares|]; [|done].
  destruct (Integration.py_float (row_get "price" r (PInt 0))) as [price|]; [|done].
  destruct (PyFloat.lt_int (float_mul shares price) 50000) eqn:Hlt; [done|].
  destruct (row_get "ticker" r (PStr "")) as [ticker| |]; try done.
  destruct (float_to_int (float_mul shares price)) as [total|] eqn:Htotal; [|done].
  destruct (float_to_int shares) as [whole|]; [|done].
  intros [= <-]. cbn [a_totalValue a_score a_level].
  split; [by eapply float_to_int_ge|].
  split; [apply integration_score_bounds|done].
Qed.

Lemma elem_of_process_insider_data (df : list row) (a : alert) :
  a ∈ process_insider_data (Some (Ok df))
  <-> exists r, r ∈ df /\ create_alert_from_row r = Some a /\ 60 <= a_score a.
Proof.
  unfold Integration.process_insider_data.
  rewrite sort_by_score_perm, list_elem_of_omap.
  split; intros (r & Hr & H); exists r; (split; [done|]).
  - destruct (create_alert_from_row r) as [b|]; [|done].
    destruct (60 <=? a_score b) eqn:Hb; [|done].
    injection H as <-. split; [done|lia].
  - destruct H as [-> H]. apply Z.leb_le in H. by rewrite H.
Qed.

Lemma process_insider_data_kept (csv : option (result (list row))) :
  Forall kept (process_insider_data csv).
Proof.
  destruct csv as [[df|]|]; try by constructor.
  apply Forall_forall. intros a (r & _ & Ha & H60)%elem_of_process_insider_data.
  destruct (integration_alert_facts r a Ha) as (? & ? & ?).
  repeat split; [done|lia|done..].
Qed.

Lemma process_insider_data_sorted (csv : option (result (list row))) :
  StronglySorted score_ge (process_insider_data csv).
Proof.
  destruct csv as [[df|]|]; try by constructor.
  apply sort_by_score_sorted.
Qed.

Lemma example_alerts_kept : Forall kept get_example_alerts.
Proof. repeat constructor; done. Qed.

Lemma example_alerts_sorted : StronglySorted score_ge get_example_alerts.
Proof. repeat constructor. Qed.

Lemma set_prices_keeps
    (answer : option (PyFloat.float * PyFloat.float * PyFloat.float)) (a : alert) :
  let b := Integration.set_prices round_float answer a in
  a_score b = a_score a /\ a_level b = a_level a
  /\ a_totalValue b = a_totalValue a /\ a_ticker b = a_ticker a
  /\ a_id b = a_id a.
Proof. by destruct answer as [[[? ?] ?]|]. Qed.

Lemma imap_set_prices_kept
    (answers : nat -> option (PyFloat.float * PyFloat.float * PyFloat.float))
    (alerts : list alert) :
  Forall kept alerts ->
  Forall kept (imap (fun i a => Integration.set_prices round_float (answers i) a) alerts).
Proof.
  intros H. revert answers. induction H as [|a l Ha _ IH]; intros answers; [constructor|].
  rewrite imap_cons. constructor; [|apply (IH (answers ∘ S))].
  unfold Integration.kept in *.
  by destruct (set_prices_keeps (answers 0%nat) a) as (-> & -> & -> & _).
Qed.

Lemma imap_set_prices_sorted
    (answers : nat -> option (PyFloat.float * PyFloat.float * PyFloat.float))
    (alerts : list alert) :
  StronglySorted score_ge alerts ->
  StronglySorted score_ge
    (imap (fun i a => Integration.set_prices round_float (answers i) a) alerts).
Proof.
  intros H. revert answers.
  induction H as [|a l _ IH Ha]; intros answers; [constructor|].
  rewrite imap_cons. constructor; [apply (IH (answers ∘ S))|].
  apply Forall_forall. intros b (i & c & -> & Hc)%elem_of_lookup_imap.
  unfold score_ge. cbn [compose].
  destruct (set_prices_keeps (answers 0%nat) a) as (-> & _).
  destruct (set_prices_keeps (answers (S i)) c) as (-> & _).
  rewrite Forall_forall in Ha. by apply Ha, (list_elem_of_lookup_2 _ i).
Qed.

Lemma StronglySorted_take (n : nat) (alerts : list alert) :
  StronglySorted score_ge alerts -> StronglySorted score_ge (take n alerts).
Proof.
  intros H. revert n. induction H as [|a l _ IH Ha]; intros [|n]; simpl;
    try constructor; [apply IH|by apply Forall_take].
Qed.

Lemma update_prices_facts (alpha_key : option string)
    (answers : nat -> option (PyFloat.float * PyFloat.float * PyFloat.float))
    (alerts : list alert) :
  alerts <> [] -> Forall kept alerts -> StronglySorted score_ge alerts ->
  let out := update_prices alpha_key answers alerts in
  out <> [] /\ Forall kept out /\ StronglySorted score_ge out
  /\ (length out <= length alerts)%nat
  /\ (Integration.has_key alpha_key = true -> (length out <= 5)%nat).
Proof.
  intros Hne Hkept Hsorted out. subst out.
  set (out := imap (fun i a => Integration.set_prices round_float (answers i) a)
                   (take 5 alerts)).
  assert (out <> [] /\ Forall kept out /\ StronglySorted score_ge out
          /\ (length out <= length alerts)%nat /\ (length out <= 5)%nat) as Hout.
  { subst out. split; [|split; [|split]].
    - destruct alerts; [done|]. by rewrite firstn_cons, imap_cons.
    - by apply imap_set_prices_kept, Forall_take.
    - by apply imap_set_prices_sorted, StronglySorted_take.
    - rewrite length_imap, length_take. lia. }
  unfold Integration.update_prices_with_alpha_vantage.
  destruct (Integration.has_key alpha_key); cbn [negb]; fold out.
  - destruct Hout as (? & ? & ? & ? & ?). done.
  - repeat split; first [done | lia].
Qed.

Lemma count_kept_levels (alerts : list alert) :
  Forall kept alerts ->
  (count_level "critical" alerts + count_level "high" alerts
   + count_level "medium" alerts = length alerts)%nat.
Proof.
  unfold count_level.
  induction 1 as [|a l (Hs & Ha & _) _ IH]; [done|].
  cbn [List.filter length]. rewrite Ha. unfold Integration.get_alert_level.
  destruct (80 <=? a_score a); [simpl; lia|].
  destruct (70 <=? a_score a); [simpl; lia|].
  destruct (60 <=? a_score a) eqn:H60; [simpl; lia|]. lia.
Qed.

End IntegrationFacts.

(** X22. The score of the integration script lies between 35 and 80, so
    the cap at 100 never applies; it reaches the level 'critical' only for a
    total value of 10 million or more, a title with 'ceo', 'president' or
    'chief' and a ticker among the technology stocks. *)
Theorem integration_score_range
    (repr_float : PyFloat.float -> string) (r : row) (total_value : PyFloat.float) :
  35 <= Integration.calculate_score repr_float r total_value <= 80
  /\ (Integration.get_alert_level
        (Integration.calculate_score repr_float r total_value) = "critical" ->
      ge_int total_value 10000000 = true
      /\ Integration.any_in ["ceo"; "president"; "chief"]
           (PyStr.lower (Integration.py_str repr_float (row_get "title" r (PStr ""))))
         = true
      /\ PyStr.mem
           (upper (Integration.py_str repr_float (row_get "ticker" r (PStr ""))))
           Integration.tech_stocks = true).
Proof.
  split; [apply integration_score_bounds|apply integration_critical].
Qed.

(** X23. The integration script reads the share count under ['shares'], a
    column the CSV of [_save_data] does not have: from a file with the
    scraper's columns it keeps no alert, and [run_full_process] returns the
    one example alert (RDDT, score 78), whatever the rows hold, with the
    prices the service may have given for it. *)
Theorem integration_falls_back_on_example
    (repr_float : PyFloat.float -> string)
    (round_float : nat -> PyFloat.float -> PyFloat.float)
    (py_hash : string -> Z) (now_iso : string)
    (df : list row) (scraped : bool) (alpha_key : option string)
    (answers : nat -> option (PyFloat.float * PyFloat.float * PyFloat.float)) :
  Forall (fun r => r.*1 = field_names) df ->
  Integration.process_insider_data repr_float round_float py_hash now_iso
    (Some (Ok df)) = []
  /\ exists a st,
       Integration.run_full_process repr_float round_float py_hash now_iso
         scraped (Some (Ok df)) alpha_key answers true = Ok ([a], st)
       /\ a_id a = "example_1" /\ a_ticker a = "RDDT"
       /\ a_score a = 78 /\ a_level a = "high"
       /\ Integration.st_total_alerts st = 1%nat.
Proof.
  intros Hdf.
  assert (Integration.process_insider_data repr_float round_float py_hash now_iso
            (Some (Ok df)) = []) as Hnone.
  { unfold Integration.process_insider_data.
    replace (omap _ df) with (@nil alert); [done|].
    induction Hdf as [|r df Hr _ IH]; [done|].
    rewrite omap_cons, (no_alert_without_shares _ _ _ _ r); [done|].
    rewrite Hr. apply (bool_decide_unpack _). vm_compute. reflexivity. }
  split; [done|].
  unfold Integration.run_full_process, Integration.update_prices_with_alpha_vantage.
  rewrite Hnone.
  destruct scraped, (Integration.has_key alpha_key); cbn [negb];
    eexists _, _; (split; [reflexivity|]);
    try done; by destruct (answers 0%nat) as [[[? ?] ?]|].
Qed.

Lemma integration_falls_back_on_example_witness :
  Forall (fun r : row => r.*1 = field_names) [Demo.scraped]
  /\ Integration.process_insider_data
       Demo.repr_float Demo.round_float Demo.py_hash Demo.now_iso
       (Some (Ok [Demo.scraped])) = []
  /\ exists a st,
       Demo.run_integration true (Some (Ok [Demo.scraped])) None (fun _ => None) true
       = Ok ([a], st)
       /\ a_id a = "example_1" /\ a_ticker a = "RDDT"
       /\ a_score a = 78 /\ a_level a = "high"
       /\ Integration.st_total_alerts st = 1%nat.
Proof.
  assert (Forall (fun r : row => r.*1 = field_names) [Demo.scraped]) as H
    by (repeat constructor).
  split; [exact H|].
  exact (integration_falls_back_on_example
           Demo.repr_float Demo.round_float Demo.py_hash Demo.now_iso
           [Demo.scraped] true None (fun _ => None) H).
Defined.

(** X24. Whatever the scraper left, a list [run_full_process] of the
    integration script saves is not empty and sorted by falling score; every
    alert has a score of 60 to 80, the level of its score, which is never
    'low', and a total value of at least 50000; the three level counts saved
    add up to ['total_alerts']. With an API key at most 5 alerts are left:
    the price update returns the alerts it has gone through. *)
Theorem integration_result_invariants
    (repr_float : PyFloat.float -> string)
    (round_float : nat -> PyFloat.float -> PyFloat.float)
    (py_hash : string -> Z) (now_iso : string)
    (scraped : bool) (csv : option (result (list row))) (alpha_key : option string)
    (answers : nat -> option (PyFloat.float * PyFloat.float * PyFloat.float))
    (writable : bool) (alerts : list alert) (st : Integration.stats) :
  Integration.run_full_process repr_float round_float py_hash now_iso
    scraped csv alpha_key answers writable = Ok (alerts, st) ->
  alerts <> []
  /\ StronglySorted score_ge alerts
  /\ Forall (fun a => Integration.kept a /\ a_level a <> "low") alerts
  /\ Integration.st_total_alerts st = length alerts
  /\ (Integration.st_critical st + Integration.st_high st + Integration.st_medium st
      = Integration.st_total_alerts st)%nat
  /\ (Integration.has_key alpha_key = true -> (length alerts <= 5)%nat).
Proof.
  unfold Integration.run_full_process.
  set (found := match (if negb scraped then _ else _) with [] => _ | _ => _ end).
  assert (found <> [] /\ Forall Integration.kept found
          /\ StronglySorted score_ge found) as (Hne & Hkept & Hsorted).
  { subst found. destruct scraped; cbn [negb].
    - pose proof (process_insider_data_kept repr_float round_float py_hash now_iso csv).
      pose proof (process_insider_data_sorted repr_float round_float py_hash now_iso csv).
      destruct (Integration.process_insider_data _ _ _ _ csv); [|done].
      split; [done|]. split; [apply example_alerts_kept|apply example_alerts_sorted].
    - split; [done|]. split; [apply example_alerts_kept|apply example_alerts_sorted]. }
  destruct (update_prices_facts round_float alpha_key answers found Hne Hkept Hsorted)
    as (Hne' & Hkept' & Hsorted' & _ & Hfive).
  destruct writable; [|done]. intros H.
  assert (alerts = Integration.update_prices_with_alpha_vantage round_float
                     alpha_key answers found) as -> by congruence.
  assert (st = Integration.web_stats round_float
                 (Integration.update_prices_with_alpha_vantage round_float
                    alpha_key answers found)) as -> by congruence.
  clear H.
  split; [done|]. split; [done|].
  split.
  { eapply Forall_impl; [exact Hkept'|]. intros a Ha. split; [done|].
    destruct Ha as (Hs & -> & _). unfold Integration.get_alert_level.
    destruct (80 <=? a_score a); [done|].
    destruct (70 <=? a_score a); [done|].
    destruct (60 <=? a_score a) eqn:H60; [done|]. lia. }
  split; [done|]. split; [|done].
  by apply count_kept_levels.
Qed.

Lemma integration_result_invariants_witness :
  exists alerts st,
    Demo.run_integration true (Some (Ok [Demo.scraped; Demo.filing]))
      (Some "key") (fun _ => None) true = Ok (alerts, st)
    /\ (a_ticker <$> alerts) = ["NVDA"]
    /\ alerts <> []
    /\ StronglySorted score_ge alerts
    /\ Forall (fun a => Integration.kept a /\ a_level a <> "low") alerts
    /\ Integration.st_total_alerts st = length alerts
    /\ (Integration.st_critical st + Integration.st_high st + Integration.st_medium st
        = Integration.st_total_alerts st)%nat
    /\ (Integration.has_key (Some "key") = true -> (length alerts <= 5)%nat).
Proof.
  eexists _, _. split; [vm_compute; reflexivity|].
  split; [vm_compute; reflexivity|].
  apply (integration_result_invariants
           Demo.repr_float Demo.round_float Demo.py_hash Demo.now_iso
           true (Some (Ok [Demo.scraped; Demo.filing])) (Some "key") (fun _ => None) true).
  vm_compute. reflexivity.
Defined.
